(** * contratos_timeline.py: interval sanitizing, monthly activity and
      timeline layout

    A shallow embedding of [load_data],
    [calculate_active_contracts_by_month], [create_timeline_chart] and
    [create_active_contracts_chart], together with the pandas operations
    these functions rely on (timestamps, [date_range] with [freq='MS'],
    column reductions, boolean row selection). *)

From Stdlib Require Import ZArith List String Ascii Bool Lia QArith.
From Stdlib Require Import Sorting.Sorted DecimalString Sorting.Permutation.
Import ListNotations.
Open Scope Z_scope.

(* ================================================================== *)
(** * The proleptic Gregorian calendar

    pandas stores a [Timestamp] as a count of nanoseconds since
    1970-01-01; the count of days is the one of Python's [datetime]
    ([_days_before_year], [_days_before_month], [_ymd2ord]). *)

Module Calendar.

Definition is_leap (year : Z) : bool :=
  (year mod 4 =? 0) && (negb (year mod 100 =? 0) || (year mod 400 =? 0)).

Definition days_before_year (year : Z) : Z :=
  let y := year - 1 in y * 365 + y / 4 - y / 100 + y / 400.

Definition days_in_month (year month : Z) : Z :=
  match month with
  | 2 => if is_leap year then 29 else 28
  | 4 | 6 | 9 | 11 => 30
  | _ => 31
  end.

(** [_DAYS_BEFORE_MONTH], for a year that is not a leap year. *)
Definition DAYS_BEFORE_MONTH (month : Z) : Z :=
  match month with
  | 1 => 0 | 2 => 31 | 3 => 59 | 4 => 90 | 5 => 120 | 6 => 151
  | 7 => 181 | 8 => 212 | 9 => 243 | 10 => 273 | 11 => 304 | 12 => 334
  | _ => 0
  end.

Definition days_before_month (year month : Z) : Z :=
  DAYS_BEFORE_MONTH month + (if (2 <? month) && is_leap year then 1 else 0).

Definition ymd2ord (year month day : Z) : Z :=
  days_before_year year + days_before_month year month + day.

(** Ordinal of 1970-01-01. *)
Definition EPOCH_ORD : Z := 719163.

Definition NS_PER_DAY : Z := 86400000000000.

End Calendar.

(* ================================================================== *)
(** * Timestamps

    A [pd.Timestamp] other than [NaT]: a calendar date and the time of
    day, the latter kept as one number of nanoseconds since midnight.
    [NaT] itself is [None] in an [option Timestamp]. *)

Record Timestamp : Type := mkTimestamp {
  year : Z;
  month : Z;
  day : Z;
  time_ns : Z
}.

(** [Timestamp.value]: nanoseconds since the epoch.  pandas compares and
    subtracts timestamps through this number. *)
Definition value (t : Timestamp) : Z :=
  (Calendar.ymd2ord (year t) (month t) (day t) - Calendar.EPOCH_ORD)
    * Calendar.NS_PER_DAY + time_ns t.

Definition ts_leb (a b : Timestamp) : bool := value a <=? value b.
Definition ts_ltb (a b : Timestamp) : bool := value a <? value b.

Definition ts_le (a b : Timestamp) : Prop := value a <= value b.
Definition ts_lt (a b : Timestamp) : Prop := value a < value b.

(** The fields of a timestamp that pandas can build. *)
Definition ts_valid (t : Timestamp) : Prop :=
  1 <= month t <= 12 /\
  1 <= day t <= Calendar.days_in_month (year t) (month t) /\
  0 <= time_ns t < Calendar.NS_PER_DAY.

(** A timestamp that is a plain calendar date (midnight). *)
Definition is_date (t : Timestamp) : Prop := time_ns t = 0.

(** [pd.Timestamp(y, m, d)]. *)
Definition Timestamp_ymd (y m d : Z) : Timestamp := mkTimestamp y m d 0.

(** [ts.replace(day=1)]: only the day changes, the time of day stays. *)
Definition replace_day1 (t : Timestamp) : Timestamp :=
  mkTimestamp (year t) (month t) 1 (time_ns t).

(** [NaT.replace(day=1)] is [NaT]. *)
Definition nat_replace_day1 (t : option Timestamp) : option Timestamp :=
  option_map replace_day1 t.

(** [(b - a).days]: a [Timedelta]'s [days] is the floor of the difference
    in days. *)
Definition timedelta_days (b a : Timestamp) : Z :=
  (value b - value a) / Calendar.NS_PER_DAY.

(** [Series.min()] and [Series.max()] of a datetime column: [NaT] when the
    column is empty. *)
Definition ts_min2 (a b : Timestamp) : Timestamp :=
  if ts_ltb b a then b else a.
Definition ts_max2 (a b : Timestamp) : Timestamp :=
  if ts_ltb a b then b else a.

Definition series_min (col : list Timestamp) : option Timestamp :=
  match col with
  | [] => None
  | t :: rest => Some (fold_left ts_min2 rest t)
  end.

Definition series_max (col : list Timestamp) : option Timestamp :=
  match col with
  | [] => None
  | t :: rest => Some (fold_left ts_max2 rest t)
  end.

(* ================================================================== *)
(** * Exceptions and results *)

(** A [KeyError] carries the [repr] of its key, which is what [str(e)]
    prints. *)
Inductive Exception : Type :=
| KeyError (key_repr : string)
| ValueError (msg : string)
| OtherError (msg : string).

Inductive PyResult (A : Type) : Type :=
| Ok (a : A)
| Raise (e : Exception).
Arguments Ok {A} a.
Arguments Raise {A} e.

(* ================================================================== *)
(** * [pd.date_range(start, end, freq='MS')] *)

Module DateRange.

(** [MonthBegin(1)] added to a timestamp: the first day of the next
    month, same time of day. *)
Definition month_begin_apply (t : Timestamp) : Timestamp :=
  if month t =? 12
  then mkTimestamp (year t + 1) 1 1 (time_ns t)
  else mkTimestamp (year t) (month t + 1) 1 (time_ns t).

Definition is_on_offset (t : Timestamp) : bool := day t =? 1.

Definition rollforward (t : Timestamp) : Timestamp :=
  if is_on_offset t then t else month_begin_apply t.

(** Months counted from year 0. *)
Definition month_index (t : Timestamp) : Z := year t * 12 + (month t - 1).

(** [while cur <= end: yield cur; cur = cur + offset], with the number
    of iterations bounded by [fuel]. *)
Fixpoint generate (fuel : nat) (cur end_ : Timestamp) : list Timestamp :=
  match fuel with
  | O => []
  | S fuel' =>
      if ts_leb cur end_
      then cur :: generate fuel' (month_begin_apply cur) end_
      else []
  end.

(** One iteration per month between the two bounds is all the loop can
    make (see [generate_fuel_enough]). *)
Definition fuel_for (start end_ : Timestamp) : nat :=
  Z.to_nat (month_index end_ - month_index start + 1).

Definition date_range_MS (start end_ : option Timestamp)
  : PyResult (list Timestamp) :=
  match start, end_ with
  | Some s, Some e =>
      let s' := rollforward s in
      Ok (generate (fuel_for s' e) s' e)
  | _, _ => Raise (ValueError "Neither `start` nor `end` can be NaT")
  end.

End DateRange.

(* ================================================================== *)
(** * Python strings and containers used by the program *)

Module Py.

(** [str(n)] for an integer. *)
Definition str_of_int (n : Z) : string :=
  NilZero.string_of_int (Z.to_int n).

Fixpoint zeros (n : nat) : string :=
  match n with
  | O => EmptyString
  | S n' => String "0" (zeros n')
  end.

(** A Python [str] is a sequence of code points; a [string] holds its
    UTF-8 encoding.  The bytes [10xxxxxx] continue a code point, every
    other byte starts one. *)
Definition is_continuation (c : ascii) : bool :=
  let n := nat_of_ascii c in (Nat.leb 128 n && Nat.ltb n 192)%bool.

(** [len(s)]: the number of code points of [s]. *)
Fixpoint len (s : string) : nat :=
  match s with
  | EmptyString => O
  | String c rest => if is_continuation c then len rest else S (len rest)
  end.

(** [s.zfill(width)]: zeros go after a leading sign. *)
Definition zfill (width : nat) (s : string) : string :=
  if Nat.leb width (len s) then s
  else
    let fill := zeros (width - len s) in
    match s with
    | String c rest =>
        if (Ascii.eqb c "+" || Ascii.eqb c "-")%bool
        then String c (fill ++ rest)
        else (fill ++ s)%string
    | EmptyString => fill
    end.

(** The code points that [str.isspace] accepts, by the length of their
    encoding: U+0009 to U+000D and U+001C to U+0020 on one byte; U+0085
    and U+00A0 on two; U+1680, U+2000 to U+200A, U+2028, U+2029, U+202F,
    U+205F and U+3000 on three. *)
Definition isspace (c : ascii) : bool :=
  let n := nat_of_ascii c in
  ((Nat.leb 9 n && Nat.leb n 13) || (Nat.leb 28 n && Nat.leb n 32))%bool.

Definition isspace2 (a b : ascii) : bool :=
  let y := nat_of_ascii b in
  (Nat.eqb (nat_of_ascii a) 194 && (Nat.eqb y 133 || Nat.eqb y 160))%bool.

Definition isspace3 (a b c : ascii) : bool :=
  let x := nat_of_ascii a in
  let y := nat_of_ascii b in
  let z := nat_of_ascii c in
  ((Nat.eqb x 225 && Nat.eqb y 154 && Nat.eqb z 128)
   || (Nat.eqb x 226 && Nat.eqb y 128
       && ((Nat.leb 128 z && Nat.leb z 138)
           || Nat.eqb z 168 || Nat.eqb z 169 || Nat.eqb z 175))
   || (Nat.eqb x 226 && Nat.eqb y 129 && Nat.eqb z 159)
   || (Nat.eqb x 227 && Nat.eqb y 128 && Nat.eqb z 128))%bool.

(** The bytes [l] begin with a code point taken by [sp1], [sp2] or
    [sp3]. *)
Definition space_prefix (sp1 : ascii -> bool) (sp2 : ascii -> ascii -> bool)
    (sp3 : ascii -> ascii -> ascii -> bool) (l : list ascii) : bool :=
  match l with
  | a :: l1 =>
      (sp1 a
       || match l1 with
          | b :: l2 =>
              (sp2 a b
               || match l2 with
                  | c :: _ => sp3 a b c
                  | [] => false
                  end)
          | [] => false
          end)%bool
  | [] => false
  end.

(** [while i < n and s[i].isspace(): i += 1], one code point a turn. *)
Fixpoint skip_spaces (sp1 : ascii -> bool) (sp2 : ascii -> ascii -> bool)
    (sp3 : ascii -> ascii -> ascii -> bool) (l : list ascii) : list ascii :=
  match l with
  | a :: l1 =>
      if sp1 a then skip_spaces sp1 sp2 sp3 l1
      else
        match l1 with
        | b :: l2 =>
            if sp2 a b then skip_spaces sp1 sp2 sp3 l2
            else
              match l2 with
              | c :: l3 =>
                  if sp3 a b c then skip_spaces sp1 sp2 sp3 l3 else l
              | [] => l
              end
        | [] => l
        end
  | [] => []
  end.

Definition lstrip_bytes (l : list ascii) : list ascii :=
  skip_spaces isspace isspace2 isspace3 l.

(** From the end, a code point is met last byte first. *)
Definition rstrip_bytes (l : list ascii) : list ascii :=
  rev (skip_spaces isspace (fun b a => isspace2 a b)
                   (fun c b a => isspace3 a b c) (rev l)).

Definition lstrip (s : string) : string :=
  string_of_list_ascii (lstrip_bytes (list_ascii_of_string s)).

Definition rstrip (s : string) : string :=
  string_of_list_ascii (rstrip_bytes (list_ascii_of_string s)).

(** [s.strip()]. *)
Definition strip (s : string) : string :=
  string_of_list_ascii
    (rstrip_bytes (lstrip_bytes (list_ascii_of_string s))).

(** [range(a, b)]. *)
Definition range (a b : Z) : list Z :=
  map (fun k => a + Z.of_nat k) (seq 0 (Z.to_nat (b - a))).

(** [sorted(set(l))] for integers: ascending, each value once. *)
Fixpoint insert_uniq (x : Z) (l : list Z) : list Z :=
  match l with
  | [] => [x]
  | y :: l' =>
      if x <? y then x :: l
      else if x =? y then l
      else y :: insert_uniq x l'
  end.

Definition sorted_set (l : list Z) : list Z :=
  fold_right insert_uniq [] l.

(** A [dict] with string keys.  Keys keep the order of their first
    insertion; assigning to a key that is present replaces its value in
    place. *)
Definition Dict (V : Type) : Type := list (string * V).

Fixpoint dict_set {V} (d : Dict V) (k : string) (v : V) : Dict V :=
  match d with
  | [] => [(k, v)]
  | (k', v') :: d' =>
      if String.eqb k' k then (k, v) :: d' else (k', v') :: dict_set d' k v
  end.

Fixpoint dict_get {V} (d : Dict V) (k : string) : option V :=
  match d with
  | [] => None
  | (k', v') :: d' => if String.eqb k' k then Some v' else dict_get d' k
  end.

Definition is_empty {A} (l : list A) : bool :=
  match l with [] => true | _ => false end.

End Py.

(* ================================================================== *)
(** * The plotly figures

    What the two charts are made of, as far as the program sets it. *)

(** One [go.Scatter] bar: its two end points, its row, the index of its
    colour in [Set3] and what the hover text is made of. *)
Record Trace : Type := mkTrace {
  trace_x : Timestamp * Timestamp;
  trace_y : Z;
  trace_color : nat;
  hover_categoria : string;
  hover_dni : string;
  hover_duracion : Z
}.

(** A vertical line and the annotation of a year. *)
Record Shape : Type := mkShape {
  shape_x : Timestamp;
  shape_y0 : Z;
  shape_y1 : Z
}.

Record Annotation : Type := mkAnnotation {
  ann_x : Timestamp;
  ann_y : Z;
  ann_text : string
}.

Record Figure : Type := mkFigure {
  fig_data : list Trace;
  fig_shapes : list Shape;
  fig_annotations : list Annotation;
  fig_height : Z;
  fig_tickvals : list Q;
  fig_ticktext : list string
}.

(** One line of the monthly chart, and the chart. *)
Record LineTrace : Type := mkLineTrace {
  line_name : string;
  line_x : list Timestamp;
  line_y : list Z;
  line_color : nat
}.

Record LineFigure : Type := mkLineFigure {
  line_data : list LineTrace;
  line_shapes : list Shape
}.

(* ================================================================== *)
(** * What the program shows through Streamlit

    The calls of [st] and [st.sidebar] that put something on the page
    append to it.  The functions that call them are written in a state
    monad over the list of what has been shown so far. *)

Inductive UiEvent : Type :=
| SidebarWrite (label : string) (cols : list string)
| SidebarSuccess (msg : string)
| SidebarText (msg : string)
| SidebarHeader (msg : string)
| StError (msg : string)
| StWarning (msg : string)
| StHeader (msg : string)
| StMetric (label : string) (value : Z)
| StPlotlyLines (fig : LineFigure)
| StPlotlyTimeline (fig : Figure).

Definition Page : Type := list UiEvent.

Definition UI (A : Type) : Type := Page -> A * Page.

Definition ret {A} (a : A) : UI A := fun p => (a, p).

Definition bind {A B} (m : UI A) (k : A -> UI B) : UI B :=
  fun p => let (a, p') := m p in k a p'.

Definition emit (e : UiEvent) : UI unit := fun p => (tt, p ++ [e]).

Notation "x <- m ;; k" := (bind m (fun x => k))
  (at level 61, m at next level, right associativity).
Notation "m ;; k" := (bind m (fun _ => k))
  (at level 61, right associativity).

Definition result_of {A} (m : UI A) (p : Page) : A := fst (m p).

(** [str(e)] for the exceptions of the model. *)
Definition exception_text (e : Exception) : string :=
  match e with
  | KeyError k => k
  | ValueError m => m
  | OtherError m => m
  end.

(* ================================================================== *)
(** * The cleaned table

    One row of the frame that [load_data] returns.  After [dropna] no date
    is [NaT], which the types of [Falta] and [Fbaja] record. *)

Record Row : Type := mkRow {
  DNI : string;
  CATEGORIA : string;
  Falta : Timestamp;
  Fbaja : Timestamp;
  Duracion : Z
}.

Definition DataFrame : Type := list Row.

(* ================================================================== *)
(** * [load_data] *)

(** What pandas does with the values of the frame.  A [Cell] is a value as
    the frame of [pd.read_excel] holds it, typed by its column: in a column
    of whole numbers with a blank cell the numbers are floats.

    - [cell_isna]: [pd.isna] of one value, the test of [dropna];
    - [to_datetime]: [pd.to_datetime(column, errors='coerce')], with [None]
      for [NaT].  It converts a column as a whole: the dtype of the column
      and, for text, the format taken from its first value decide what
      every value becomes;
    - [astype_str]: [column.astype(str)], of a column as well.

    Both conversions return one value per value of the column. *)
Class CellOps (Cell : Type) : Type := {
  cell_isna : Cell -> bool;
  to_datetime : list Cell -> list (option Timestamp);
  astype_str : list Cell -> list string;
  to_datetime_length :
    forall col, List.length (to_datetime col) = List.length col;
  astype_str_length :
    forall col, List.length (astype_str col) = List.length col
}.

(** The frame that [pd.read_excel] returns: the labels of its columns and,
    label by label, the values of the column. *)
Record RawFrame (Cell : Type) : Type := mkRawFrame {
  columns : list string;
  values : list (list Cell)
}.
Arguments mkRawFrame {Cell} _ _.
Arguments columns {Cell} _.
Arguments values {Cell} _.

(** A row of the four columns once both date columns went through
    [pd.to_datetime]. *)
Record CoercedRow (Cell : Type) : Type := mkCoercedRow {
  c_DNI : Cell;
  c_CATEGORIA : Cell;
  c_Falta : option Timestamp;
  c_Fbaja : option Timestamp
}.
Arguments mkCoercedRow {Cell} _ _ _ _.
Arguments c_DNI {Cell} _.
Arguments c_CATEGORIA {Cell} _.
Arguments c_Falta {Cell} _.
Arguments c_Fbaja {Cell} _.

(** A row that [dropna] keeps: no value of it is missing. *)
Record DatedRow (Cell : Type) : Type := mkDatedRow {
  d_DNI : Cell;
  d_CATEGORIA : Cell;
  d_Falta : Timestamp;
  d_Fbaja : Timestamp
}.
Arguments mkDatedRow {Cell} _ _ _ _.
Arguments d_DNI {Cell} _.
Arguments d_CATEGORIA {Cell} _.
Arguments d_Falta {Cell} _.
Arguments d_Fbaja {Cell} _.

Fixpoint column_index (name : string) (cols : list string) : option nat :=
  match cols with
  | [] => None
  | c :: cols' =>
      if String.eqb c name then Some O
      else option_map S (column_index name cols')
  end.

Definition duracion_ok (r : Row) : bool :=
  (Duracion r >=? 0) && (Duracion r <=? 10000).

(** The rows of four columns of equal length. *)
Fixpoint zip_rows {Cell : Type} (dni cat : list Cell)
    (falta fbaja : list (option Timestamp)) : list (CoercedRow Cell) :=
  match dni, cat, falta, fbaja with
  | d :: dni', c :: cat', f :: falta', b :: fbaja' =>
      mkCoercedRow d c f b :: zip_rows dni' cat' falta' fbaja'
  | _, _, _, _ => []
  end.

Section Ingestion.

Context {Cell : Type} {ops : CellOps Cell}.

(** Lines 26-27: the two date columns are converted, each as a whole. *)
Definition coerce_dates (dni cat falta fbaja : list Cell)
  : list (CoercedRow Cell) :=
  zip_rows dni cat (to_datetime falta) (to_datetime fbaja).

(** Line 30, [dropna(subset=[...])]: a row goes when one of its four
    values is missing. *)
Definition dropna_row (r : CoercedRow Cell) : option (DatedRow Cell) :=
  if (cell_isna (c_DNI r) || cell_isna (c_CATEGORIA r))%bool then None
  else
    match c_Falta r, c_Fbaja r with
    | Some falta, Some fbaja =>
        Some (mkDatedRow (c_DNI r) (c_CATEGORIA r) falta fbaja)
    | _, _ => None
    end.

Fixpoint dropna (rows : list (CoercedRow Cell)) : list (DatedRow Cell) :=
  match rows with
  | [] => []
  | r :: rows' =>
      match dropna_row r with
      | Some row => row :: dropna rows'
      | None => dropna rows'
      end
  end.

(** Lines 33-37: the columns [DNI] and [CATEGORIA] of the rows that are
    left become strings, each column as a whole, and every row gets its
    [Duracion]. *)
Definition with_strings (d : DatedRow Cell) (names : string * string)
  : Row :=
  {| DNI := fst names;
     CATEGORIA := snd names;
     Falta := d_Falta d;
     Fbaja := d_Fbaja d;
     Duracion := timedelta_days (d_Fbaja d) (d_Falta d) |}.

Definition normalise (rows : list (DatedRow Cell)) : DataFrame :=
  let dni := map (Py.zfill 9) (astype_str (map d_DNI rows)) in
  let categoria := map Py.strip (astype_str (map d_CATEGORIA rows)) in
  map (fun dn => with_strings (fst dn) (snd dn))
      (combine rows (combine dni categoria)).

(** The body of the [try], after [pd.read_excel] and the sidebar line.
    Indexing with a missing column raises [KeyError]; [dropna] raises it
    with the list of the labels of [subset] that are missing. *)
Definition load_data_body (df : RawFrame Cell) : PyResult DataFrame :=
  match column_index "Falta" (columns df) with
  | None => Raise (KeyError "'Falta'")
  | Some iF =>
  match column_index "Fbaja" (columns df) with
  | None => Raise (KeyError "'Fbaja'")
  | Some iB =>
  match column_index "DNI" (columns df),
        column_index "CATEGORIA" (columns df) with
  | None, None => Raise (KeyError "['DNI', 'CATEGORIA']")
  | None, Some _ => Raise (KeyError "['DNI']")
  | Some _, None => Raise (KeyError "['CATEGORIA']")
  | Some iD, Some iC =>
      let column i := nth i (values df) [] in
      let coerced :=
        coerce_dates (column iD) (column iC) (column iF) (column iB) in
      Ok (filter duracion_ok (normalise (dropna coerced)))
  end end end.

Definition load_data_except (e : Exception) : UI (option DataFrame) :=
  emit (StError ("Error al cargar el archivo: " ++ exception_text e)) ;;
  emit (StError "Verifica que el archivo tenga las columnas: DNI, CATEGORIA, Falta, Fbaja") ;;
  ret None.

(** [file_path] stands for what [pd.read_excel(file_path)] does: it
    returns a frame or raises. *)
Definition load_data (file_path : PyResult (RawFrame Cell))
  : UI (option DataFrame) :=
  match file_path with
  | Raise e => load_data_except e
  | Ok df =>
      emit (SidebarWrite "Columnas encontradas:" (columns df)) ;;
      match load_data_body df with
      | Ok df' => ret (Some df')
      | Raise e => load_data_except e
      end
  end.

End Ingestion.

(* ================================================================== *)
(** * Row selection *)

(** [df['CATEGORIA'].isin(categorias_seleccionadas)]. *)
Definition isin (categorias_seleccionadas : list string) (r : Row) : bool :=
  existsb (String.eqb (CATEGORIA r)) categorias_seleccionadas.

(** [df['CATEGORIA'] == categoria] and [df['DNI'] == dni]. *)
Definition categoria_is (categoria : string) (r : Row) : bool :=
  String.eqb (CATEGORIA r) categoria.
Definition dni_is (dni : string) (r : Row) : bool :=
  String.eqb (DNI r) dni.

(** [Series.unique()]: the values in the order of their first
    appearance. *)
Fixpoint unique (l : list string) : list string :=
  match l with
  | [] => []
  | x :: l' => x :: filter (fun y => negb (String.eqb y x)) (unique l')
  end.

(** [Series.nunique()]. *)
Definition nunique (l : list string) : nat := List.length (unique l).

(* ================================================================== *)
(** * [calculate_active_contracts_by_month] *)

(** The value stored per category: [{'meses': ..., 'contratos': ...}]. *)
Record Series : Type := mkSeries {
  meses : list Timestamp;
  contratos : list Z
}.

(** Lines 56-63: the range of dates of the filtered frame and the months
    between them. *)
Definition month_grid (df_filtrado : DataFrame) : PyResult (list Timestamp) :=
  let fecha_min := series_min (map Falta df_filtrado) in
  let fecha_max := series_max (map Fbaja df_filtrado) in
  DateRange.date_range_MS (nat_replace_day1 fecha_min)
                          (nat_replace_day1 fecha_max).

(** [(df_cat['Falta'] <= mes) & (df_cat['Fbaja'] >= mes)]. *)
Definition active_at (mes : Timestamp) (r : Row) : bool :=
  ts_leb (Falta r) mes && (value (Fbaja r) >=? value mes).

(** The body of the loop over the months: [.shape[0]] of the selection. *)
Definition activos (df_cat : DataFrame) (mes : Timestamp) : Z :=
  Z.of_nat (List.length (filter (active_at mes) df_cat)).

(** The body of the loop over the categories. *)
Definition categoria_series (df_filtrado : DataFrame) (meses : list Timestamp)
    (resultados : Py.Dict Series) (categoria : string) : Py.Dict Series :=
  let df_cat := filter (categoria_is categoria) df_filtrado in
  let contratos_por_mes := map (activos df_cat) meses in
  Py.dict_set resultados categoria
    {| meses := meses; contratos := contratos_por_mes |}.

Definition calculate_active_contracts_by_month
    (df : option DataFrame) (categorias_seleccionadas : list string)
  : PyResult (Py.Dict Series) :=
  match df with
  | None => Ok []
  | Some df =>
      if Py.is_empty df then Ok []
      else
        let df_filtrado := filter (isin categorias_seleccionadas) df in
        match month_grid df_filtrado with
        | Raise e => Raise e
        | Ok meses =>
            Ok (fold_left (categoria_series df_filtrado meses)
                          categorias_seleccionadas [])
        end
  end.

(* ================================================================== *)
(** * [create_timeline_chart] *)

(** [len(px.colors.qualitative.Set3)]. *)
Definition SET3_LEN : nat := 12.

(** The variables that the loops of lines 105-148 update. *)
Record Layout : Type := mkLayout {
  traces : list Trace;
  y_position : Z;
  categoria_positions : Py.Dict Z
}.

(** Lines 123-143: one bar per contract of the person, all of them at the
    current [y_position].  (The [pd.isna] test of line 125 is never true on
    a [Row].)  [scatter] is the [go.Scatter] of lines 129-143. *)
Definition scatter (categoria : string) (i : nat) (dni : string) (y : Z)
    (contrato : Row) : Trace :=
  {| trace_x := (Falta contrato, Fbaja contrato);
     trace_y := y;
     trace_color := Nat.modulo i SET3_LEN;
     hover_categoria := categoria;
     hover_dni := dni;
     hover_duracion := Duracion contrato |}.

Definition add_trace (categoria : string) (i : nat) (dni : string) (y : Z)
    (fig : list Trace) (contrato : Row) : list Trace :=
  fig ++ [scatter categoria i dni y contrato].

(** Lines 120-145: the body of [for dni in df_cat['DNI'].unique()]. *)
Definition dni_body (df_cat : DataFrame) (categoria : string) (i : nat)
    (st : Layout) (dni : string) : Layout :=
  let df_dni := filter (dni_is dni) df_cat in
  {| traces := fold_left (add_trace categoria i dni (y_position st))
                         df_dni (traces st);
     y_position := y_position st + 1;
     categoria_positions := categoria_positions st |}.

(** Lines 111-148: the body of [for i, categoria in enumerate(...)]. *)
Definition categoria_body (df_filtrado : DataFrame) (i : nat)
    (categoria : string) (st : Layout) : Layout :=
  let df_cat := filter (categoria_is categoria) df_filtrado in
  if Py.is_empty df_cat then st
  else
    let st1 := {| traces := traces st;
                  y_position := y_position st;
                  categoria_positions :=
                    Py.dict_set (categoria_positions st) categoria
                                (y_position st) |} in
    let st2 := fold_left (dni_body df_cat categoria i)
                         (unique (map DNI df_cat)) st1 in
    {| traces := traces st2;
       y_position := y_position st2 + 2;
       categoria_positions := categoria_positions st2 |}.

Fixpoint for_categorias (df_filtrado : DataFrame) (i : nat)
    (categorias : list string) (st : Layout) : Layout :=
  match categorias with
  | [] => st
  | categoria :: rest =>
      for_categorias df_filtrado (S i) rest
        (categoria_body df_filtrado i categoria st)
  end.

Definition timeline_layout (df_filtrado : DataFrame)
    (categorias_seleccionadas : list string) : Layout :=
  for_categorias df_filtrado 0 categorias_seleccionadas
    {| traces := []; y_position := 0; categoria_positions := [] |}.

(** Lines 151-152: the years whose first day gets a red line. *)
Definition timeline_years (fecha_min fecha_max : option Timestamp) : list Z :=
  match fecha_min, fecha_max with
  | Some lo, Some hi => Py.range (year lo + 1) (year hi + 1)
  | _, _ => []
  end.

Definition timeline_figure (df_filtrado : DataFrame)
    (categorias_seleccionadas : list string) : Figure :=
  let fecha_min := series_min (map Falta df_filtrado) in
  let fecha_max := series_max (map Fbaja df_filtrado) in
  let st := timeline_layout df_filtrado categorias_seleccionadas in
  let anios := timeline_years fecha_min fecha_max in
  let labelled :=
    filter (fun cat =>
              match Py.dict_get (categoria_positions st) cat with
              | Some _ => true | None => false end)
           categorias_seleccionadas in
  {| fig_data := traces st;
     fig_shapes :=
       map (fun a => {| shape_x := Timestamp_ymd a 1 1;
                        shape_y0 := 0;
                        shape_y1 := y_position st |}) anios;
     fig_annotations :=
       map (fun a => {| ann_x := Timestamp_ymd a 1 1;
                        ann_y := y_position st;
                        ann_text := Py.str_of_int a |}) anios;
     fig_height := Z.max 600 (y_position st * 15);
     fig_tickvals :=
       map (fun cat =>
              let pos := match Py.dict_get (categoria_positions st) cat with
                         | Some p => p | None => 0 end in
              let n := nunique (map DNI (filter (categoria_is cat) df_filtrado)) in
              (inject_Z pos + inject_Z (Z.of_nat n) / 2)%Q)
           labelled;
     fig_ticktext := labelled |}.

Definition create_timeline_chart (df : option DataFrame)
    (categorias_seleccionadas : list string) : UI (option Figure) :=
  match df with
  | None => ret None
  | Some df =>
      if Py.is_empty df || Py.is_empty categorias_seleccionadas then ret None
      else
        let df_filtrado := filter (isin categorias_seleccionadas) df in
        if Py.is_empty df_filtrado then
          emit (StWarning "No hay datos para las categorías seleccionadas") ;;
          ret None
        else ret (Some (timeline_figure df_filtrado categorias_seleccionadas))
  end.

(** The years that the figure marks. *)
Definition marked_years (shapes : list Shape) : list Z :=
  map (fun s => year (shape_x s)) shapes.

(* ================================================================== *)
(** * [create_active_contracts_chart] *)

Fixpoint enumerate_from {A} (i : nat) (l : list A) : list (nat * A) :=
  match l with
  | [] => []
  | x :: l' => (i, x) :: enumerate_from (S i) l'
  end.

(** Lines 227-228: [sorted(set(mes.year for mes in meses))[1:]]. *)
Definition monthly_years (meses : list Timestamp) : list Z :=
  tl (Py.sorted_set (map year meses)).

Definition create_active_contracts_chart (datos_activos : Py.Dict Series)
  : option LineFigure :=
  match datos_activos with
  | [] => None
  | (primer_categoria, primera) :: _ =>
      Some
        {| line_data :=
             map (fun '(i, (categoria, data)) =>
                    {| line_name := categoria;
                       line_x := meses data;
                       line_y := contratos data;
                       line_color := Nat.modulo i SET3_LEN |})
                 (enumerate_from 0 datos_activos);
           line_shapes :=
             map (fun a => {| shape_x := Timestamp_ymd a 1 1;
                              shape_y0 := 0;
                              shape_y1 := 1 |})
                 (monthly_years (meses primera)) |}
  end.

(* ================================================================== *)
(** * [main] from the uploaded file to the two charts

    Lines 272-318 and 347-348.  The uploaded file and the categories
    chosen in the multiselect are the two inputs; the spinner of line 274
    leaves nothing on the page. *)

Record Views : Type := mkViews {
  datos_activos : Py.Dict Series;
  fig_activos : option LineFigure;
  fig_timeline : option Figure
}.

(** Lines 298-308: the three numbers of [st.metric]. *)
Record Metrics : Type := mkMetrics {
  total_contratos : nat;
  total_personas : nat;
  categorias_elegidas : nat
}.

Definition main_metrics (df : DataFrame)
    (categorias_seleccionadas : list string) : Metrics :=
  let df_filtrado := filter (isin categorias_seleccionadas) df in
  {| total_contratos := List.length df_filtrado;
     total_personas := nunique (map DNI df_filtrado);
     categorias_elegidas := List.length categorias_seleccionadas |}.

(** [t.strftime('%d/%m/%Y')] (a [Timestamp] has a year of four digits). *)
Definition strftime_dmy (t : Timestamp) : string :=
  (Py.zfill 2 (Py.str_of_int (day t)) ++ "/"
   ++ Py.zfill 2 (Py.str_of_int (month t)) ++ "/"
   ++ Py.str_of_int (year t))%string.

Definition emit_metrics (m : Metrics) : UI unit :=
  emit (StMetric "Total Contratos" (Z.of_nat (total_contratos m))) ;;
  emit (StMetric "Total Personas" (Z.of_nat (total_personas m))) ;;
  emit (StMetric "Categorías Seleccionadas"
                 (Z.of_nat (categorias_elegidas m))).

Section Main.

Context {Cell : Type} {ops : CellOps Cell}.

Definition main_views (uploaded_file : PyResult (RawFrame Cell))
    (categorias_seleccionadas : list string)
  : UI (PyResult (option Views)) :=
  df <- load_data uploaded_file ;;
  match df with
  | None => ret (Ok None)
  | Some df =>
      emit (SidebarSuccess
              ("✅ Datos cargados: "
               ++ Py.str_of_int (Z.of_nat (List.length df))
               ++ " contratos")) ;;
      (* line 280 formats the first and the last date of the frame *)
      match series_min (map Falta df), series_max (map Fbaja df) with
      | Some fecha_min, Some fecha_max =>
      emit (SidebarText ("📅 Período: " ++ strftime_dmy fecha_min
                         ++ " - " ++ strftime_dmy fecha_max)) ;;
      emit (SidebarHeader "Filtros") ;;
      if Py.is_empty categorias_seleccionadas then
        emit (StWarning "⚠️ Selecciona al menos una categoría para visualizar los datos.") ;;
        ret (Ok None)
      else
        match calculate_active_contracts_by_month (Some df)
                categorias_seleccionadas with
        | Raise e => ret (Raise e)
        | Ok datos =>
            emit_metrics (main_metrics df categorias_seleccionadas) ;;
            emit (StHeader "Contratos Activos por Mes") ;;
            let fig_activos := create_active_contracts_chart datos in
            match fig_activos with
            | Some fig => emit (StPlotlyLines fig)
            | None => ret tt
            end ;;
            emit (StHeader "Línea Temporal Detallada") ;;
            fig <- create_timeline_chart (Some df) categorias_seleccionadas ;;
            match fig with
            | Some fig => emit (StPlotlyTimeline fig)
            | None => ret tt
            end ;;
            ret (Ok (Some {| datos_activos := datos;
                             fig_activos := fig_activos;
                             fig_timeline := fig |}))
        end
      | _, _ => ret (Raise (ValueError "NaTType does not support strftime"))
      end
  end.

End Main.

(* ================================================================== *)
(** * Vocabulary of the properties *)

(** The first instant of the month of [t]. *)
Definition floor_to_month (t : Timestamp) : Timestamp :=
  mkTimestamp (year t) (month t) 1 0.

(** The first day of the month number [k] (months counted from year 0),
    at [tod] nanoseconds after midnight. *)
Definition month_point (tod : Z) (k : Z) : Timestamp :=
  mkTimestamp (k / 12) (k mod 12 + 1) 1 tod.

(** The first days of all the months from the month of [lo] to the month
    of [hi], both included. *)
Definition months_between (lo hi : Timestamp) : list Timestamp :=
  map (month_point 0)
      (Py.range (DateRange.month_index lo) (DateRange.month_index hi + 1)).

(** What [load_data] guarantees of a row it keeps. *)
Definition validated (r : Row) : Prop :=
  ts_valid (Falta r) /\ ts_valid (Fbaja r) /\
  Duracion r = timedelta_days (Fbaja r) (Falta r) /\
  0 <= Duracion r <= 10000.

(** Both dates of the row are calendar dates, with no time of day. *)
Definition calendar_dates (r : Row) : Prop :=
  is_date (Falta r) /\ is_date (Fbaja r).

(** The day number of a timestamp. *)
Definition ord (t : Timestamp) : Z :=
  Calendar.ymd2ord (year t) (month t) (day t).

(** The last month index that the loop of [date_range] reaches, between a
    start at [tod] and an end at [tod'] nanoseconds after midnight. *)
Definition last_index (tod tod' e : Z) : Z :=
  if tod <=? tod' then e else e - 1.

(** Interval [i] contains the instant [m]. *)
Definition counted_at (i : Row) (m : Timestamp) : Prop :=
  ts_le (Falta i) m /\ ts_le m (Fbaja i).

(** [Count P l n]: exactly [n] elements of [l] satisfy [P]. *)
Inductive Count {A : Type} (P : A -> Prop) : list A -> nat -> Prop :=
| Count_nil : Count P [] 0
| Count_yes x l n : P x -> Count P l n -> Count P (x :: l) (S n)
| Count_no x l n : ~ P x -> Count P l n -> Count P (x :: l) n.

(* ------------------------------------------------------------------ *)
(** ** The loops of the layout in closed form *)

(** The bars of the persons [dnis], one row per person from row [y] on. *)
Fixpoint person_rows (df_cat : DataFrame) (categoria : string) (i : nat)
    (y : Z) (dnis : list string) : list Trace :=
  match dnis with
  | [] => []
  | dni :: rest =>
      map (scatter categoria i dni y) (filter (dni_is dni) df_cat)
        ++ person_rows df_cat categoria i (y + 1) rest
  end.

(** The bars of one category whose block starts at row [y]. *)
Definition block (df : DataFrame) (i : nat) (categoria : string) (y : Z)
  : list Trace :=
  let df_cat := filter (categoria_is categoria) df in
  if Py.is_empty df_cat then []
  else person_rows df_cat categoria i y (unique (map DNI df_cat)).

(** The rows that one category takes, the two blank ones included. *)
Definition block_height (df : DataFrame) (categoria : string) : Z :=
  let df_cat := filter (categoria_is categoria) df in
  if Py.is_empty df_cat then 0
  else Z.of_nat (nunique (map DNI df_cat)) + 2.

(** The row counter after the categories [cats], started at [y]. *)
Fixpoint rows_end (df : DataFrame) (cats : list string) (y : Z) : Z :=
  match cats with
  | [] => y
  | c :: rest => rows_end df rest (y + block_height df c)
  end.

Fixpoint category_rows (df : DataFrame) (i : nat) (cats : list string)
    (y : Z) : list Trace :=
  match cats with
  | [] => []
  | c :: rest =>
      block df i c y ++ category_rows df (S i) rest (y + block_height df c)
  end.

(** [a] comes before [b] in the list. *)
Definition before (a b : string) (l : list string) : Prop :=
  exists l1 l2 l3, l = l1 ++ a :: l2 ++ b :: l3.

(** Where a bar is and what it shows, without its colour. *)
Definition placement (t : Trace) : string * string * (Timestamp * Timestamp) * Z :=
  (hover_categoria t, hover_dni t, trace_x t, trace_y t).

(** The bar [t] draws the interval [r]. *)
Definition draws (t : Trace) (r : Row) : Prop :=
  hover_categoria t = CATEGORIA r /\ hover_dni t = DNI r /\
  trace_x t = (Falta r, Fbaja r) /\ hover_duracion t = Duracion r.

(* ------------------------------------------------------------------ *)
(** ** The decision on a record *)

Section Records.

Context {Cell : Type} {ops : CellOps Cell}.

(** The whole days that line 37 gives a record. *)
Definition duration_days (d : DatedRow Cell) : Z :=
  timedelta_days (d_Fbaja d) (d_Falta d).

(** The two tests that decide on a record, [dropna] of line 30 and the
    bounds of line 40: [true] for a record that is kept. *)
Definition survives (r : CoercedRow Cell) : bool :=
  match dropna_row r with
  | Some d => (duration_days d >=? 0) && (duration_days d <=? 10000)
  | None => false
  end.

(** What lines 33-37 make of a row that [dropna] kept: the row keeps
    its dates, gets its whole days, and its two names went through
    [zfill(9)] and [strip()]. *)
Definition normalised (d : DatedRow Cell) (r : Row) : Prop :=
  Falta r = d_Falta d /\ Fbaja r = d_Fbaja d /\
  Duracion r = duration_days d /\
  (exists s, DNI r = Py.zfill 9 s) /\ (exists s, CATEGORIA r = Py.strip s).

(** The four columns of a frame row by row, after [pd.to_datetime]. *)
Definition records (raw : RawFrame Cell) (iD iC iF iB : nat)
  : list (CoercedRow Cell) :=
  coerce_dates (nth iD (values raw) []) (nth iC (values raw) [])
               (nth iF (values raw) []) (nth iB (values raw) []).

End Records.

(** The dates and the duration of a record, and of a row. *)
Definition record_interval {Cell : Type} (r : CoercedRow Cell)
  : option Timestamp * option Timestamp :=
  (c_Falta r, c_Fbaja r).

Definition row_interval (r : Row) : option Timestamp * option Timestamp :=
  (Some (Falta r), Some (Fbaja r)).

(** The test of lines 76-79 on two dates: both are there and [m] lies
    between them. *)
Definition interval_contains (m : Timestamp)
    (i : option Timestamp * option Timestamp) : bool :=
  match i with
  | (Some s, Some e) => ts_leb s m && (value e >=? value m)
  | _ => false
  end.

(** The four columns that [load_data] reads. *)
Definition REQUIRED_COLUMNS : list string :=
  ["DNI"; "CATEGORIA"; "Falta"; "Fbaja"]%string.

(* ------------------------------------------------------------------ *)
(** ** What a computation does to the page *)

(** The computation neither reads the page nor changes what is on it: it
    returns [a] and appends [shown]. *)
Definition page_independent {A} (m : UI A) : Prop :=
  exists a shown, forall p, m p = (a, p ++ shown).

(* ================================================================== *)
(** * A small sheet and a small frame, for the examples *)

(** The values of the frames of the examples: [NaN] for a blank cell, a
    [str] that is not the text of a date, an integer, or a [Timestamp]
    with a time of day in whole seconds. *)
Inductive ExcelCell : Type :=
| Blank
| Text (s : string)
| Number (n : Z)
| Date (t : Timestamp).

(** The date of the day number [n], as [datetime.date.fromordinal]. *)
Definition ord2ymd (n : Z) : Z * Z * Z :=
  let n := n - 1 in
  let n400 := n / 146097 in
  let n := n mod 146097 in
  let n100 := n / 36524 in
  let n := n mod 36524 in
  let n4 := n / 1461 in
  let n := n mod 1461 in
  let n1 := n / 365 in
  let n := n mod 365 in
  let year := n400 * 400 + 1 + n100 * 100 + n4 * 4 + n1 in
  if ((n1 =? 4) || (n100 =? 4))%bool then (year - 1, 12, 31)
  else
    let month := (n + 50) / 32 in
    if Calendar.days_before_month year month >? n
    then (year, month - 1,
          n - Calendar.days_before_month year (month - 1) + 1)
    else (year, month, n - Calendar.days_before_month year month + 1).

(** The [Timestamp] at [v] nanoseconds from the epoch. *)
Definition timestamp_of_ns (v : Z) : Timestamp :=
  let '(y, m, d) := ord2ymd (Calendar.EPOCH_ORD + v / Calendar.NS_PER_DAY) in
  mkTimestamp y m d (v mod Calendar.NS_PER_DAY).

(** [pd.to_datetime] of these values: a [Timestamp] is kept, an integer
    counts nanoseconds from the epoch when it fits 64 bits, and a blank
    or a text that is no date becomes [NaT]. *)
Definition excel_to_datetime (c : ExcelCell) : option Timestamp :=
  match c with
  | Date t => Some t
  | Number n =>
      if ((- 2 ^ 63 <? n) && (n <? 2 ^ 63))%bool
      then Some (timestamp_of_ns n) else None
  | Text _ | Blank => None
  end.

Definition cell_is_blank (c : ExcelCell) : bool :=
  match c with Blank => true | _ => false end.

Definition is_date_cell (c : ExcelCell) : bool :=
  match c with Date _ => true | _ => false end.

Definition is_midnight_or_blank (c : ExcelCell) : bool :=
  match c with
  | Date t => time_ns t =? 0
  | Blank => true
  | _ => false
  end.

Definition iso_date (t : Timestamp) : string :=
  (Py.zfill 4 (Py.str_of_int (year t)) ++ "-"
   ++ Py.zfill 2 (Py.str_of_int (month t)) ++ "-"
   ++ Py.zfill 2 (Py.str_of_int (day t)))%string.

Definition iso_time (t : Timestamp) : string :=
  let s := time_ns t / 1000000000 in
  (Py.zfill 2 (Py.str_of_int (s / 3600)) ++ ":"
   ++ Py.zfill 2 (Py.str_of_int (s / 60 mod 60)) ++ ":"
   ++ Py.zfill 2 (Py.str_of_int (s mod 60)))%string.

(** [astype(str)] of a column of these values.  In a column of dates
    alone, whose dtype is [datetime64], the time of day is written only
    when some date has one, and a missing date reads [NaT]. *)
Definition excel_astype_str (col : list ExcelCell) : list string :=
  let datetime64 :=
    (existsb is_date_cell col
     && forallb (fun c => is_date_cell c || cell_is_blank c) col)%bool in
  let dates_only := (datetime64 && forallb is_midnight_or_blank col)%bool in
  map (fun c =>
         match c with
         | Text s => s
         | Number n => Py.str_of_int n
         | Blank => (if datetime64 then "NaT" else "nan")%string
         | Date t =>
             if dates_only then iso_date t
             else (iso_date t ++ " " ++ iso_time t)%string
         end) col.

#[export] Instance excel_ops : CellOps ExcelCell := {
  cell_isna := cell_is_blank;
  to_datetime := map excel_to_datetime;
  astype_str := excel_astype_str;
  to_datetime_length := fun col => length_map excel_to_datetime col;
  astype_str_length := fun col => length_map _ col
}.

(** A frame given record by record. *)
Definition frame_of_records (labels : list string)
    (rows : list (list ExcelCell)) : RawFrame ExcelCell :=
  mkRawFrame labels
    (map (fun i => map (fun row => nth i row Blank) rows)
         (seq 0 (List.length labels))).

(** Eight records: four that are kept, one that ends before it starts,
    one of 10000 days and one of 10001, one without category and one
    without end date. *)
Definition sample_sheet : RawFrame ExcelCell :=
  frame_of_records ["DNI"; "CATEGORIA"; "Falta"; "Fbaja"]%string
    [ [Number 1; Text "A"; Date (Timestamp_ymd 2020 1 10); Date (Timestamp_ymd 2020 3 5)];
      [Number 2; Text " A "; Date (Timestamp_ymd 2020 2 1); Date (Timestamp_ymd 2020 2 20)];
      [Number 3; Text "B"; Date (Timestamp_ymd 2021 5 1); Date (Timestamp_ymd 2021 4 1)];
      [Number 1; Text "A"; Date (Timestamp_ymd 2020 11 15); Date (Timestamp_ymd 2021 1 20)];
      [Number 4; Text "B"; Date (Timestamp_ymd 1990 1 1); Date (Timestamp_ymd 2017 5 19)];
      [Number 5; Text "B"; Date (Timestamp_ymd 1990 1 1); Date (Timestamp_ymd 2017 5 20)];
      [Number 6; Blank; Date (Timestamp_ymd 2020 1 1); Date (Timestamp_ymd 2020 1 2)];
      [Number 7; Text "A"; Date (Timestamp_ymd 2020 6 1); Blank] ].

(** A sheet without the column [Fbaja]. *)
Definition sheet_without_fbaja : RawFrame ExcelCell :=
  frame_of_records ["DNI"; "CATEGORIA"; "Falta"]%string
    [ [Number 1; Text "A"; Date (Timestamp_ymd 2020 1 10)] ].

Definition sample_p1 : Row :=
  mkRow "000000001" "A" (Timestamp_ymd 2020 1 10) (Timestamp_ymd 2020 3 5) 55.
Definition sample_p2 : Row :=
  mkRow "000000002" "A" (Timestamp_ymd 2020 2 1) (Timestamp_ymd 2020 2 20) 19.
Definition sample_p1_again : Row :=
  mkRow "000000001" "A" (Timestamp_ymd 2020 11 15) (Timestamp_ymd 2021 1 20) 66.
Definition sample_p4 : Row :=
  mkRow "000000004" "B" (Timestamp_ymd 1990 1 1) (Timestamp_ymd 2017 5 19) 10000.

(** The frame that [load_data] makes of [sample_sheet]. *)
Definition sample_df : DataFrame :=
  [sample_p1; sample_p2; sample_p1_again; sample_p4].

(** The frame of categories "A" only. *)
Definition sample_a : DataFrame := [sample_p1; sample_p2; sample_p1_again].

(** One contract from 2020-12-10 12:00 to 2021-01-15 08:00. *)
Definition sample_with_times : DataFrame :=
  [ mkRow "000000001" "A"
      (mkTimestamp 2020 12 10 43200000000000)
      (mkTimestamp 2021 1 15 28800000000000) 35 ].

(* ================================================================== *)
(** * The rest of [main]: the options of the multiselect and the summary *)

(** [sorted(l)] for strings: ascending in the order of the code points
    (on UTF-8 bytes, the order of the bytes), equal values in the order
    they came. *)
Fixpoint insert_sorted (x : string) (l : list string) : list string :=
  match l with
  | [] => [x]
  | y :: l' => if String.leb x y then x :: l else y :: insert_sorted x l'
  end.

Definition sorted_strings (l : list string) : list string :=
  fold_right insert_sorted [] l.

(** Line 284: [sorted(df['CATEGORIA'].unique())], the options of the
    multiselect and its default value. *)
Definition categorias_disponibles (df : DataFrame) : list string :=
  sorted_strings (unique (map CATEGORIA df)).

(** Lines 322-331: one line of the summary per chosen category, with its
    contracts and its persons.  (The fourth field, the rounded mean of
    [Duracion], is a float and is not part of the record.) *)
Record Resumen : Type := mkResumen {
  resumen_categoria : string;
  resumen_contratos : nat;
  resumen_personas : nat
}.

Definition resumen_categorias (df : DataFrame)
    (categorias_seleccionadas : list string) : list Resumen :=
  let df_filtrado := filter (isin categorias_seleccionadas) df in
  map (fun categoria =>
         let df_cat := filter (categoria_is categoria) df_filtrado in
         {| resumen_categoria := categoria;
            resumen_contratos := List.length df_cat;
            resumen_personas := nunique (map DNI df_cat) |})
      categorias_seleccionadas.

(* ------------------------------------------------------------------ *)
(** ** More vocabulary *)

(** What a computation adds to the page. *)
Definition page_of {A} (m : UI A) (p : Page) : Page := snd (m p).

(** The contract that a bar shows, read back from the bar. *)
Definition contrato_of (t : Trace) : Row :=
  {| DNI := hover_dni t;
     CATEGORIA := hover_categoria t;
     Falta := fst (trace_x t);
     Fbaja := snd (trace_x t);
     Duracion := hover_duracion t |}.

(** The string begins, or ends, with a code point that [strip] removes. *)
Definition starts_with_space (s : string) : bool :=
  Py.space_prefix Py.isspace Py.isspace2 Py.isspace3
                  (list_ascii_of_string s).

Definition ends_with_space (s : string) : bool :=
  Py.space_prefix Py.isspace (fun b a => Py.isspace2 a b)
                  (fun c b a => Py.isspace3 a b c)
                  (rev (list_ascii_of_string s)).

(** The category has a row in the frame. *)
Definition has_rows (df : DataFrame) (categoria : string) : bool :=
  negb (Py.is_empty (filter (categoria_is categoria) df)).

(** The sum of a list of integers. *)
Definition sum_Z (l : list Z) : Z := fold_right Z.add 0 l.

(** The series that the loop of the aggregator writes for a category. *)
Definition series_of (df_filtrado : DataFrame) (grid : list Timestamp)
    (categoria : string) : Series :=
  {| meses := grid;
     contratos := map (activos (filter (categoria_is categoria) df_filtrado))
                      grid |}.

(* ------------------------------------------------------------------ *)
(** ** A frame with two categories within one year, for the examples *)

Definition sample_b : Row :=
  mkRow "000000003" "B" (Timestamp_ymd 2020 2 15) (Timestamp_ymd 2020 4 1) 46.

Definition sample_two : DataFrame :=
  [sample_p1; sample_b; sample_p2; sample_p1_again].

(* ================================================================== *)
(** * Properties *)

Module CalendarFacts.
Import Calendar.

Lemma days_before_year_succ (y : Z) :
  days_before_year (y + 1) =
  days_before_year y + 365 + (if is_leap y then 1 else 0).
Proof.
  unfold days_before_year, is_leap.
  replace (y + 1 - 1) with y by lia.
  destruct (Z.eqb_spec (y mod 4) 0), (Z.eqb_spec (y mod 100) 0),
           (Z.eqb_spec (y mod 400) 0); cbn [andb orb negb];
    Z.div_mod_to_equations; lia.
Qed.

Lemma days_before_year_mono_nat (y : Z) (n : nat) :
  days_before_year y + 365 * Z.of_nat n <= days_before_year (y + Z.of_nat n).
Proof.
  induction n as [|n IH].
  - replace (y + Z.of_nat 0) with y by lia. lia.
  - replace (y + Z.of_nat (S n)) with (y + Z.of_nat n + 1) by lia.
    rewrite days_before_year_succ.
    destruct (is_leap (y + Z.of_nat n)); lia.
Qed.

Lemma days_before_year_mono (a b : Z) :
  a <= b -> days_before_year a + 365 * (b - a) <= days_before_year b.
Proof.
  intros Hab.
  pose proof (days_before_year_mono_nat a (Z.to_nat (b - a))) as H.
  rewrite Z2Nat.id in H by lia.
  replace (a + (b - a)) with b in H by lia. exact H.
Qed.

Lemma month_cases (m : Z) :
  1 <= m <= 12 ->
  m = 1 \/ m = 2 \/ m = 3 \/ m = 4 \/ m = 5 \/ m = 6 \/
  m = 7 \/ m = 8 \/ m = 9 \/ m = 10 \/ m = 11 \/ m = 12.
Proof. lia. Qed.

Ltac each_month H :=
  apply month_cases in H;
  repeat (destruct H as [H | H]); subst.

Lemma days_in_month_bounds (y m : Z) :
  1 <= m <= 12 -> 28 <= days_in_month y m <= 31.
Proof.
  intros H. each_month H; cbn; destruct (is_leap y); lia.
Qed.

(** The days before a month and the days of that month make the days
    before the next one; after December comes the length of the year. *)
Lemma days_before_month_succ (y m : Z) :
  1 <= m <= 12 ->
  days_before_month y m + days_in_month y m =
  if m =? 12 then 365 + (if is_leap y then 1 else 0)
  else days_before_month y (m + 1).
Proof.
  intros H. unfold days_before_month.
  each_month H; cbn; destruct (is_leap y); reflexivity.
Qed.

Lemma days_before_month_bounds (y m : Z) :
  1 <= m <= 12 ->
  0 <= days_before_month y m /\
  days_before_month y m + days_in_month y m
    <= 365 + (if is_leap y then 1 else 0).
Proof.
  intros H. unfold days_before_month.
  each_month H; cbn; destruct (is_leap y); cbn; lia.
Qed.

(** A valid date lies within its year. *)
Lemma ymd2ord_in_year (y m d : Z) :
  1 <= m <= 12 -> 1 <= d <= days_in_month y m ->
  days_before_year y + 1 <= ymd2ord y m d <= days_before_year (y + 1).
Proof.
  intros Hm Hd. unfold ymd2ord. rewrite days_before_year_succ.
  pose proof (days_before_month_bounds y m Hm). lia.
Qed.

End CalendarFacts.

Section TimestampFacts.
Import Calendar CalendarFacts.

Lemma ts_leb_le a b : ts_leb a b = true <-> ts_le a b.
Proof. unfold ts_leb, ts_le. apply Z.leb_le. Qed.

Lemma ts_ltb_lt a b : ts_ltb a b = true <-> ts_lt a b.
Proof. unfold ts_ltb, ts_lt. apply Z.ltb_lt. Qed.

Lemma value_ord_lt (a b : Timestamp) :
  0 <= time_ns a < NS_PER_DAY -> 0 <= time_ns b < NS_PER_DAY ->
  ymd2ord (year a) (month a) (day a) < ymd2ord (year b) (month b) (day b) ->
  value a < value b.
Proof. unfold value, NS_PER_DAY. lia. Qed.

Lemma value_ord_le (a b : Timestamp) :
  0 <= time_ns a < NS_PER_DAY -> 0 <= time_ns b < NS_PER_DAY ->
  value a <= value b ->
  ymd2ord (year a) (month a) (day a) <= ymd2ord (year b) (month b) (day b).
Proof. unfold value, NS_PER_DAY. lia. Qed.

(** The first of January of [Y] against a valid timestamp: only the
    years matter. *)
Lemma jan1_le_iff (Y : Z) (t : Timestamp) :
  ts_valid t -> (ts_le (Timestamp_ymd Y 1 1) t <-> Y <= year t).
Proof.
  intros (Hm & Hd & Ht).
  pose proof (ymd2ord_in_year (year t) (month t) (day t) Hm Hd) as Hb.
  unfold ts_le, value, Timestamp_ymd, NS_PER_DAY in *. cbn [year month day time_ns].
  unfold ymd2ord at 1. cbn [days_before_month DAYS_BEFORE_MONTH Z.ltb andb].
  cbn.
  split; intros H.
  - destruct (Z_le_gt_dec Y (year t)) as [|Hgt]; [assumption|exfalso].
    pose proof (days_before_year_mono (year t + 1) Y ltac:(lia)). lia.
  - pose proof (days_before_year_mono Y (year t) H). lia.
Qed.

Lemma lt_jan1_iff (Y : Z) (t : Timestamp) :
  ts_valid t -> (ts_lt t (Timestamp_ymd Y 1 1) <-> year t < Y).
Proof.
  intros Hv. pose proof (jan1_le_iff Y t Hv) as H.
  unfold ts_lt, ts_le in *. lia.
Qed.

End TimestampFacts.

Section RangeFacts.

Lemma range_nil (a b : Z) : b <= a -> Py.range a b = [].
Proof.
  intros H. unfold Py.range.
  replace (Z.to_nat (b - a)) with O by lia. reflexivity.
Qed.

Lemma range_cons (a b : Z) : a < b -> Py.range a b = a :: Py.range (a + 1) b.
Proof.
  intros H. unfold Py.range.
  replace (Z.to_nat (b - a)) with (S (Z.to_nat (b - (a + 1)))) by lia.
  cbn [seq map]. f_equal; [lia|].
  rewrite <- seq_shift, map_map.
  apply map_ext. intros k. lia.
Qed.

Lemma in_range (a b x : Z) : In x (Py.range a b) <-> a <= x < b.
Proof.
  unfold Py.range. rewrite in_map_iff. split.
  - intros (k & <- & Hk). apply in_seq in Hk. lia.
  - intros H. exists (Z.to_nat (x - a)). split; [lia|].
    apply in_seq. lia.
Qed.

Lemma range_snoc (a b : Z) : a <= b -> Py.range a (b + 1) = Py.range a b ++ [b].
Proof.
  intros H. unfold Py.range.
  replace (Z.to_nat (b + 1 - a)) with (Z.to_nat (b - a) + 1)%nat by lia.
  rewrite seq_app, map_app. cbn. f_equal. f_equal. lia.
Qed.

Lemma range_sorted (a b : Z) : StronglySorted Z.lt (Py.range a b).
Proof.
  remember (Z.to_nat (b - a)) as n eqn:Hn.
  revert a Hn. induction n as [|n IH]; intros a Hn.
  - rewrite range_nil by lia. constructor.
  - rewrite range_cons by lia. constructor.
    + apply IH. lia.
    + apply Forall_forall. intros x Hx. apply in_range in Hx. lia.
Qed.

End RangeFacts.

Section MonthPoints.
Import Calendar CalendarFacts DateRange.


Lemma month_point_index (tod k : Z) : month_index (month_point tod k) = k.
Proof.
  unfold month_index, month_point. cbn [year month].
  Z.div_mod_to_equations. lia.
Qed.

(** A timestamp on the first of a month is the month point of its month
    index. *)
Lemma month_point_of_first (t : Timestamp) :
  1 <= month t <= 12 -> day t = 1 ->
  t = month_point (time_ns t) (month_index t).
Proof.
  intros Hm Hd. destruct t as [y m d tod]. cbn in *. subst d.
  unfold month_point, month_index. cbn [year month].
  f_equal; Z.div_mod_to_equations; lia.
Qed.

Lemma month_point_valid (tod k : Z) :
  0 <= tod < NS_PER_DAY -> ts_valid (month_point tod k).
Proof.
  intros Ht. unfold ts_valid, month_point. cbn [year month day time_ns].
  assert (Hm : 1 <= k mod 12 + 1 <= 12)
    by (Z.div_mod_to_equations; lia).
  pose proof (days_in_month_bounds (k / 12) _ Hm). lia.
Qed.

(** Adding [MonthBegin(1)] moves to the next month index, across the end
    of a year too. *)
Lemma month_begin_apply_point (tod k : Z) :
  month_begin_apply (month_point tod k) = month_point tod (k + 1).
Proof.
  unfold month_begin_apply, month_point. cbn [year month day time_ns].
  destruct (Z.eqb_spec (k mod 12 + 1) 12) as [E|E];
    f_equal; Z.div_mod_to_equations; lia.
Qed.

Lemma ord_month_point_succ (tod k : Z) :
  ord (month_point tod (k + 1)) =
  ord (month_point tod k) + days_in_month (k / 12) (k mod 12 + 1).
Proof.
  unfold ord, month_point, ymd2ord. cbn [year month day].
  assert (Hm : 1 <= k mod 12 + 1 <= 12)
    by (Z.div_mod_to_equations; lia).
  pose proof (days_before_month_succ (k / 12) _ Hm) as Hs.
  destruct (Z.eqb_spec (k mod 12 + 1) 12) as [E|E].
  - replace ((k + 1) / 12) with (k / 12 + 1)
      by (Z.div_mod_to_equations; lia).
    replace ((k + 1) mod 12 + 1) with 1
      by (Z.div_mod_to_equations; lia).
    rewrite days_before_year_succ.
    change (days_before_month (k / 12 + 1) 1) with 0. lia.
  - replace ((k + 1) / 12) with (k / 12)
      by (Z.div_mod_to_equations; lia).
    replace ((k + 1) mod 12 + 1) with (k mod 12 + 1 + 1)
      by (Z.div_mod_to_equations; lia).
    lia.
Qed.

Lemma ord_month_point_tod (tod tod' k : Z) :
  ord (month_point tod k) = ord (month_point tod' k).
Proof. reflexivity. Qed.

Lemma ord_month_point_step (tod k : Z) :
  ord (month_point tod k) + 28 <= ord (month_point tod (k + 1)).
Proof.
  rewrite ord_month_point_succ.
  assert (Hm : 1 <= k mod 12 + 1 <= 12)
    by (Z.div_mod_to_equations; lia).
  pose proof (days_in_month_bounds (k / 12) _ Hm). lia.
Qed.

Lemma ord_month_point_mono_nat (tod k : Z) (n : nat) :
  ord (month_point tod k) + 28 * Z.of_nat n
    <= ord (month_point tod (k + Z.of_nat n)).
Proof.
  induction n as [|n IH].
  - replace (k + Z.of_nat 0) with k by lia. lia.
  - replace (k + Z.of_nat (S n)) with (k + Z.of_nat n + 1) by lia.
    pose proof (ord_month_point_step tod (k + Z.of_nat n)). lia.
Qed.

Lemma ord_month_point_mono (tod tod' k k' : Z) :
  k <= k' ->
  ord (month_point tod k) + 28 * (k' - k) <= ord (month_point tod' k').
Proof.
  intros H.
  pose proof (ord_month_point_mono_nat tod k (Z.to_nat (k' - k))) as Hn.
  rewrite Z2Nat.id in Hn by lia.
  replace (k + (k' - k)) with k' in Hn by lia.
  rewrite (ord_month_point_tod tod' tod). exact Hn.
Qed.

(** A valid timestamp lies within its month. *)
Lemma ord_in_month (t : Timestamp) :
  ts_valid t ->
  ord (month_point 0 (month_index t)) <= ord t
    < ord (month_point 0 (month_index t + 1)).
Proof.
  intros (Hm & Hd & _).
  rewrite ord_month_point_succ.
  unfold ord at 1 3, month_point, month_index. cbn [year month day].
  replace ((year t * 12 + (month t - 1)) / 12) with (year t)
    by (Z.div_mod_to_equations; lia).
  replace ((year t * 12 + (month t - 1)) mod 12 + 1) with (month t)
    by (Z.div_mod_to_equations; lia).
  unfold ord, ymd2ord. cbn [year month day]. lia.
Qed.

(** The order of two valid timestamps is the order of their months when
    the months differ. *)
Lemma value_le_month_index (a b : Timestamp) :
  ts_valid a -> ts_valid b -> ts_le a b -> month_index a <= month_index b.
Proof.
  intros Ha Hb Hle.
  destruct (Z_le_gt_dec (month_index a) (month_index b)) as [|Hgt];
    [assumption|exfalso].
  pose proof (ord_in_month a Ha) as Ia.
  pose proof (ord_in_month b Hb) as Ib.
  pose proof (ord_month_point_mono 0 0 (month_index b + 1) (month_index a)
                ltac:(lia)) as Hm.
  assert (Hlt : ord b < ord a) by lia.
  destruct Ha as (_ & _ & Ta), Hb as (_ & _ & Tb).
  pose proof (value_ord_lt b a Tb Ta Hlt). unfold ts_le in Hle. lia.
Qed.

Lemma month_point_lt (tod tod' k k' : Z) :
  0 <= tod < NS_PER_DAY -> 0 <= tod' < NS_PER_DAY ->
  k < k' -> ts_lt (month_point tod k) (month_point tod' k').
Proof.
  intros Ht Ht' Hk. apply value_ord_lt; cbn [time_ns month_point]; try assumption.
  pose proof (ord_month_point_mono tod tod' k k' ltac:(lia)).
  unfold ord in *. lia.
Qed.

Lemma month_point_le_same (tod tod' k : Z) :
  ts_le (month_point tod k) (month_point tod' k) <-> tod <= tod'.
Proof.
  unfold ts_le, value, month_point. cbn [year month day time_ns]. lia.
Qed.

(** When the loop test holds, between two month points. *)
Lemma month_point_leb (tod tod' k k' : Z) :
  0 <= tod < NS_PER_DAY -> 0 <= tod' < NS_PER_DAY ->
  ts_leb (month_point tod k) (month_point tod' k') =
  (k <? k') || ((k =? k') && (tod <=? tod')).
Proof.
  intros Ht Ht'.
  destruct (Z.ltb_spec k k') as [Hlt|Hge]; cbn [orb].
  - apply ts_leb_le. pose proof (month_point_lt tod tod' k k' Ht Ht' Hlt).
    unfold ts_lt, ts_le in *. lia.
  - destruct (Z.eqb_spec k k') as [->|Hne]; cbn [andb].
    + destruct (Z.leb_spec tod tod') as [H|H].
      * apply ts_leb_le, month_point_le_same. exact H.
      * apply not_true_is_false. rewrite ts_leb_le, month_point_le_same. lia.
    + apply not_true_is_false. rewrite ts_leb_le.
      pose proof (month_point_lt tod' tod k' k Ht' Ht ltac:(lia)).
      unfold ts_lt, ts_le in *. lia.
Qed.


Lemma generate_points (fuel : nat) (tod tod' k e : Z) :
  0 <= tod < NS_PER_DAY -> 0 <= tod' < NS_PER_DAY ->
  generate fuel (month_point tod k) (month_point tod' e) =
  map (month_point tod)
      (Py.range k (Z.min (k + Z.of_nat fuel) (last_index tod tod' e + 1))).
Proof.
  intros Ht Ht'. revert k.
  induction fuel as [|fuel IH]; intros k.
  - rewrite range_nil by lia. reflexivity.
  - cbn [generate]. rewrite month_point_leb by assumption.
    rewrite month_begin_apply_point, IH.
    unfold last_index.
    destruct (Z.ltb_spec k e) as [Hlt|Hge]; cbn [orb].
    + rewrite (range_cons k) by (destruct (tod <=? tod'); lia).
      cbn [map]. do 3 f_equal. lia.
    + destruct (Z.eqb_spec k e) as [->|Hne]; cbn [andb].
      * destruct (Z.leb_spec tod tod').
        -- rewrite (range_cons e) by lia. cbn [map]. do 3 f_equal. lia.
        -- rewrite range_nil by lia. reflexivity.
      * rewrite range_nil by (destruct (tod <=? tod'); lia). reflexivity.
Qed.

(** The loop of [date_range] stops by its own test: more fuel than
    [fuel_for] changes nothing. *)
Lemma generate_fuel_enough (s e : Timestamp) (extra : nat) :
  ts_valid s -> ts_valid e -> day s = 1 -> day e = 1 ->
  generate (fuel_for s e + extra) s e = generate (fuel_for s e) s e.
Proof.
  intros Hs He Ds De.
  destruct Hs as (Ms & _ & Ts), He as (Me & _ & Te).
  rewrite (month_point_of_first s Ms Ds), (month_point_of_first e Me De).
  unfold fuel_for. rewrite !month_point_index.
  rewrite !generate_points by assumption.
  f_equal. unfold last_index.
  destruct (time_ns s <=? time_ns e);
    destruct (Z_le_gt_dec (month_index s) (month_index e));
    try (rewrite !range_nil by lia; reflexivity);
    f_equal; lia.
Qed.

Lemma date_range_points (s e : Timestamp) :
  ts_valid s -> ts_valid e -> day s = 1 -> day e = 1 ->
  date_range_MS (Some s) (Some e) =
  Ok (map (month_point (time_ns s))
          (Py.range (month_index s)
             (last_index (time_ns s) (time_ns e) (month_index e) + 1))).
Proof.
  intros Hs He Ds De. unfold date_range_MS, rollforward, is_on_offset.
  rewrite Ds. cbn [Z.eqb Pos.eqb]. f_equal.
  destruct Hs as (Ms & _ & Ts), He as (Me & _ & Te).
  rewrite (month_point_of_first s Ms Ds) at 1 2.
  rewrite (month_point_of_first e Me De) at 1 2.
  unfold fuel_for. rewrite !month_point_index.
  rewrite generate_points by assumption.
  f_equal. unfold last_index.
  destruct (time_ns s <=? time_ns e);
    destruct (Z_le_gt_dec (month_index s) (month_index e));
    try (rewrite !range_nil by lia; reflexivity);
    f_equal; lia.
Qed.

End MonthPoints.

Section SeriesFacts.

Lemma fold_min_spec (rest : list Timestamp) (t : Timestamp) :
  let m := fold_left ts_min2 rest t in
  In m (t :: rest) /\ Forall (fun x => ts_le m x) (t :: rest).
Proof.
  revert t. induction rest as [|x rest IH]; intros t; cbn [fold_left].
  - split; [left; reflexivity|]. constructor; [unfold ts_le; lia|constructor].
  - destruct (IH (ts_min2 t x)) as [Hin Hall].
    inversion Hall as [|? ? Hhd Htl]; subst.
    assert (Hmin : ts_le (ts_min2 t x) t /\ ts_le (ts_min2 t x) x /\
                   (ts_min2 t x = t \/ ts_min2 t x = x)).
    { unfold ts_min2, ts_ltb, ts_le.
      destruct (Z.ltb_spec (value x) (value t)); repeat split; auto; lia. }
    destruct Hmin as (H1 & H2 & H3). split.
    + destruct Hin as [Hin|Hin].
      * rewrite <- Hin. destruct H3 as [->| ->]; cbn; auto.
      * right; right; exact Hin.
    + unfold ts_le in *. repeat constructor; try lia. exact Htl.
Qed.

Lemma fold_max_spec (rest : list Timestamp) (t : Timestamp) :
  let m := fold_left ts_max2 rest t in
  In m (t :: rest) /\ Forall (fun x => ts_le x m) (t :: rest).
Proof.
  revert t. induction rest as [|x rest IH]; intros t; cbn [fold_left].
  - split; [left; reflexivity|]. constructor; [unfold ts_le; lia|constructor].
  - destruct (IH (ts_max2 t x)) as [Hin Hall].
    inversion Hall as [|? ? Hhd Htl]; subst.
    assert (Hmax : ts_le t (ts_max2 t x) /\ ts_le x (ts_max2 t x) /\
                   (ts_max2 t x = t \/ ts_max2 t x = x)).
    { unfold ts_max2, ts_ltb, ts_le.
      destruct (Z.ltb_spec (value t) (value x)); repeat split; auto; lia. }
    destruct Hmax as (H1 & H2 & H3). split.
    + destruct Hin as [Hin|Hin].
      * rewrite <- Hin. destruct H3 as [->| ->]; cbn; auto.
      * right; right; exact Hin.
    + unfold ts_le in *. repeat constructor; try lia. exact Htl.
Qed.

Lemma series_min_spec (col : list Timestamp) (m : Timestamp) :
  series_min col = Some m ->
  In m col /\ Forall (fun x => ts_le m x) col.
Proof.
  destruct col as [|t rest]; cbn [series_min]; [discriminate|].
  intros [= <-]. apply fold_min_spec.
Qed.

Lemma series_max_spec (col : list Timestamp) (m : Timestamp) :
  series_max col = Some m ->
  In m col /\ Forall (fun x => ts_le x m) col.
Proof.
  destruct col as [|t rest]; cbn [series_max]; [discriminate|].
  intros [= <-]. apply fold_max_spec.
Qed.

Lemma series_min_some (col : list Timestamp) :
  col <> [] -> exists m, series_min col = Some m.
Proof. destruct col; [congruence|]. intros _. eexists. reflexivity. Qed.

Lemma series_max_some (col : list Timestamp) :
  col <> [] -> exists m, series_max col = Some m.
Proof. destruct col; [congruence|]. intros _. eexists. reflexivity. Qed.

Lemma validated_le (r : Row) : validated r -> ts_le (Falta r) (Fbaja r).
Proof.
  intros (_ & _ & Hd & Hr). unfold timedelta_days, Calendar.NS_PER_DAY in Hd.
  unfold ts_le.
  destruct (Z_le_gt_dec (value (Falta r)) (value (Fbaja r))) as [|Hgt];
    [assumption|exfalso].
  rewrite Hd in Hr. Z.div_mod_to_equations. lia.
Qed.

(** The two ends of the range of a frame that is not empty. *)
Lemma frame_extent (df : DataFrame) :
  df <> [] -> Forall validated df ->
  exists fecha_min fecha_max rmin rmax,
    series_min (map Falta df) = Some fecha_min /\
    series_max (map Fbaja df) = Some fecha_max /\
    In rmin df /\ Falta rmin = fecha_min /\
    In rmax df /\ Fbaja rmax = fecha_max /\
    ts_le fecha_min fecha_max.
Proof.
  intros Hne Hval.
  destruct (series_min_some (map Falta df)) as [lo Hlo].
  { destruct df; [congruence|discriminate]. }
  destruct (series_max_some (map Fbaja df)) as [hi Hhi].
  { destruct df; [congruence|discriminate]. }
  destruct (series_min_spec _ _ Hlo) as [Hin1 Hall1].
  destruct (series_max_spec _ _ Hhi) as [Hin2 Hall2].
  apply in_map_iff in Hin1. destruct Hin1 as (rmin & E1 & I1).
  apply in_map_iff in Hin2. destruct Hin2 as (rmax & E2 & I2).
  exists lo, hi, rmin, rmax. repeat split; try assumption.
  rewrite Forall_forall in Hall2, Hval.
  pose proof (validated_le rmin (Hval _ I1)) as Hle.
  pose proof (Hall2 (Fbaja rmin) (in_map Fbaja _ _ I1)) as Hle2.
  unfold ts_le in *. rewrite <- E1. lia.
Qed.

End SeriesFacts.

Section MonthGrid.
Import Calendar DateRange.

Lemma replace_day1_valid (t : Timestamp) :
  ts_valid t -> ts_valid (replace_day1 t) /\ day (replace_day1 t) = 1.
Proof.
  intros (Hm & Hd & Ht). unfold ts_valid, replace_day1. cbn.
  pose proof (CalendarFacts.days_in_month_bounds (year t) (month t) Hm).
  repeat split; lia.
Qed.

(** What lines 56-63 return on a frame that is not empty, whatever the
    times of day. *)
Lemma month_grid_points (df : DataFrame) (lo hi : Timestamp) :
  series_min (map Falta df) = Some lo ->
  series_max (map Fbaja df) = Some hi ->
  ts_valid lo -> ts_valid hi ->
  month_grid df =
  Ok (map (month_point (time_ns lo))
        (Py.range (month_index lo)
           (last_index (time_ns lo) (time_ns hi) (month_index hi) + 1))).
Proof.
  intros Hlo Hhi Vlo Vhi. unfold month_grid. rewrite Hlo, Hhi.
  cbn [nat_replace_day1 option_map].
  destruct (replace_day1_valid lo Vlo) as [V1 D1].
  destruct (replace_day1_valid hi Vhi) as [V2 D2].
  rewrite (date_range_points _ _ V1 V2 D1 D2). reflexivity.
Qed.

Lemma months_between_sorted (lo hi : Timestamp) :
  StronglySorted ts_lt (months_between lo hi).
Proof.
  unfold months_between.
  generalize (range_sorted (month_index lo) (month_index hi + 1)).
  generalize (Py.range (month_index lo) (month_index hi + 1)).
  induction l as [|k l IH]; intros Hs; cbn [map]; constructor.
  - apply IH. inversion Hs; assumption.
  - inversion Hs as [|? ? _ Hall]; subst.
    rewrite Forall_map. apply Forall_impl with (2 := Hall).
    intros k' Hk. apply month_point_lt; unfold NS_PER_DAY; lia.
Qed.

Lemma floor_is_month_point (t : Timestamp) :
  1 <= month t <= 12 ->
  floor_to_month t = month_point 0 (month_index t).
Proof.
  intros Hm.
  rewrite (month_point_of_first (floor_to_month t)); cbn; auto.
Qed.

End MonthGrid.

Section Contiguity.
Import Calendar DateRange.

Lemma range_consecutive (a b : Z) (l1 l2 : list Z) (x y : Z) :
  Py.range a b = l1 ++ x :: y :: l2 -> y = x + 1.
Proof.
  revert a. induction l1 as [|z l1 IH]; intros a H.
  - destruct (Z_lt_ge_dec a b) as [Hlt|Hge].
    + rewrite range_cons in H by assumption. cbn in H.
      injection H as Hx H.
      destruct (Z_lt_ge_dec (a + 1) b) as [Hlt'|Hge'].
      * rewrite range_cons in H by assumption. injection H as Hy _. lia.
      * rewrite range_nil in H by lia. discriminate.
    + rewrite range_nil in H by lia. discriminate.
  - destruct (Z_lt_ge_dec a b) as [Hlt|Hge].
    + rewrite range_cons in H by assumption. cbn in H.
      injection H as _ H. exact (IH _ H).
    + rewrite range_nil in H by lia. discriminate.
Qed.

Lemma month_points_consecutive (tod a b : Z) (l1 l2 : list Timestamp)
    (x y : Timestamp) :
  map (month_point tod) (Py.range a b) = l1 ++ x :: y :: l2 ->
  exists k, x = month_point tod k /\ y = month_point tod (k + 1).
Proof.
  intros H.
  apply map_eq_app in H. destruct H as (r1 & r2 & Hr & _ & H2).
  apply map_eq_cons in H2. destruct H2 as (k & r3 & -> & Hx & H3).
  apply map_eq_cons in H3. destruct H3 as (k' & r4 & -> & Hy & _).
  apply range_consecutive in Hr. subst. eauto.
Qed.

Lemma month_point_rollover (tod k : Z) :
  let a := month_point tod k in
  let b := month_point tod (k + 1) in
  (month a = 12 -> year b = year a + 1 /\ month b = 1) /\
  (month a <> 12 -> year b = year a /\ month b = month a + 1).
Proof.
  unfold month_point. cbn [year month].
  split; intros H; split; Z.div_mod_to_equations; lia.
Qed.

End Contiguity.

Section CalendarGrid.

(** On validated calendar dates the grid covers every month between the
    two extreme dates, and there is at least one. *)
Lemma month_grid_dates (df_filtrado : DataFrame) :
  df_filtrado <> [] ->
  Forall validated df_filtrado ->
  Forall calendar_dates df_filtrado ->
  exists fecha_min fecha_max,
    series_min (map Falta df_filtrado) = Some fecha_min /\
    series_max (map Fbaja df_filtrado) = Some fecha_max /\
    month_grid df_filtrado = Ok (months_between fecha_min fecha_max) /\
    DateRange.month_index fecha_min <= DateRange.month_index fecha_max /\
    1 <= month fecha_min <= 12 /\ 1 <= month fecha_max <= 12.
Proof.
  intros Hne Hval Hdates.
  destruct (frame_extent df_filtrado Hne Hval)
    as (lo & hi & rmin & rmax & Hlo & Hhi & I1 & E1 & I2 & E2 & Hle).
  rewrite Forall_forall in Hval, Hdates.
  destruct (Hval _ I1) as (Vlo & _). destruct (Hval _ I2) as (_ & Vhi & _).
  destruct (Hdates _ I1) as (Dlo & _). destruct (Hdates _ I2) as (_ & Dhi).
  rewrite E1 in Vlo, Dlo. rewrite E2 in Vhi, Dhi.
  unfold is_date in Dlo, Dhi.
  pose proof (value_le_month_index lo hi Vlo Vhi Hle) as Hidx.
  pose proof (month_grid_points df_filtrado lo hi Hlo Hhi Vlo Vhi) as Hgrid.
  rewrite Dlo, Dhi in Hgrid. unfold last_index in Hgrid.
  cbn [Z.leb Z.compare] in Hgrid.
  destruct Vlo as (Mlo & _), Vhi as (Mhi & _).
  exists lo, hi. repeat split; try assumption; lia.
Qed.

Lemma months_between_nonempty (lo hi : Timestamp) :
  DateRange.month_index lo <= DateRange.month_index hi ->
  months_between lo hi <> [].
Proof.
  intros H. unfold months_between. rewrite range_cons by lia. discriminate.
Qed.

End CalendarGrid.

(** C5.  For a set of validated intervals that is not empty and whose dates
    are calendar dates, the month grid is the strictly ascending sequence of
    the first days of all the months from the month of the least start to
    the month of the greatest end, both included: it begins at the month
    floor of the least start, ends at the month floor of the greatest end,
    each point is the first of the calendar month after its predecessor
    (January of the next year after a December), and only the years and
    months of the two extreme dates matter. *)
Theorem month_grid_contiguous (df_filtrado : DataFrame) :
  df_filtrado <> [] ->
  Forall validated df_filtrado ->
  Forall calendar_dates df_filtrado ->
  exists fecha_min fecha_max grid,
    series_min (map Falta df_filtrado) = Some fecha_min /\
    series_max (map Fbaja df_filtrado) = Some fecha_max /\
    month_grid df_filtrado = Ok grid /\
    grid = months_between (floor_to_month fecha_min) (floor_to_month fecha_max) /\
    (exists rest, grid = floor_to_month fecha_min :: rest) /\
    (exists front, grid = front ++ [floor_to_month fecha_max]) /\
    StronglySorted ts_lt grid /\
    Forall (fun m => day m = 1 /\ time_ns m = 0 /\ 1 <= month m <= 12) grid /\
    (forall l1 a b l2, grid = l1 ++ a :: b :: l2 ->
       b = DateRange.month_begin_apply a /\
       (month a = 12 -> year b = year a + 1 /\ month b = 1) /\
       (month a <> 12 -> year b = year a /\ month b = month a + 1)).
Proof.
  intros Hne Hval Hdates.
  destruct (month_grid_dates df_filtrado Hne Hval Hdates)
    as (lo & hi & Hlo & Hhi & Hgrid & Hidx & Mlo & Mhi).
  assert (Hmb : months_between (floor_to_month lo) (floor_to_month hi) =
                map (month_point 0)
                  (Py.range (DateRange.month_index lo)
                            (DateRange.month_index hi + 1)))
    by reflexivity.
  exists lo, hi, (months_between (floor_to_month lo) (floor_to_month hi)).
  split; [exact Hlo|]. split; [exact Hhi|]. split; [exact Hgrid|].
  split; [reflexivity|].
  split.
  { rewrite Hmb, range_cons by lia. cbn [map].
    rewrite floor_is_month_point by assumption. eauto. }
  split.
  { rewrite Hmb, range_snoc, map_app by lia. cbn [map].
    rewrite (floor_is_month_point hi) by assumption. eauto. }
  split; [apply months_between_sorted|].
  split.
  { rewrite Hmb, Forall_map. apply Forall_forall. intros k _.
    unfold month_point. cbn. repeat split; Z.div_mod_to_equations; lia. }
  intros l1 a b l2 H. rewrite Hmb in H.
  apply month_points_consecutive in H. destruct H as (k & -> & ->).
  split; [symmetry; apply month_begin_apply_point|].
  apply month_point_rollover.
Qed.

Section DictFacts.
Context {V : Type}.

Lemma dict_get_set (d : Py.Dict V) (k k' : string) (v : V) :
  Py.dict_get (Py.dict_set d k v) k' =
  if String.eqb k k' then Some v else Py.dict_get d k'.
Proof.
  induction d as [|[k0 v0] d IH]; cbn [Py.dict_set Py.dict_get].
  - reflexivity.
  - destruct (String.eqb_spec k0 k) as [->|Hne]; cbn [Py.dict_get].
    + destruct (String.eqb_spec k k'); reflexivity.
    + destruct (String.eqb_spec k0 k') as [->|Hne'].
      * destruct (String.eqb_spec k k'); [congruence|reflexivity].
      * exact IH.
Qed.

End DictFacts.

Section Aggregator.

Lemma isin_true (cats : list string) (r : Row) :
  isin cats r = true <-> In (CATEGORIA r) cats.
Proof.
  unfold isin. rewrite existsb_exists. split.
  - intros (c & Hc & E). apply String.eqb_eq in E. now subst.
  - intros H. exists (CATEGORIA r). split; [assumption|apply String.eqb_refl].
Qed.

(** Selecting a chosen category from the filtered frame is selecting it
    from the whole frame. *)
Lemma filter_categoria_isin (cats : list string) (c : string) (df : DataFrame) :
  In c cats ->
  filter (categoria_is c) (filter (isin cats) df) = filter (categoria_is c) df.
Proof.
  intros Hc. induction df as [|r df IH]; [reflexivity|].
  cbn [filter]. destruct (isin cats r) eqn:E; cbn [filter].
  - now rewrite IH.
  - destruct (categoria_is c r) eqn:E'; [|exact IH].
    unfold categoria_is in E'. apply String.eqb_eq in E'.
    assert (isin cats r = true) by (apply isin_true; now rewrite E').
    congruence.
Qed.

Lemma active_at_counted (i : Row) (m : Timestamp) :
  active_at m i = true <-> counted_at i m.
Proof.
  unfold active_at, counted_at, ts_leb, ts_le.
  rewrite andb_true_iff, Z.leb_le, Z.geb_le. tauto.
Qed.

Lemma activos_count (c : string) (m : Timestamp) (df : DataFrame) :
  exists k,
    activos (filter (categoria_is c) df) m = Z.of_nat k /\
    Count (fun i => CATEGORIA i = c /\ counted_at i m) df k.
Proof.
  unfold activos. eexists. split; [reflexivity|].
  induction df as [|r df IH]; cbn [filter]; [constructor|].
  unfold categoria_is at 1.
  destruct (String.eqb_spec (CATEGORIA r) c) as [E|E]; cbn [filter].
  - destruct (active_at m r) eqn:A; cbn [List.length].
    + apply Count_yes; [|exact IH]. split; [exact E|].
      now apply active_at_counted.
    + apply Count_no; [|exact IH]. intros [_ H].
      apply active_at_counted in H. congruence.
  - apply Count_no; [|exact IH]. tauto.
Qed.

(** The entry of a chosen category after the loop over the categories. *)
Lemma fold_categoria_series (df_filtrado : DataFrame) (grid : list Timestamp)
    (cats : list string) (d : Py.Dict Series) (c : string) :
  Py.dict_get (fold_left (categoria_series df_filtrado grid) cats d) c =
  if existsb (String.eqb c) cats
  then Some {| meses := grid;
               contratos := map (activos (filter (categoria_is c) df_filtrado))
                                grid |}
  else Py.dict_get d c.
Proof.
  revert d. induction cats as [|x cats IH]; intros d; [reflexivity|].
  cbn [fold_left existsb]. rewrite IH.
  destruct (existsb (String.eqb c) cats); [now rewrite orb_true_r|].
  rewrite orb_false_r. unfold categoria_series. rewrite dict_get_set.
  rewrite (String.eqb_sym c x).
  destruct (String.eqb_spec x c) as [->|]; reflexivity.
Qed.

Lemma in_existsb_eqb (c : string) (cats : list string) :
  In c cats -> existsb (String.eqb c) cats = true.
Proof.
  intros H. apply existsb_exists. exists c. split; [assumption|].
  apply String.eqb_refl.
Qed.

(** With a surviving interval, the aggregator returns the series of all
    the chosen categories over the month grid. *)
Lemma calculate_ok (df : DataFrame) (cats : list string) (i0 : Row) :
  In i0 df -> In (CATEGORIA i0) cats ->
  exists grid,
    month_grid (filter (isin cats) df) = Ok grid /\
    calculate_active_contracts_by_month (Some df) cats =
    Ok (fold_left (categoria_series (filter (isin cats) df) grid) cats []).
Proof.
  intros Hin Hcat. unfold calculate_active_contracts_by_month.
  destruct df as [|r df]; [contradiction|]. cbn [Py.is_empty].
  assert (Hf : In i0 (filter (isin cats) (r :: df))).
  { apply filter_In. split; [assumption|now apply isin_true]. }
  unfold month_grid.
  destruct (filter (isin cats) (r :: df)) as [|r' df'] eqn:E; [contradiction|].
  cbn [map series_min series_max nat_replace_day1 option_map
       DateRange.date_range_MS].
  eexists. split; reflexivity.
Qed.

End Aggregator.

(** C1.  When some interval of a chosen category survives, the aggregator
    returns, for every chosen category, a series over the month grid in
    which the count at month point [m] is the number of intervals [i] of
    that category with [i.start <= m] and [i.end >= m]; an interval passes
    the aggregator's test at [m] exactly when it satisfies this closed
    containment. *)
Theorem active_count_containment (df : DataFrame) (cats : list string)
    (i0 : Row) :
  In i0 df -> In (CATEGORIA i0) cats ->
  exists res grid,
    calculate_active_contracts_by_month (Some df) cats = Ok res /\
    month_grid (filter (isin cats) df) = Ok grid /\
    (forall i m, active_at m i = true <->
                 ts_le (Falta i) m /\ ts_le m (Fbaja i)) /\
    forall c, In c cats ->
      exists s,
        Py.dict_get res c = Some s /\
        meses s = grid /\
        Forall2 (fun m n =>
                   exists k, n = Z.of_nat k /\
                     Count (fun i => CATEGORIA i = c /\ counted_at i m) df k)
                grid (contratos s).
Proof.
  intros Hin Hcat.
  destruct (calculate_ok df cats i0 Hin Hcat) as (grid & Hgrid & Hres).
  eexists; exists grid. split; [exact Hres|]. split; [exact Hgrid|].
  split; [intros i m; apply active_at_counted|].
  intros c Hc. rewrite fold_categoria_series, (in_existsb_eqb c cats Hc).
  eexists. split; [reflexivity|]. split; [reflexivity|].
  cbn [contratos]. rewrite filter_categoria_isin by assumption.
  clear. induction grid as [|m grid IH]; cbn [map]; constructor.
  - apply activos_count.
  - exact IH.
Qed.

(** C7, as the code has it.  For a chosen category that has no interval in
    the validated data, when some other chosen category has one and the
    dates are calendar dates, the aggregator yields for that category a
    series over the whole month grid, which is not empty, with the count
    zero at every month. *)
Theorem absent_category_zero_series (df : DataFrame) (cats : list string)
    (c : string) (i0 : Row) :
  In c cats ->
  (forall r, In r df -> CATEGORIA r <> c) ->
  In i0 df -> In (CATEGORIA i0) cats ->
  Forall validated df -> Forall calendar_dates df ->
  exists res s,
    calculate_active_contracts_by_month (Some df) cats = Ok res /\
    Py.dict_get res c = Some s /\
    month_grid (filter (isin cats) df) = Ok (meses s) /\
    meses s <> [] /\
    contratos s = repeat 0 (List.length (meses s)).
Proof.
  intros Hc Habs Hin Hcat Hval Hdates.
  destruct (calculate_ok df cats i0 Hin Hcat) as (grid & Hgrid & Hres).
  assert (Hf : In i0 (filter (isin cats) df)).
  { apply filter_In. split; [assumption|now apply isin_true]. }
  assert (Hne : filter (isin cats) df <> []).
  { intros E. rewrite E in Hf. contradiction. }
  destruct (month_grid_dates (filter (isin cats) df) Hne)
    as (lo & hi & _ & _ & Hg & Hidx & _).
  { apply Forall_forall. intros r Hr. apply filter_In in Hr.
    rewrite Forall_forall in Hval. now apply Hval. }
  { apply Forall_forall. intros r Hr. apply filter_In in Hr.
    rewrite Forall_forall in Hdates. now apply Hdates. }
  rewrite Hg in Hgrid. injection Hgrid as <-.
  eexists. eexists. split; [exact Hres|].
  rewrite fold_categoria_series, (in_existsb_eqb c cats Hc).
  split; [reflexivity|]. cbn [meses contratos].
  split; [exact Hg|]. split; [now apply months_between_nonempty|].
  rewrite filter_categoria_isin by assumption.
  assert (E : filter (categoria_is c) df = []).
  { clear - Habs. induction df as [|r df IH]; [reflexivity|].
    cbn [filter]. unfold categoria_is at 1.
    destruct (String.eqb_spec (CATEGORIA r) c) as [E|E].
    - exfalso. apply (Habs r); [left; reflexivity|exact E].
    - apply IH. intros r' Hr'. apply Habs. now right. }
  rewrite E. clear.
  induction (months_between lo hi) as [|m l IH]; [reflexivity|].
  cbn [map List.length repeat]. now rewrite IH.
Qed.

(** C3, what the code does.  On a frame that is not empty, when no
    category is chosen or no row belongs to a chosen category, the
    aggregator raises the [ValueError] of [pd.date_range]; on the same
    input [create_timeline_chart] returns [None]. *)
Theorem empty_selection_raises (df : DataFrame) (cats : list string)
    (p : Page) :
  df <> [] ->
  cats = [] \/ filter (isin cats) df = [] ->
  calculate_active_contracts_by_month (Some df) cats =
    Raise (ValueError "Neither `start` nor `end` can be NaT") /\
  result_of (create_timeline_chart (Some df) cats) p = None.
Proof.
  intros Hne Hsel.
  assert (E : filter (isin cats) df = []).
  { destruct Hsel as [->|H]; [|exact H].
    clear. induction df as [|r df IH]; [reflexivity|exact IH]. }
  unfold calculate_active_contracts_by_month, create_timeline_chart, result_of.
  destruct df as [|r df]; [congruence|]. cbn [Py.is_empty orb].
  rewrite E. cbn.
  split; [reflexivity|]. destruct cats; reflexivity.
Qed.

Section UniqueFacts.

Lemma in_unique (x : string) (l : list string) : In x (unique l) <-> In x l.
Proof.
  induction l as [|y l IH]; cbn [unique]; [tauto|].
  cbn [In]. rewrite filter_In, IH.
  destruct (String.eqb_spec x y) as [->|Hne]; cbn.
  - split; auto.
  - split.
    + intros [H|[H _]]; auto.
    + intros [H|H]; [congruence|]. right. split; [assumption|reflexivity].
Qed.

Lemma NoDup_filter {A} (f : A -> bool) (l : list A) :
  NoDup l -> NoDup (filter f l).
Proof.
  induction 1 as [|x l Hx Hnd IH]; cbn [filter]; [constructor|].
  destruct (f x); [|exact IH]. constructor; [|exact IH].
  rewrite filter_In. tauto.
Qed.

Lemma unique_NoDup (l : list string) : NoDup (unique l).
Proof.
  induction l as [|y l IH]; cbn [unique]; constructor.
  - rewrite filter_In. intros [_ H]. rewrite String.eqb_refl in H. discriminate.
  - now apply NoDup_filter.
Qed.

Lemma NoDup_nth_error_inj {A} (l : list A) (i j : nat) (x : A) :
  NoDup l -> nth_error l i = Some x -> nth_error l j = Some x -> i = j.
Proof.
  intros Hnd Hi Hj.
  apply (proj1 (NoDup_nth_error l) Hnd).
  - apply nth_error_Some. congruence.
  - congruence.
Qed.

(** A split of a list without repetition at a given element is unique. *)
Lemma NoDup_split_unique {A} (l1 l2 l1' l2' : list A) (c : A) :
  NoDup (l1 ++ c :: l2) -> l1 ++ c :: l2 = l1' ++ c :: l2' ->
  l1 = l1' /\ l2 = l2'.
Proof.
  revert l1'. induction l1 as [|x l1 IH]; intros l1' Hnd E.
  - destruct l1' as [|x' l1']; cbn in E.
    + injection E as E. auto.
    + injection E as E1 E2. subst x'. cbn in Hnd.
      inversion Hnd as [|? ? Hx _]; subst. exfalso. apply Hx.
      apply in_or_app. right. left. reflexivity.
  - destruct l1' as [|x' l1']; cbn in E.
    + injection E as E1 E2. subst x. cbn in Hnd.
      inversion Hnd as [|? ? Hx _]; subst. exfalso. apply Hx.
      apply in_or_app. right. left. reflexivity.
    + injection E as E1 E2. subst x'. cbn in Hnd.
      inversion Hnd as [|? ? _ Hnd']; subst.
      destruct (IH l1' Hnd' E2) as [-> ->]. auto.
Qed.

Lemma before_or (a b : string) (l : list string) :
  In a l -> In b l -> a <> b -> before a b l \/ before b a l.
Proof.
  intros Ha Hb Hne.
  apply in_split in Ha. destruct Ha as (l1 & l2 & ->).
  apply in_app_or in Hb. destruct Hb as [Hb|[Hb|Hb]].
  - right. apply in_split in Hb. destruct Hb as (m1 & m2 & ->).
    exists m1, m2, l2. now rewrite <- app_assoc.
  - congruence.
  - left. apply in_split in Hb. destruct Hb as (m1 & m2 & ->).
    exists l1, m1, m2. reflexivity.
Qed.

End UniqueFacts.

Section LoopFacts.

Lemma fold_add_trace (categoria : string) (i : nat) (dni : string) (y : Z)
    (df_dni : DataFrame) (fig : list Trace) :
  fold_left (add_trace categoria i dni y) df_dni fig =
  fig ++ map (scatter categoria i dni y) df_dni.
Proof.
  revert fig. induction df_dni as [|r df IH]; intros fig; cbn [fold_left map].
  - now rewrite app_nil_r.
  - rewrite IH. unfold add_trace. now rewrite <- app_assoc.
Qed.

Lemma fold_dni_body (df_cat : DataFrame) (categoria : string) (i : nat)
    (dnis : list string) (st : Layout) :
  fold_left (dni_body df_cat categoria i) dnis st =
  {| traces := traces st
               ++ person_rows df_cat categoria i (y_position st) dnis;
     y_position := y_position st + Z.of_nat (List.length dnis);
     categoria_positions := categoria_positions st |}.
Proof.
  revert st. induction dnis as [|dni dnis IH]; intros st.
  - cbn. rewrite app_nil_r, Z.add_0_r. now destruct st.
  - cbn [fold_left]. rewrite IH. unfold dni_body.
    cbn [traces y_position categoria_positions person_rows List.length].
    rewrite fold_add_trace, <- app_assoc. f_equal. lia.
Qed.

Lemma categoria_body_traces (df : DataFrame) (i : nat) (c : string)
    (st : Layout) :
  traces (categoria_body df i c st) = traces st ++ block df i c (y_position st).
Proof.
  unfold categoria_body, block.
  destruct (Py.is_empty (filter (categoria_is c) df)).
  - now rewrite app_nil_r.
  - rewrite fold_dni_body. reflexivity.
Qed.

Lemma categoria_body_y (df : DataFrame) (i : nat) (c : string) (st : Layout) :
  y_position (categoria_body df i c st) = y_position st + block_height df c.
Proof.
  unfold categoria_body, block_height.
  destruct (Py.is_empty (filter (categoria_is c) df)).
  - lia.
  - rewrite fold_dni_body. cbn [y_position]. unfold nunique. lia.
Qed.

Lemma categoria_body_positions (df : DataFrame) (i : nat) (c : string)
    (st : Layout) :
  categoria_positions (categoria_body df i c st) =
  if Py.is_empty (filter (categoria_is c) df) then categoria_positions st
  else Py.dict_set (categoria_positions st) c (y_position st).
Proof.
  unfold categoria_body.
  destruct (Py.is_empty (filter (categoria_is c) df)); [reflexivity|].
  rewrite fold_dni_body. reflexivity.
Qed.

Lemma for_categorias_traces (df : DataFrame) (i : nat) (cats : list string)
    (st : Layout) :
  traces (for_categorias df i cats st) =
  traces st ++ category_rows df i cats (y_position st).
Proof.
  revert i st. induction cats as [|c cats IH]; intros i st.
  - cbn. now rewrite app_nil_r.
  - cbn [for_categorias category_rows]. rewrite IH.
    rewrite categoria_body_traces, categoria_body_y, <- app_assoc.
    reflexivity.
Qed.

Lemma for_categorias_y (df : DataFrame) (i : nat) (cats : list string)
    (st : Layout) :
  y_position (for_categorias df i cats st) = rows_end df cats (y_position st).
Proof.
  revert i st. induction cats as [|c cats IH]; intros i st; [reflexivity|].
  cbn [for_categorias rows_end]. rewrite IH, categoria_body_y. reflexivity.
Qed.

Lemma for_categorias_app (df : DataFrame) (i : nat) (l1 l2 : list string)
    (st : Layout) :
  for_categorias df i (l1 ++ l2) st =
  for_categorias df (i + List.length l1) l2 (for_categorias df i l1 st).
Proof.
  revert i st. induction l1 as [|c l1 IH]; intros i st.
  - cbn. now rewrite Nat.add_0_r.
  - cbn [app for_categorias List.length]. rewrite IH.
    now replace (S i + List.length l1)%nat with (i + S (List.length l1))%nat by lia.
Qed.

Lemma rows_end_app (df : DataFrame) (l1 l2 : list string) (y : Z) :
  rows_end df (l1 ++ l2) y = rows_end df l2 (rows_end df l1 y).
Proof.
  revert y. induction l1 as [|c l1 IH]; intros y; [reflexivity|].
  cbn [app rows_end]. apply IH.
Qed.

Lemma category_rows_app (df : DataFrame) (i : nat) (l1 l2 : list string)
    (y : Z) :
  category_rows df i (l1 ++ l2) y =
  category_rows df i l1 y
    ++ category_rows df (i + List.length l1) l2 (rows_end df l1 y).
Proof.
  revert i y. induction l1 as [|c l1 IH]; intros i y.
  - cbn. now rewrite Nat.add_0_r.
  - cbn [app category_rows rows_end List.length]. rewrite IH, <- app_assoc.
    now replace (S i + List.length l1)%nat with (i + S (List.length l1))%nat by lia.
Qed.

Lemma block_height_nonneg (df : DataFrame) (c : string) :
  0 <= block_height df c.
Proof.
  unfold block_height. destruct (Py.is_empty _); lia.
Qed.

Lemma rows_end_ge (df : DataFrame) (cats : list string) (y : Z) :
  y <= rows_end df cats y.
Proof.
  revert y. induction cats as [|c cats IH]; intros y; cbn [rows_end]; [lia|].
  pose proof (IH (y + block_height df c)).
  pose proof (block_height_nonneg df c). lia.
Qed.

(** The bars of the persons: which row, which person, which contract. *)
Lemma in_person_rows (df_cat : DataFrame) (c : string) (i : nat) (y : Z)
    (dnis : list string) (t : Trace) :
  In t (person_rows df_cat c i y dnis) <->
  exists k r,
    nth_error dnis k = Some (DNI r) /\ In r df_cat /\
    t = scatter c i (DNI r) (y + Z.of_nat k) r.
Proof.
  revert y. induction dnis as [|dni dnis IH]; intros y; cbn [person_rows].
  - split; [contradiction|]. intros (k & r & H & _). destruct k; discriminate.
  - rewrite in_app_iff, in_map_iff, IH. split.
    + intros [(r & <- & Hr)|(k & r & Hk & Hr & ->)].
      * apply filter_In in Hr. destruct Hr as [Hr Hd].
        unfold dni_is in Hd. apply String.eqb_eq in Hd. subst dni.
        exists O, r. cbn. rewrite Z.add_0_r. auto.
      * exists (S k), r. cbn [nth_error]. repeat split; try assumption.
        f_equal. lia.
    + intros (k & r & Hk & Hr & ->). destruct k as [|k]; cbn in Hk.
      * injection Hk as ->. left. exists r. rewrite Z.add_0_r. split; [reflexivity|].
        apply filter_In. split; [assumption|]. apply String.eqb_refl.
      * right. exists k, r. repeat split; try assumption. f_equal. lia.
Qed.

Lemma in_filter_categoria (c : string) (df : DataFrame) (r : Row) :
  In r (filter (categoria_is c) df) <-> In r df /\ CATEGORIA r = c.
Proof.
  rewrite filter_In. unfold categoria_is.
  split; intros [H1 H2]; split; try assumption; now apply String.eqb_eq.
Qed.

(** The bars of one block. *)
Lemma in_block (df : DataFrame) (i : nat) (c : string) (y : Z) (t : Trace) :
  In t (block df i c y) <->
  exists k r,
    nth_error (unique (map DNI (filter (categoria_is c) df))) k
      = Some (DNI r) /\
    In r df /\ CATEGORIA r = c /\
    t = scatter c i (DNI r) (y + Z.of_nat k) r.
Proof.
  unfold block.
  destruct (filter (categoria_is c) df) as [|r0 l] eqn:E; cbn [Py.is_empty].
  - split; [contradiction|]. intros (k & r & H & _). destruct k; discriminate.
  - rewrite <- E, in_person_rows. split.
    + intros (k & r & Hk & Hr & ->). apply in_filter_categoria in Hr.
      exists k, r. tauto.
    + intros (k & r & Hk & Hr & Hc & ->). exists k, r.
      rewrite in_filter_categoria. tauto.
Qed.

Lemma in_block_height (df : DataFrame) (i : nat) (c : string) (y : Z)
    (t : Trace) :
  In t (block df i c y) ->
  hover_categoria t = c /\
  y <= trace_y t /\ trace_y t + 3 <= y + block_height df c.
Proof.
  intros H. pose proof H as H'. apply in_block in H'.
  destruct H' as (k & r & Hk & Hr & Hc & ->). cbn.
  split; [reflexivity|].
  assert (Hlt : (k < nunique (map DNI (filter (categoria_is c) df)))%nat).
  { unfold nunique. apply nth_error_Some. congruence. }
  unfold block_height.
  destruct (filter (categoria_is c) df) as [|r0 l] eqn:E.
  - cbn in Hlt. lia.
  - cbn [Py.is_empty]. lia.
Qed.

(** A bar of the layout belongs to the block of a category of the list,
    which starts where the categories before it end. *)
Lemma in_category_rows (df : DataFrame) (i : nat) (cats : list string)
    (y : Z) (t : Trace) :
  In t (category_rows df i cats y) <->
  exists l1 c l2,
    cats = l1 ++ c :: l2 /\
    In t (block df (i + List.length l1) c (rows_end df l1 y)).
Proof.
  revert i y. induction cats as [|c cats IH]; intros i y.
  - split; [contradiction|]. intros (l1 & c & l2 & E & _).
    destruct l1; discriminate.
  - cbn [category_rows]. rewrite in_app_iff, IH. split.
    + intros [H|(l1 & c' & l2 & -> & H)].
      * exists [], c, cats. cbn. rewrite Nat.add_0_r. auto.
      * exists (c :: l1), c', l2. cbn [app List.length rows_end].
        split; [reflexivity|].
        now replace (i + S (List.length l1))%nat with (S i + List.length l1)%nat by lia.
    + intros (l1 & c' & l2 & E & H). destruct l1 as [|x l1]; cbn in E.
      * injection E as -> ->. cbn in H. rewrite Nat.add_0_r in H. now left.
      * injection E as -> ->. right. exists l1, c', l2.
        split; [reflexivity|]. cbn [List.length rows_end] in H.
        now replace (S i + List.length l1)%nat with (i + S (List.length l1))%nat by lia.
Qed.

Lemma timeline_layout_traces (df : DataFrame) (cats : list string) :
  traces (timeline_layout df cats) = category_rows df 0 cats 0.
Proof. unfold timeline_layout. now rewrite for_categorias_traces. Qed.

Lemma timeline_layout_y (df : DataFrame) (cats : list string) :
  y_position (timeline_layout df cats) = rows_end df cats 0.
Proof. unfold timeline_layout. now rewrite for_categorias_y. Qed.

(** With no repeated category, the bars of category [c] are those of the
    one block of [c]. *)
Lemma in_layout_block (df : DataFrame) (l1 l2 : list string) (c : string)
    (t : Trace) :
  NoDup (l1 ++ c :: l2) ->
  In t (traces (timeline_layout df (l1 ++ c :: l2))) ->
  hover_categoria t = c ->
  In t (block df (List.length l1) c (rows_end df l1 0)).
Proof.
  intros Hnd Hin Hc. rewrite timeline_layout_traces in Hin.
  apply in_category_rows in Hin.
  destruct Hin as (m1 & c' & m2 & E & Hb).
  pose proof (in_block_height _ _ _ _ _ Hb) as (Hc' & _).
  rewrite Hc in Hc'. subst c'.
  destruct (NoDup_split_unique _ _ _ _ _ Hnd E) as [<- <-].
  exact Hb.
Qed.

End LoopFacts.

Section LayoutFacts.

Variable df : DataFrame.

Lemma create_timeline_chart_data (frame : DataFrame) (cats : list string)
    (p : Page) (fig : Figure) :
  result_of (create_timeline_chart (Some frame) cats) p = Some fig ->
  fig_data fig = traces (timeline_layout (filter (isin cats) frame) cats).
Proof.
  unfold create_timeline_chart, result_of.
  destruct (Py.is_empty frame || Py.is_empty cats); [discriminate|].
  destruct (Py.is_empty (filter (isin cats) frame)); [discriminate|].
  cbn. intros [= <-]. reflexivity.
Qed.

Lemma rows_end_prefix (l1 l2 : list string) :
  rows_end df l1 0 <= rows_end df (l1 ++ l2) 0.
Proof. rewrite rows_end_app. apply rows_end_ge. Qed.

Lemma rows_end_snoc (l1 : list string) (c : string) :
  rows_end df (l1 ++ [c]) 0 = rows_end df l1 0 + block_height df c.
Proof. rewrite rows_end_app. reflexivity. Qed.

(** The rows of a block lie between the start of the block and three
    rows before the start of what follows. *)
Lemma block_rows_bounds (l1 l2 : list string) (c : string) (t : Trace) :
  NoDup (l1 ++ c :: l2) ->
  In t (traces (timeline_layout df (l1 ++ c :: l2))) ->
  hover_categoria t = c ->
  rows_end df l1 0 <= trace_y t /\
  trace_y t + 3 <= rows_end df (l1 ++ [c]) 0.
Proof.
  intros Hnd Hin Hc.
  pose proof (in_layout_block df l1 l2 c t Hnd Hin Hc) as Hb.
  apply in_block_height in Hb. rewrite rows_end_snoc. lia.
Qed.

Lemma block_order_rows (cats : list string) (A B : string) (tA tB : Trace) :
  NoDup cats -> before A B cats ->
  In tA (traces (timeline_layout df cats)) ->
  In tB (traces (timeline_layout df cats)) ->
  hover_categoria tA = A -> hover_categoria tB = B ->
  trace_y tA + 3 <= trace_y tB.
Proof.
  intros Hnd (l1 & l2 & l3 & ->) HA HB EA EB.
  pose proof (block_rows_bounds l1 (l2 ++ B :: l3) A tA Hnd HA EA) as [_ H1].
  assert (E : l1 ++ A :: l2 ++ B :: l3 = (l1 ++ A :: l2) ++ B :: l3)
    by (rewrite <- app_assoc; reflexivity).
  rewrite E in Hnd, HB.
  pose proof (block_rows_bounds (l1 ++ A :: l2) l3 B tB Hnd HB EB) as [H2 _].
  assert (E' : l1 ++ A :: l2 = (l1 ++ [A]) ++ l2)
    by (rewrite <- app_assoc; reflexivity).
  rewrite E' in H2.
  pose proof (rows_end_prefix (l1 ++ [A]) l2). lia.
Qed.

Lemma layout_categoria_in (cats : list string) (t : Trace) :
  In t (traces (timeline_layout df cats)) -> In (hover_categoria t) cats.
Proof.
  rewrite timeline_layout_traces, in_category_rows.
  intros (l1 & c & l2 & -> & Hb). apply in_block_height in Hb.
  destruct Hb as (-> & _). apply in_or_app. right. left. reflexivity.
Qed.

(** Only the colour of a bar depends on the position of its category in
    the list. *)
Lemma placement_person_rows (df_cat : DataFrame) (c : string) (i j : nat)
    (y : Z) (dnis : list string) :
  map placement (person_rows df_cat c i y dnis) =
  map placement (person_rows df_cat c j y dnis).
Proof.
  revert y. induction dnis as [|d dnis IH]; intros y; [reflexivity|].
  cbn [person_rows]. rewrite !map_app, !map_map, IH. reflexivity.
Qed.

Lemma placement_category_rows (i j : nat) (cats : list string) (y : Z) :
  map placement (category_rows df i cats y) =
  map placement (category_rows df j cats y).
Proof.
  revert i j y. induction cats as [|c cats IH]; intros i j y; [reflexivity|].
  cbn [category_rows]. rewrite !map_app, (IH (S i) (S j)). f_equal.
  unfold block. destruct (Py.is_empty _); [reflexivity|].
  apply placement_person_rows.
Qed.

Lemma positions_other (i : nat) (cats : list string) (st : Layout)
    (c : string) :
  ~ In c cats \/ filter (categoria_is c) df = [] ->
  Py.dict_get (categoria_positions (for_categorias df i cats st)) c =
  Py.dict_get (categoria_positions st) c.
Proof.
  intros Hc. revert i st.
  induction cats as [|x cats IH]; intros i st; [reflexivity|].
  cbn [for_categorias]. rewrite IH.
  - rewrite categoria_body_positions.
    destruct (Py.is_empty (filter (categoria_is x) df)) eqn:E; [reflexivity|].
    rewrite dict_get_set.
    destruct (String.eqb_spec x c) as [->|]; [|reflexivity].
    exfalso. destruct Hc as [Hc|Hc].
    + apply Hc. left. reflexivity.
    + rewrite Hc in E. discriminate.
  - destruct Hc as [Hc|Hc]; [left|right; exact Hc].
    intros H. apply Hc. now right.
Qed.

(** The recorded position of a category with bars is the first row of
    its block. *)
Lemma position_of_block (l1 l2 : list string) (c : string) :
  NoDup (l1 ++ c :: l2) ->
  filter (categoria_is c) df <> [] ->
  Py.dict_get (categoria_positions (timeline_layout df (l1 ++ c :: l2))) c =
  Some (rows_end df l1 0).
Proof.
  intros Hnd Hne. unfold timeline_layout.
  rewrite for_categorias_app. cbn [for_categorias].
  rewrite positions_other.
  - rewrite categoria_body_positions.
    destruct (filter (categoria_is c) df) eqn:E; [congruence|].
    cbn [Py.is_empty]. rewrite dict_get_set, String.eqb_refl.
    now rewrite for_categorias_y.
  - left. apply NoDup_remove_2 in Hnd. intros H. apply Hnd.
    apply in_or_app. now right.
Qed.

Lemma rows_end_empty (l : list string) (y : Z) :
  (forall c, In c l -> filter (categoria_is c) df = []) ->
  rows_end df l y = y /\ forall i, category_rows df i l y = [].
Proof.
  revert y. induction l as [|c l IH]; intros y H; [auto|].
  cbn [rows_end category_rows]. unfold block_height, block.
  rewrite (H c) by (left; reflexivity). cbn [Py.is_empty].
  rewrite Z.add_0_r. cbn [app].
  destruct (IH y) as [H1 H2]; [intros c' Hc'; apply H; now right|].
  split; [exact H1|]. intros i. apply H2.
Qed.

End LayoutFacts.

(** C6.  In the layout of the filtered frame, for a list of categories
    without repetition: the bars of a category that comes before another
    one are at least three rows above the bars of that other one, and the
    two rows that follow a block hold no bar; a category without surviving
    interval has no bar and no recorded position, and the rows and the
    final row counter are those of the list without it; the first category
    that has intervals is recorded at row 0 and the first bar of the figure
    is a bar of that category at row 0. *)
Theorem block_ordering (df : DataFrame) (cats : list string) :
  NoDup cats ->
  let df_filtrado := filter (isin cats) df in
  let L := timeline_layout df_filtrado cats in
  (forall p fig,
      result_of (create_timeline_chart (Some df) cats) p = Some fig ->
      fig_data fig = traces L) /\
  (forall A B tA tB,
      before A B cats -> In tA (traces L) -> In tB (traces L) ->
      hover_categoria tA = A -> hover_categoria tB = B ->
      trace_y tA + 3 <= trace_y tB) /\
  (forall l1 c l2 t,
      cats = l1 ++ c :: l2 ->
      filter (categoria_is c) df_filtrado <> [] ->
      In t (traces L) ->
      trace_y t <> rows_end df_filtrado (l1 ++ [c]) 0 - 2 /\
      trace_y t <> rows_end df_filtrado (l1 ++ [c]) 0 - 1) /\
  (forall l1 c l2,
      cats = l1 ++ c :: l2 ->
      filter (categoria_is c) df_filtrado = [] ->
      (forall t, In t (traces L) -> hover_categoria t <> c) /\
      Py.dict_get (categoria_positions L) c = None /\
      map placement (traces (timeline_layout df_filtrado (l1 ++ l2))) =
        map placement (traces L) /\
      y_position (timeline_layout df_filtrado (l1 ++ l2)) = y_position L) /\
  (forall l1 c l2,
      cats = l1 ++ c :: l2 ->
      (forall c', In c' l1 -> filter (categoria_is c') df_filtrado = []) ->
      filter (categoria_is c) df_filtrado <> [] ->
      Py.dict_get (categoria_positions L) c = Some 0 /\
      exists t rest,
        traces L = t :: rest /\ hover_categoria t = c /\ trace_y t = 0).
Proof.
  intros Hnd df_filtrado L. subst L.
  split; [intros p fig; apply create_timeline_chart_data|].
  split; [intros A B tA tB; now apply block_order_rows|].
  split.
  { intros l1 c l2 t -> Hne Hin.
    pose proof (layout_categoria_in _ _ _ Hin) as Hcat.
    assert (Hh : 3 <= block_height df_filtrado c).
    { unfold block_height.
      destruct (filter (categoria_is c) df_filtrado) as [|r l] eqn:E;
        [congruence|].
      cbn [Py.is_empty]. unfold nunique. cbn [map unique List.length]. lia. }
    rewrite rows_end_snoc.
    destruct (String.eqb_spec (hover_categoria t) c) as [E|E].
    - pose proof (block_rows_bounds _ l1 l2 c t Hnd Hin E) as [_ H].
      rewrite rows_end_snoc in H. lia.
    - destruct (before_or (hover_categoria t) c _ Hcat
                  ltac:(apply in_or_app; right; left; reflexivity) E)
        as [(m1 & m2 & m3 & Hs)|(m1 & m2 & m3 & Hs)].
      + assert (Hs' : l1 ++ c :: l2 = (m1 ++ hover_categoria t :: m2) ++ c :: m3)
          by (rewrite <- app_assoc; exact Hs).
        destruct (NoDup_split_unique _ _ _ _ _ Hnd Hs') as [-> ->].
        rewrite <- app_assoc in Hnd, Hin. cbn [app] in Hnd, Hin.
        pose proof (block_rows_bounds _ m1 (m2 ++ c :: m3) _ t Hnd Hin eq_refl)
          as [_ H].
        assert (E2 : m1 ++ hover_categoria t :: m2
                     = (m1 ++ [hover_categoria t]) ++ m2)
          by (rewrite <- app_assoc; reflexivity).
        rewrite E2.
        pose proof (rows_end_prefix df_filtrado (m1 ++ [hover_categoria t]) m2).
        lia.
      + destruct (NoDup_split_unique _ _ _ _ _ Hnd Hs) as [-> ->].
        assert (Hs' : m1 ++ c :: m2 ++ hover_categoria t :: m3
                      = (m1 ++ c :: m2) ++ hover_categoria t :: m3)
          by (rewrite <- app_assoc; reflexivity).
        rewrite Hs' in Hnd, Hin.
        pose proof (block_rows_bounds _ (m1 ++ c :: m2) m3 _ t Hnd Hin eq_refl)
          as [H _].
        assert (E2 : m1 ++ c :: m2 = (m1 ++ [c]) ++ m2)
          by (rewrite <- app_assoc; reflexivity).
        rewrite E2 in H.
        pose proof (rows_end_prefix df_filtrado (m1 ++ [c]) m2).
        rewrite rows_end_snoc in *. lia. }
  split.
  { intros l1 c l2 -> Hempty. split.
    { intros t Hin Hc.
      pose proof (in_layout_block _ l1 l2 c t Hnd Hin Hc) as Hb.
      unfold block in Hb. rewrite Hempty in Hb. exact Hb. }
    split.
    { unfold timeline_layout. rewrite positions_other; [reflexivity|].
      right. exact Hempty. }
    split.
    { rewrite !timeline_layout_traces, !category_rows_app.
      cbn [category_rows].
      assert (Hb : forall i y, block df_filtrado i c y = [])
        by (intros i y; unfold block; now rewrite Hempty).
      assert (Hh : block_height df_filtrado c = 0)
        by (unfold block_height; now rewrite Hempty).
      rewrite Hb, Hh. cbn [app]. rewrite Z.add_0_r, !map_app.
      f_equal. apply placement_category_rows. }
    rewrite !timeline_layout_y, !rows_end_app. cbn [rows_end].
    unfold block_height. rewrite Hempty. cbn [Py.is_empty].
    now rewrite Z.add_0_r. }
  intros l1 c l2 -> Hl1 Hne.
  destruct (rows_end_empty df_filtrado l1 0 Hl1) as [Hend Hrows].
  split.
  { rewrite position_of_block by assumption. now rewrite Hend. }
  rewrite timeline_layout_traces, category_rows_app, Hrows, Hend.
  cbn [app category_rows]. unfold block.
  destruct (filter (categoria_is c) df_filtrado) as [|r l] eqn:E; [congruence|].
  cbn [Py.is_empty map unique person_rows filter].
  unfold dni_is at 1. rewrite String.eqb_refl. cbn [map app].
  eexists. eexists. split; [reflexivity|]. split; reflexivity.
Qed.

(** C2, as the code has it.  Rows go to persons, not to intervals: every
    surviving interval gets one bar; two bars are on the same row exactly
    when they emit the same category and the same person; and the rows used
    by a category are consecutive, as many as the category has distinct
    persons, from the first row of its block. *)
Theorem rows_per_person (df : DataFrame) (cats : list string) :
  NoDup cats ->
  let df_filtrado := filter (isin cats) df in
  let L := timeline_layout df_filtrado cats in
  (forall p fig,
      result_of (create_timeline_chart (Some df) cats) p = Some fig ->
      fig_data fig = traces L) /\
  (forall r, In r df_filtrado -> exists t, In t (traces L) /\ draws t r) /\
  (forall t, In t (traces L) -> exists r, In r df_filtrado /\ draws t r) /\
  (forall t1 t2,
      In t1 (traces L) -> In t2 (traces L) ->
      (trace_y t1 = trace_y t2 <->
       hover_categoria t1 = hover_categoria t2 /\ hover_dni t1 = hover_dni t2)) /\
  (forall l1 c l2 y,
      cats = l1 ++ c :: l2 ->
      ((exists t, In t (traces L) /\ hover_categoria t = c /\ trace_y t = y) <->
       rows_end df_filtrado l1 0 <= y <
       rows_end df_filtrado l1 0
         + Z.of_nat (nunique (map DNI (filter (categoria_is c) df_filtrado))))).
Proof.
  intros Hnd df_filtrado L. subst L.
  split; [intros p fig; apply create_timeline_chart_data|].
  split.
  { intros r Hr.
    assert (Hc : In (CATEGORIA r) cats).
    { apply filter_In in Hr. now apply isin_true. }
    apply in_split in Hc. destruct Hc as (l1 & l2 & Hs).
    assert (Hd : In (DNI r)
                   (unique (map DNI (filter (categoria_is (CATEGORIA r))
                                            df_filtrado)))).
    { apply in_unique, in_map, in_filter_categoria. auto. }
    apply In_nth_error in Hd. destruct Hd as (k & Hk).
    eexists. split.
    - rewrite timeline_layout_traces, in_category_rows.
      exists l1, (CATEGORIA r), l2. split; [exact Hs|].
      apply in_block. exists k, r. repeat split; eassumption.
    - repeat split. }
  split.
  { intros t Hin. rewrite timeline_layout_traces, in_category_rows in Hin.
    destruct Hin as (l1 & c & l2 & _ & Hb). apply in_block in Hb.
    destruct Hb as (k & r & _ & Hr & Hc & ->). exists r.
    split; [assumption|]. repeat split. cbn. now symmetry. }
  split.
  { intros t1 t2 H1 H2.
    pose proof (layout_categoria_in _ _ _ H1) as C1.
    pose proof (layout_categoria_in _ _ _ H2) as C2.
    assert (Hsame : hover_categoria t1 = hover_categoria t2 ->
                    (trace_y t1 = trace_y t2 <-> hover_dni t1 = hover_dni t2)).
    { intros E. pose proof C1 as Hs. apply in_split in Hs.
      destruct Hs as (l1 & l2 & Hs). rewrite Hs in Hnd, H1, H2.
      pose proof (in_layout_block _ l1 l2 _ t1 Hnd H1 eq_refl) as B1.
      pose proof (in_layout_block _ l1 l2 _ t2 Hnd H2 (eq_sym E)) as B2.
      apply in_block in B1, B2.
      destruct B1 as (k1 & r1 & N1 & _ & _ & E1).
      destruct B2 as (k2 & r2 & N2 & _ & _ & E2).
      rewrite E1, E2. cbn [trace_y hover_dni scatter].
      pose proof (unique_NoDup
                    (map DNI (filter (categoria_is (hover_categoria t1))
                                     df_filtrado))) as Hu.
      split.
      - intros Hy. assert (k1 = k2) by lia. subst k2. congruence.
      - intros Hd. rewrite <- Hd in N2.
        rewrite (NoDup_nth_error_inj _ _ _ _ Hu N1 N2). reflexivity. }
    split.
    - intros Hy.
      destruct (String.eqb_spec (hover_categoria t1) (hover_categoria t2))
        as [E|E].
      + split; [exact E|]. now apply Hsame.
      + exfalso.
        destruct (before_or _ _ _ C1 C2 E) as [Hb|Hb].
        * pose proof (block_order_rows _ _ _ _ t1 t2 Hnd Hb H1 H2 eq_refl eq_refl).
          lia.
        * pose proof (block_order_rows _ _ _ _ t2 t1 Hnd Hb H2 H1 eq_refl eq_refl).
          lia.
    - intros [E Hd]. now apply Hsame. }
  intros l1 c l2 y ->. split.
  - intros (t & Hin & Hc & <-).
    pose proof (in_layout_block _ l1 l2 c t Hnd Hin Hc) as Hb.
    apply in_block in Hb. destruct Hb as (k & r & Hk & _ & _ & ->).
    cbn [trace_y scatter].
    assert ((k < nunique (map DNI (filter (categoria_is c) df_filtrado)))%nat).
    { unfold nunique. apply nth_error_Some. congruence. }
    lia.
  - intros Hy.
    set (U := unique (map DNI (filter (categoria_is c) df_filtrado))) in *.
    destruct (nth_error U (Z.to_nat (y - rows_end df_filtrado l1 0)))
      as [d|] eqn:Hk.
    + assert (Hd : In d U) by (eapply nth_error_In; eassumption).
      apply in_unique, in_map_iff in Hd. destruct Hd as (r & <- & Hr).
      apply in_filter_categoria in Hr. destruct Hr as [Hr Hc].
      eexists. split; [|split].
      * rewrite timeline_layout_traces, in_category_rows.
        exists l1, c, l2. split; [reflexivity|].
        apply in_block. exists (Z.to_nat (y - rows_end df_filtrado l1 0)), r.
        repeat split; try eassumption.
      * reflexivity.
      * cbn. lia.
    + apply nth_error_None in Hk. unfold nunique in Hy. fold U in Hy. lia.
Qed.

Section SortedSet.

Lemma in_insert_uniq (x z : Z) (l : list Z) :
  In z (Py.insert_uniq x l) <-> z = x \/ In z l.
Proof.
  induction l as [|y l IH]; cbn [Py.insert_uniq].
  - cbn. intuition.
  - destruct (Z.ltb_spec x y).
    + cbn. intuition.
    + destruct (Z.eqb_spec x y) as [->|].
      * cbn. intuition.
      * cbn [In]. rewrite IH. intuition.
Qed.

Lemma insert_uniq_sorted (x : Z) (l : list Z) :
  StronglySorted Z.lt l -> StronglySorted Z.lt (Py.insert_uniq x l).
Proof.
  induction 1 as [|y l Hs IH Hall]; cbn [Py.insert_uniq].
  - repeat constructor.
  - destruct (Z.ltb_spec x y).
    + constructor; [now constructor|].
      constructor; [assumption|].
      apply Forall_impl with (2 := Hall). intros; lia.
    + destruct (Z.eqb_spec x y) as [->|]; [now constructor|].
      constructor; [exact IH|].
      apply Forall_forall. intros z Hz. apply in_insert_uniq in Hz.
      rewrite Forall_forall in Hall. destruct Hz as [->|Hz]; [lia|auto].
Qed.

Lemma sorted_set_sorted (l : list Z) : StronglySorted Z.lt (Py.sorted_set l).
Proof.
  induction l as [|x l IH]; cbn; [constructor|].
  now apply insert_uniq_sorted.
Qed.

Lemma in_sorted_set (z : Z) (l : list Z) : In z (Py.sorted_set l) <-> In z l.
Proof.
  induction l as [|x l IH]; cbn [Py.sorted_set fold_right]; [tauto|].
  rewrite in_insert_uniq. fold (Py.sorted_set l). rewrite IH. cbn. intuition.
Qed.

(** Dropping the first element of an ascending list drops its least
    element. *)
Lemma in_tl_sorted (z : Z) (l : list Z) :
  StronglySorted Z.lt l ->
  (In z (tl l) <-> In z l /\ exists m, In m l /\ m < z).
Proof.
  intros Hs. destruct l as [|h t]; cbn [tl].
  - split; [contradiction|tauto].
  - inversion Hs as [|? ? _ Hall]; subst. rewrite Forall_forall in Hall.
    split.
    + intros Hz. split; [now right|]. exists h. split; [now left|auto].
    + intros [[->|Hz] (m & [->|Hm] & Hlt)]; try assumption; try lia.
      specialize (Hall _ Hm). lia.
Qed.

Lemma tl_sorted (l : list Z) :
  StronglySorted Z.lt l -> StronglySorted Z.lt (tl l).
Proof. destruct 1; cbn; [constructor|assumption]. Qed.

End SortedSet.

Section YearMarks.
Import Calendar DateRange.

Lemma in_years_of_points (tod a b Y : Z) :
  In Y (map year (map (month_point tod) (Py.range a b))) <->
  exists k, a <= k < b /\ k / 12 = Y.
Proof.
  rewrite map_map, in_map_iff. cbn [year month_point].
  split; intros (k & H1 & H2); exists k.
  - apply in_range in H2. auto.
  - rewrite in_range. tauto.
Qed.

(** The years that [create_active_contracts_chart] marks over a run of
    month points. *)
Lemma monthly_years_points (tod a b Y : Z) :
  In Y (monthly_years (map (month_point tod) (Py.range a b))) <->
  a < b /\ a / 12 < Y <= (b - 1) / 12.
Proof.
  unfold monthly_years.
  rewrite in_tl_sorted by apply sorted_set_sorted.
  rewrite in_sorted_set, in_years_of_points. split.
  - intros [(k & Hk & <-) (m & Hm & Hlt)].
    apply in_sorted_set, in_years_of_points in Hm.
    destruct Hm as (k' & Hk' & <-).
    split; [lia|]. Z.div_mod_to_equations. lia.
  - intros (Hab & Hlo & Hhi). split.
    + exists (Z.max a (12 * Y)). split; Z.div_mod_to_equations; lia.
    + exists (a / 12). split; [|lia].
      apply in_sorted_set, in_years_of_points. exists a. lia.
Qed.

Lemma monthly_years_sorted (grid : list Timestamp) :
  StronglySorted Z.lt (monthly_years grid).
Proof. apply tl_sorted, sorted_set_sorted. Qed.

(** The same years, told by the first and the last month point. *)
Lemma monthly_years_extent (tod a b Y : Z) :
  0 <= tod < NS_PER_DAY ->
  let grid := map (month_point tod) (Py.range a b) in
  In Y (monthly_years grid) <->
  exists first last rest front,
    grid = first :: rest /\ grid = front ++ [last] /\
    ts_lt first (Timestamp_ymd Y 1 1) /\ ts_le (Timestamp_ymd Y 1 1) last.
Proof.
  intros Ht grid. subst grid. rewrite monthly_years_points. split.
  - intros (Hab & Hlo & Hhi).
    exists (month_point tod a), (month_point tod (b - 1)).
    eexists. eexists. split; [|split; [|split]].
    + rewrite range_cons by lia. reflexivity.
    + replace b with (b - 1 + 1) at 1 by lia.
      rewrite range_snoc, map_app by lia. reflexivity.
    + apply lt_jan1_iff; [now apply month_point_valid|]. exact Hlo.
    + apply jan1_le_iff; [now apply month_point_valid|]. exact Hhi.
  - intros (first & last & rest & front & E1 & E2 & Hlo & Hhi).
    destruct (Z_lt_ge_dec a b) as [Hab|Hab].
    + rewrite range_cons in E1 by lia. cbn [map] in E1.
      injection E1 as <- _.
      replace b with (b - 1 + 1) in E2 at 1 by lia.
      rewrite range_snoc, map_app in E2 by lia. cbn [map] in E2.
      apply app_inj_tail in E2. destruct E2 as [_ <-].
      apply lt_jan1_iff in Hlo; [|now apply month_point_valid].
      apply jan1_le_iff in Hhi; [|now apply month_point_valid].
      cbn [year month_point] in Hlo, Hhi. lia.
    + rewrite range_nil in E1 by lia. discriminate.
Qed.

Lemma timeline_years_extent (lo hi : Timestamp) (Y : Z) :
  ts_valid lo -> ts_valid hi ->
  (In Y (timeline_years (Some lo) (Some hi)) <->
   ts_lt lo (Timestamp_ymd Y 1 1) /\ ts_le (Timestamp_ymd Y 1 1) hi).
Proof.
  intros Vlo Vhi. cbn [timeline_years].
  rewrite in_range, (lt_jan1_iff Y lo Vlo), (jan1_le_iff Y hi Vhi). lia.
Qed.

Lemma marked_years_shapes (y0 y1 : Z) (l : list Z) :
  marked_years (map (fun a => {| shape_x := Timestamp_ymd a 1 1;
                                 shape_y0 := y0; shape_y1 := y1 |}) l) = l.
Proof.
  unfold marked_years. rewrite map_map. cbn. apply map_id.
Qed.

(** Every entry that the loop over the categories writes holds the same
    month grid. *)
Lemma fold_categoria_series_meses (dff : DataFrame) (grid : list Timestamp)
    (cats : list string) (d : Py.Dict Series) :
  Forall (fun kv => meses (snd kv) = grid) d ->
  Forall (fun kv => meses (snd kv) = grid)
         (fold_left (categoria_series dff grid) cats d).
Proof.
  revert d. induction cats as [|c cats IH]; intros d Hd; [exact Hd|].
  cbn [fold_left]. apply IH. unfold categoria_series.
  generalize ({| meses := grid;
                 contratos := map (activos (filter (categoria_is c) dff)) grid |})
    (eq_refl grid : meses {| meses := grid;
                 contratos := map (activos (filter (categoria_is c) dff)) grid |} = grid).
  intros s Hs. induction Hd as [|[k v] d Hk Hd IHd]; cbn [Py.dict_set].
  - repeat constructor. exact Hs.
  - destruct (String.eqb k c); constructor; auto.
Qed.

End YearMarks.

Section ViewFacts.

Lemma Forall_filter {A} (P : A -> Prop) (f : A -> bool) (l : list A) :
  Forall P l -> Forall P (filter f l).
Proof.
  rewrite !Forall_forall. intros H x Hx. apply filter_In in Hx. now apply H.
Qed.

(** When lines 56-63 return, the frame is not empty and the grid is a run
    of month points. *)
Lemma month_grid_ok (dff : DataFrame) (grid : list Timestamp) :
  Forall validated dff ->
  month_grid dff = Ok grid ->
  exists lo hi,
    series_min (map Falta dff) = Some lo /\
    series_max (map Fbaja dff) = Some hi /\
    ts_valid lo /\ ts_valid hi /\
    grid = map (month_point (time_ns lo))
             (Py.range (DateRange.month_index lo)
                (last_index (time_ns lo) (time_ns hi)
                            (DateRange.month_index hi) + 1)).
Proof.
  intros Hval Hg.
  destruct dff as [|r dff].
  - discriminate.
  - destruct (frame_extent (r :: dff) ltac:(discriminate) Hval)
      as (lo & hi & rmin & rmax & Hlo & Hhi & I1 & E1 & I2 & E2 & _).
    rewrite Forall_forall in Hval.
    destruct (Hval _ I1) as (Vlo & _). destruct (Hval _ I2) as (_ & Vhi & _).
    rewrite E1 in Vlo. rewrite E2 in Vhi.
    rewrite (month_grid_points _ lo hi Hlo Hhi Vlo Vhi) in Hg.
    injection Hg as <-. exists lo, hi. auto.
Qed.

(** What [calculate_active_contracts_by_month] returns when the chart has
    something to draw. *)
Lemma calculate_first_series (df : DataFrame) (cats : list string)
    (c0 : string) (s0 : Series) (rest : Py.Dict Series) :
  calculate_active_contracts_by_month (Some df) cats = Ok ((c0, s0) :: rest) ->
  month_grid (filter (isin cats) df) = Ok (meses s0).
Proof.
  unfold calculate_active_contracts_by_month.
  destruct (Py.is_empty df); [discriminate|].
  destruct (month_grid (filter (isin cats) df)) as [grid|e]; [|discriminate].
  intros [= H].
  pose proof (fold_categoria_series_meses (filter (isin cats) df) grid cats []
                (Forall_nil _)) as Hall.
  rewrite H in Hall. inversion Hall as [|? ? Hm _].
  cbn in Hm. now rewrite Hm.
Qed.

End ViewFacts.

(** C8.  In the detailed timeline the marked years are, in ascending
    order, exactly the years [Y] whose first of January lies strictly after
    the least start and on or before the greatest end of the filtered
    frame.  In the monthly view they are, in ascending order, exactly the
    years [Y] whose first of January lies strictly after the first month
    point and on or before the last one; with calendar dates these are also
    the years between the least start and the greatest end.  A range that
    is empty or has a [NaT] end marks no year. *)
Theorem year_boundaries (df : DataFrame) (cats : list string) :
  Forall validated df ->
  let df_filtrado := filter (isin cats) df in
  (forall p fig,
      result_of (create_timeline_chart (Some df) cats) p = Some fig ->
      exists fecha_min fecha_max,
        series_min (map Falta df_filtrado) = Some fecha_min /\
        series_max (map Fbaja df_filtrado) = Some fecha_max /\
        (forall Y, In Y (marked_years (fig_shapes fig)) <->
                   ts_lt fecha_min (Timestamp_ymd Y 1 1) /\
                   ts_le (Timestamp_ymd Y 1 1) fecha_max) /\
        StronglySorted Z.lt (marked_years (fig_shapes fig))) /\
  (forall res chart,
      calculate_active_contracts_by_month (Some df) cats = Ok res ->
      create_active_contracts_chart res = Some chart ->
      exists grid,
        month_grid df_filtrado = Ok grid /\
        (forall Y, In Y (marked_years (line_shapes chart)) <->
                   exists first last rest front,
                     grid = first :: rest /\ grid = front ++ [last] /\
                     ts_lt first (Timestamp_ymd Y 1 1) /\
                     ts_le (Timestamp_ymd Y 1 1) last) /\
        StronglySorted Z.lt (marked_years (line_shapes chart)) /\
        (Forall calendar_dates df ->
         exists fecha_min fecha_max,
           series_min (map Falta df_filtrado) = Some fecha_min /\
           series_max (map Fbaja df_filtrado) = Some fecha_max /\
           forall Y, In Y (marked_years (line_shapes chart)) <->
                     ts_lt fecha_min (Timestamp_ymd Y 1 1) /\
                     ts_le (Timestamp_ymd Y 1 1) fecha_max)) /\
  (forall lo hi, ts_valid lo -> ts_valid hi -> ts_lt hi lo ->
                 timeline_years (Some lo) (Some hi) = []) /\
  (forall x, timeline_years None x = [] /\ timeline_years x None = []) /\
  monthly_years [] = [].
Proof.
  intros Hval df_filtrado.
  assert (Hvalf : Forall validated df_filtrado) by now apply Forall_filter.
  split.
  { intros p fig Hfig.
    unfold create_timeline_chart, result_of in Hfig.
    destruct (Py.is_empty df || Py.is_empty cats); [discriminate|].
    fold df_filtrado in Hfig.
    destruct df_filtrado as [|r dff] eqn:E; [discriminate|].
    cbn in Hfig. injection Hfig as <-.
    destruct (frame_extent (r :: dff) ltac:(discriminate) Hvalf)
      as (lo & hi & rmin & rmax & Hlo & Hhi & I1 & E1 & I2 & E2 & _).
    rewrite Forall_forall in Hvalf.
    destruct (Hvalf _ I1) as (Vlo & _). destruct (Hvalf _ I2) as (_ & Vhi & _).
    rewrite E1 in Vlo. rewrite E2 in Vhi.
    exists lo, hi. split; [exact Hlo|]. split; [exact Hhi|].
    unfold timeline_figure. cbn [fig_shapes].
    rewrite marked_years_shapes, Hlo, Hhi. split.
    - intros Y. now apply timeline_years_extent.
    - apply range_sorted. }
  split.
  { intros res chart Hres Hchart.
    destruct res as [|[c0 s0] rest]; [discriminate|].
    pose proof (calculate_first_series df cats c0 s0 rest Hres) as Hg.
    fold df_filtrado in Hg.
    cbn in Hchart. injection Hchart as <-. cbn [line_shapes].
    rewrite marked_years_shapes.
    exists (meses s0). split; [exact Hg|].
    destruct (month_grid_ok df_filtrado (meses s0) Hvalf Hg)
      as (lo & hi & Hlo & Hhi & Vlo & Vhi & Egrid).
    split.
    { intros Y. rewrite Egrid. apply monthly_years_extent. apply Vlo. }
    split; [apply monthly_years_sorted|].
    intros Hdates.
    assert (Hne : df_filtrado <> []).
    { intros E. rewrite E in Hlo. discriminate. }
    destruct (month_grid_dates df_filtrado Hne Hvalf
                (Forall_filter _ _ _ Hdates))
      as (lo' & hi' & Hlo' & Hhi' & Hg' & Hidx & Mlo & Mhi).
    rewrite Hlo in Hlo'. injection Hlo' as <-.
    rewrite Hhi in Hhi'. injection Hhi' as <-.
    exists lo, hi. split; [exact Hlo|]. split; [exact Hhi|].
    intros Y. rewrite Hg in Hg'. injection Hg' as ->.
    unfold months_between. rewrite monthly_years_points.
    rewrite (lt_jan1_iff Y lo Vlo), (jan1_le_iff Y hi Vhi).
    unfold DateRange.month_index in *.
    split; intros H; repeat split; Z.div_mod_to_equations; lia. }
  split.
  { intros lo hi Vlo Vhi Hlt. cbn [timeline_years]. apply range_nil.
    destruct (Z_le_gt_dec (year hi) (year lo)) as [|Hgt]; [lia|exfalso].
    pose proof (proj2 (jan1_le_iff (year hi) hi Vhi) ltac:(lia)) as H1.
    pose proof (proj2 (lt_jan1_iff (year hi) lo Vlo) ltac:(lia)) as H2.
    unfold ts_lt, ts_le in *. lia. }
  split; [|reflexivity].
  intros x. split; [reflexivity|]. destruct x; reflexivity.
Qed.

Section PageFacts.

Lemma page_independent_ret {A} (a : A) : page_independent (ret a).
Proof. exists a, []. intros p. unfold ret. now rewrite app_nil_r. Qed.

Lemma page_independent_show (e : UiEvent) : page_independent (emit e).
Proof. exists tt, [e]. reflexivity. Qed.

Lemma page_independent_bind {A B} (m : UI A) (k : A -> UI B) :
  page_independent m -> (forall a, page_independent (k a)) ->
  page_independent (bind m k).
Proof.
  intros (a & s1 & Hm) Hk. destruct (Hk a) as (b & s2 & Hka).
  exists b, (s1 ++ s2). intros p. unfold bind.
  rewrite Hm, Hka. now rewrite app_assoc.
Qed.

Lemma page_independent_result {A} (m : UI A) (p1 p2 : Page) :
  page_independent m -> result_of m p1 = result_of m p2.
Proof.
  intros (a & s & H). unfold result_of. now rewrite !H.
Qed.

Lemma create_timeline_chart_independent (df : option DataFrame)
    (cats : list string) :
  page_independent (create_timeline_chart df cats).
Proof.
  unfold create_timeline_chart.
  destruct df as [df|]; [|apply page_independent_ret].
  destruct (Py.is_empty df || Py.is_empty cats);
    [apply page_independent_ret|].
  destruct (Py.is_empty (filter (isin cats) df)).
  - apply page_independent_bind;
      [apply page_independent_show|intros; apply page_independent_ret].
  - apply page_independent_ret.
Qed.

End PageFacts.

Section IngestionFacts.

Context {Cell : Type} {ops : CellOps Cell}.

Lemma column_index_none (name : string) (cols : list string) :
  column_index name cols = None <-> ~ In name cols.
Proof.
  induction cols as [|c cols IH]; cbn [column_index In]; [tauto|].
  destruct (String.eqb_spec c name) as [->|Hne].
  - split; [discriminate|]. intros H. exfalso. apply H. now left.
  - destruct (column_index name cols); cbn [option_map].
    + split; [discriminate|]. intros H. exfalso.
      assert (~ In name cols) by tauto.
      destruct IH as [_ IH]. specialize (IH H0). discriminate.
    + split; [|reflexivity]. intros _ [H|H]; [congruence|].
      now apply IH.
Qed.

Lemma column_index_some (name : string) (cols : list string) :
  In name cols -> exists i, column_index name cols = Some i.
Proof.
  intros H. destruct (column_index name cols) eqn:E; [eauto|].
  apply column_index_none in E. contradiction.
Qed.

(** What [load_data] returns is what its body returns. *)
Lemma load_data_some (file : PyResult (RawFrame Cell)) (df : DataFrame)
    (p : Page) :
  result_of (load_data file) p = Some df ->
  exists raw, file = Ok raw /\ load_data_body raw = Ok df.
Proof.
  destruct file as [raw|e]; [|discriminate].
  unfold result_of, load_data, bind, emit.
  destruct (load_data_body raw) as [df'|e] eqn:E; [|discriminate].
  cbn. intros [= <-]. eauto.
Qed.

(** With its four columns the body goes through the three steps. *)
Lemma load_data_body_records (raw : RawFrame Cell) (iD iC iF iB : nat) :
  column_index "DNI" (columns raw) = Some iD ->
  column_index "CATEGORIA" (columns raw) = Some iC ->
  column_index "Falta" (columns raw) = Some iF ->
  column_index "Fbaja" (columns raw) = Some iB ->
  load_data_body raw =
  Ok (filter duracion_ok (normalise (dropna (records raw iD iC iF iB)))).
Proof.
  intros HD HC HF HB. unfold load_data_body.
  rewrite HD, HC, HF, HB. reflexivity.
Qed.

Lemma load_data_body_ok (raw : RawFrame Cell) (df : DataFrame) :
  load_data_body raw = Ok df ->
  exists iD iC iF iB,
    column_index "DNI" (columns raw) = Some iD /\
    column_index "CATEGORIA" (columns raw) = Some iC /\
    column_index "Falta" (columns raw) = Some iF /\
    column_index "Fbaja" (columns raw) = Some iB /\
    df = filter duracion_ok (normalise (dropna (records raw iD iC iF iB))).
Proof.
  unfold load_data_body.
  destruct (column_index "Falta" (columns raw)) as [iF|]; [|discriminate].
  destruct (column_index "Fbaja" (columns raw)) as [iB|]; [|discriminate].
  destruct (column_index "DNI" (columns raw)) as [iD|];
    destruct (column_index "CATEGORIA" (columns raw)) as [iC|];
    try discriminate.
  intros [= <-]. exists iD, iC, iF, iB. repeat split; reflexivity.
Qed.

Lemma load_data_ok (raw : RawFrame Cell) (df : DataFrame) (p : Page) :
  load_data_body raw = Ok df ->
  result_of (load_data (Ok raw)) p = Some df.
Proof.
  intros H. unfold result_of, load_data, bind, emit. rewrite H.
  reflexivity.
Qed.

Lemma load_data_raise (raw : RawFrame Cell) (e : Exception) (p : Page) :
  load_data_body raw = Raise e ->
  result_of (load_data (Ok raw)) p = None.
Proof.
  intros H. unfold result_of, load_data, bind, emit. rewrite H.
  reflexivity.
Qed.

Lemma duracion_ok_iff (r : Row) :
  duracion_ok r = true <-> 0 <= Duracion r <= 10000.
Proof.
  unfold duracion_ok. rewrite andb_true_iff, Z.geb_le, Z.leb_le. tauto.
Qed.

Lemma timedelta_days_negative (e s : Timestamp) :
  ts_lt e s -> timedelta_days e s < 0.
Proof.
  unfold ts_lt, timedelta_days, Calendar.NS_PER_DAY. intros H.
  Z.div_mod_to_equations. lia.
Qed.

(** *** The three steps, row by row *)

Lemma in_zip_rows (dni cat : list Cell) (falta fbaja : list (option Timestamp))
    (r : CoercedRow Cell) :
  In r (zip_rows dni cat falta fbaja) ->
  In (c_DNI r) dni /\ In (c_CATEGORIA r) cat /\
  In (c_Falta r) falta /\ In (c_Fbaja r) fbaja.
Proof.
  revert cat falta fbaja.
  induction dni as [|d dni IH]; intros [|c cat] [|f falta] [|b fbaja];
    cbn [zip_rows In]; try contradiction.
  intros [<-|H]; cbn; [tauto|].
  destruct (IH _ _ _ H) as (H1 & H2 & H3 & H4). tauto.
Qed.

Lemma dropna_row_some (r : CoercedRow Cell) (d : DatedRow Cell) :
  dropna_row r = Some d ->
  cell_isna (c_DNI r) = false /\ cell_isna (c_CATEGORIA r) = false /\
  c_Falta r = Some (d_Falta d) /\ c_Fbaja r = Some (d_Fbaja d) /\
  d_DNI d = c_DNI r /\ d_CATEGORIA d = c_CATEGORIA r.
Proof.
  unfold dropna_row.
  destruct (cell_isna (c_DNI r)); [discriminate|].
  destruct (cell_isna (c_CATEGORIA r)); [discriminate|]. cbn [orb].
  destruct (c_Falta r); [|discriminate].
  destruct (c_Fbaja r); [|discriminate].
  intros [= <-]. cbn. repeat split; reflexivity.
Qed.

Lemma dropna_in (rows : list (CoercedRow Cell)) (d : DatedRow Cell) :
  In d (dropna rows) -> exists r, In r rows /\ dropna_row r = Some d.
Proof.
  induction rows as [|r rows IH]; cbn [dropna]; [contradiction|].
  destruct (dropna_row r) as [d'|] eqn:E.
  - intros [<-|H].
    + exists r. split; [now left|exact E].
    + destruct (IH H) as (r' & H1 & H2). exists r'. split; [now right|exact H2].
  - intros H. destruct (IH H) as (r' & H1 & H2).
    exists r'. split; [now right|exact H2].
Qed.

Lemma combine_rows (rows : list (DatedRow Cell))
    (names : list (string * string)) :
  List.length names = List.length rows ->
  Forall (fun n => (exists s, fst n = Py.zfill 9 s) /\
                   (exists s, snd n = Py.strip s)) names ->
  Forall2 normalised rows
          (map (fun dn => with_strings (fst dn) (snd dn))
               (combine rows names)).
Proof.
  revert names. induction rows as [|d rows IH]; intros [|n names] Hlen Hn;
    cbn [combine map]; try discriminate; constructor.
  - inversion Hn as [|? ? (H1 & H2) _]; subst.
    unfold normalised, with_strings, duration_days. cbn. auto.
  - apply IH; [now injection Hlen|now inversion Hn].
Qed.

Lemma normalise_rows (rows : list (DatedRow Cell)) :
  Forall2 normalised rows (normalise rows).
Proof.
  unfold normalise. apply combine_rows.
  - rewrite length_combine, !length_map, !astype_str_length, !length_map.
    apply Nat.min_id.
  - apply Forall_forall. intros [a b] H. cbn [fst snd]. split.
    + apply in_combine_l in H. apply in_map_iff in H.
      destruct H as (s & <- & _). eauto.
    + apply in_combine_r in H. apply in_map_iff in H.
      destruct H as (s & <- & _). eauto.
Qed.

Lemma Forall2_in_r {A B} (R : A -> B -> Prop) (l1 : list A) (l2 : list B)
    (y : B) :
  Forall2 R l1 l2 -> In y l2 -> exists x, In x l1 /\ R x y.
Proof.
  induction 1 as [|x y' l1 l2 HR _ IH]; cbn [In]; [contradiction|].
  intros [<-|H].
  - exists x. split; [now left|exact HR].
  - destruct (IH H) as (x' & H1 & H2). exists x'. split; [now right|exact H2].
Qed.

(** Every row of the frame comes from a record of the sheet that went
    through [dropna]. *)
Lemma loaded_row_origin (raw : RawFrame Cell) (df : DataFrame) (r : Row) :
  load_data_body raw = Ok df -> In r df ->
  exists iD iC iF iB rec d,
    In rec (records raw iD iC iF iB) /\ dropna_row rec = Some d /\
    normalised d r /\ duracion_ok r = true.
Proof.
  intros Hbody Hr.
  destruct (load_data_body_ok raw df Hbody)
    as (iD & iC & iF & iB & _ & _ & _ & _ & ->).
  apply filter_In in Hr. destruct Hr as [Hr Hok].
  destruct (Forall2_in_r _ _ _ r (normalise_rows _) Hr) as (d & Hd & Hn).
  destruct (dropna_in _ d Hd) as (rec & Hrec & Hdrop).
  exists iD, iC, iF, iB, rec, d. auto.
Qed.

(** The dates of a record are among what [pd.to_datetime] made of a
    column of the frame. *)
Lemma record_dates (raw : RawFrame Cell) (iD iC iF iB : nat)
    (rec : CoercedRow Cell) :
  In rec (records raw iD iC iF iB) ->
  exists falta fbaja,
    In falta (values raw) /\ In fbaja (values raw) /\
    In (c_Falta rec) (to_datetime falta) /\
    In (c_Fbaja rec) (to_datetime fbaja).
Proof.
  unfold records, coerce_dates. intros H.
  apply in_zip_rows in H. destruct H as (_ & _ & HF & HB).
  assert (Hcol : forall i x, In x (to_datetime (nth i (values raw) [])) ->
                             In (nth i (values raw) []) (values raw)).
  { intros i x Hx.
    destruct (nth_in_or_default i (values raw) []) as [Hin|Hnil];
      [exact Hin|].
    rewrite Hnil in Hx.
    pose proof (to_datetime_length (@nil Cell)) as Hlen.
    destruct (to_datetime []); [contradiction|discriminate]. }
  exists (nth iF (values raw) []), (nth iB (values raw) []).
  split; [exact (Hcol iF _ HF)|]. split; [exact (Hcol iB _ HB)|].
  split; assumption.
Qed.


End IngestionFacts.

Section Sanitized.

Context {Cell : Type} {ops : CellOps Cell}.

(** The rows that [load_data] keeps are validated, provided
    [pd.to_datetime] only builds timestamps that exist. *)
Lemma load_data_validated (raw : RawFrame Cell) (df : DataFrame) :
  (forall col t, In col (values raw) -> In (Some t) (to_datetime col) ->
                 ts_valid t) ->
  load_data_body raw = Ok df -> Forall validated df.
Proof.
  intros Hparse Hbody. apply Forall_forall. intros r Hr.
  destruct (loaded_row_origin raw df r Hbody Hr)
    as (iD & iC & iF & iB & rec & d & Hrec & Hdrop & Hn & Hok).
  destruct (record_dates raw iD iC iF iB rec Hrec)
    as (falta & fbaja & HinF & HinB & HF & HB).
  destruct (dropna_row_some rec d Hdrop) as (_ & _ & EF & EB & _).
  destruct Hn as (Hf & Hb & Hd & _).
  apply duracion_ok_iff in Hok. unfold validated.
  rewrite EF in HF. rewrite EB in HB. rewrite <- Hf in HF. rewrite <- Hb in HB.
  split; [exact (Hparse falta _ HinF HF)|].
  split; [exact (Hparse fbaja _ HinB HB)|].
  split; [|exact Hok].
  rewrite Hd. unfold duration_days. now rewrite Hf, Hb.
Qed.

End Sanitized.

Section Examples.
Open Scope string_scope.

Lemma sample_validated : Forall validated sample_df.
Proof.
  repeat constructor; vm_compute; intuition discriminate.
Defined.

Lemma sample_calendar_dates : Forall calendar_dates sample_df.
Proof. repeat constructor. Defined.

Lemma sample_loaded :
  result_of (load_data (Ok sample_sheet)) [] = Some sample_df.
Proof. reflexivity. Qed.

(** The worked scenario: P1 from 2020-01-10 to 2020-03-05 and P2 from
    2020-02-01 to 2020-02-20, both of category "A". *)
Example scenario_counts :
  calculate_active_contracts_by_month (Some [sample_p1; sample_p2]) ["A"] =
  Ok [("A", {| meses := [Timestamp_ymd 2020 1 1; Timestamp_ymd 2020 2 1;
                         Timestamp_ymd 2020 3 1];
               contratos := [0; 2; 1] |})].
Proof. reflexivity. Qed.

End Examples.

(** A surviving interval of category "A" of the sample: the aggregator
    returns a series for "A" over the grid. *)
Lemma active_count_containment_witness :
  In sample_p1 sample_df /\ In (CATEGORIA sample_p1) ["A"%string] /\
  exists res s,
    calculate_active_contracts_by_month (Some sample_df) ["A"%string] = Ok res /\
    Py.dict_get res "A" = Some s.
Proof.
  split; [cbn; auto|]. split; [cbn; auto|].
  destruct (active_count_containment sample_df ["A"%string] sample_p1)
    as (res & grid & Hres & _ & _ & Hall); [cbn; auto|cbn; auto|].
  destruct (Hall "A"%string) as (s & Hs & _); [cbn; auto|].
  exists res, s. split; assumption.
Defined.

(** C2 as stated fails: the two contracts of person 000000001 in category
    "A" are two surviving intervals, and both are put on row 0. *)
Lemma shared_row_counterexample :
  exists fig t1 t2,
    result_of (create_timeline_chart (Some sample_a) ["A"%string]) [] = Some fig /\
    In t1 (fig_data fig) /\ In t2 (fig_data fig) /\
    draws t1 sample_p1 /\ draws t2 sample_p1_again /\
    sample_p1 <> sample_p1_again /\
    trace_y t1 = 0 /\ trace_y t2 = 0.
Proof.
  eexists. eexists. eexists.
  split; [reflexivity|]. cbn [fig_data timeline_figure].
  split; [left; reflexivity|].
  split; [right; left; reflexivity|].
  split; [repeat split|]. split; [repeat split|].
  split; [discriminate|]. split; reflexivity.
Qed.

Lemma rows_per_person_witness :
  NoDup ["B"%string; "A"%string] /\
  forall t1 t2,
    In t1 (traces (timeline_layout
                     (filter (isin ["B"%string; "A"%string]) sample_df)
                     ["B"%string; "A"%string])) ->
    In t2 (traces (timeline_layout
                     (filter (isin ["B"%string; "A"%string]) sample_df)
                     ["B"%string; "A"%string])) ->
    (trace_y t1 = trace_y t2 <->
     hover_categoria t1 = hover_categoria t2 /\ hover_dni t1 = hover_dni t2).
Proof.
  assert (Hnd : NoDup ["B"%string; "A"%string]).
  { repeat constructor; cbn; intuition discriminate. }
  split; [exact Hnd|].
  exact (proj1 (proj2 (proj2 (proj2
           (rows_per_person sample_df ["B"%string; "A"%string] Hnd))))).
Defined.

(** The failing input of C3: a frame with rows and no chosen category. *)
Lemma empty_selection_raises_witness :
  sample_df <> [] /\ ([] = @nil string \/ filter (isin []) sample_df = []) /\
  calculate_active_contracts_by_month (Some sample_df) [] =
    Raise (ValueError "Neither `start` nor `end` can be NaT") /\
  result_of (create_timeline_chart (Some sample_df) []) [] = None.
Proof.
  split; [discriminate|]. split; [left; reflexivity|].
  apply (empty_selection_raises sample_df [] []); [discriminate|].
  left; reflexivity.
Defined.

(** C5 as stated fails when the dates carry a time of day: for one
    validated contract from 2020-12-10 12:00 to 2021-01-15 08:00,
    [replace(day=1)] keeps the two times, the loop of [date_range] stops
    before 2021-01-01 12:00, and the grid is the single point 2020-12-01
    12:00 instead of the two first days 2020-12-01 and 2021-01-01. *)
Lemma month_grid_time_of_day_counterexample :
  sample_with_times <> [] /\
  Forall validated sample_with_times /\
  series_min (map Falta sample_with_times)
    = Some (mkTimestamp 2020 12 10 43200000000000) /\
  series_max (map Fbaja sample_with_times)
    = Some (mkTimestamp 2021 1 15 28800000000000) /\
  month_grid sample_with_times = Ok [mkTimestamp 2020 12 1 43200000000000] /\
  months_between (floor_to_month (mkTimestamp 2020 12 10 43200000000000))
                 (floor_to_month (mkTimestamp 2021 1 15 28800000000000))
    = [Timestamp_ymd 2020 12 1; Timestamp_ymd 2021 1 1] /\
  month_grid sample_with_times <>
    Ok (months_between (floor_to_month (mkTimestamp 2020 12 10 43200000000000))
                       (floor_to_month (mkTimestamp 2021 1 15 28800000000000))).
Proof.
  split; [discriminate|].
  split; [repeat constructor; vm_compute; intuition discriminate|].
  split; [reflexivity|]. split; [reflexivity|]. split; [reflexivity|].
  split; [reflexivity|]. vm_compute. discriminate.
Qed.

Lemma month_grid_contiguous_witness :
  sample_df <> [] /\ Forall validated sample_df /\
  Forall calendar_dates sample_df /\
  exists grid, month_grid sample_df = Ok grid /\ StronglySorted ts_lt grid.
Proof.
  split; [discriminate|]. split; [exact sample_validated|].
  split; [exact sample_calendar_dates|].
  destruct (month_grid_contiguous sample_df)
    as (lo & hi & grid & _ & _ & Hg & _ & _ & _ & Hs & _);
    [discriminate|exact sample_validated|exact sample_calendar_dates|].
  exists grid. split; assumption.
Defined.

Lemma block_ordering_witness :
  NoDup ["B"%string; "A"%string] /\
  forall tA tB,
    In tA (traces (timeline_layout
                     (filter (isin ["B"%string; "A"%string]) sample_df)
                     ["B"%string; "A"%string])) ->
    In tB (traces (timeline_layout
                     (filter (isin ["B"%string; "A"%string]) sample_df)
                     ["B"%string; "A"%string])) ->
    hover_categoria tA = "B"%string -> hover_categoria tB = "A"%string ->
    trace_y tA + 3 <= trace_y tB.
Proof.
  assert (Hnd : NoDup ["B"%string; "A"%string]).
  { repeat constructor; cbn; intuition discriminate. }
  split; [exact Hnd|].
  intros tA tB HA HB EA EB.
  apply (proj1 (proj2 (block_ordering sample_df ["B"%string; "A"%string] Hnd))
           "B"%string "A"%string tA tB); try assumption.
  exists [], [], []. reflexivity.
Defined.

(** C7 as stated fails: category "B" is chosen and has no interval in the
    frame, and its series has thirteen counts, all zero. *)
Lemma absent_category_counterexample :
  exists res s,
    In "B"%string ["A"%string; "B"%string] /\
    filter (categoria_is "B") sample_a = [] /\
    calculate_active_contracts_by_month (Some sample_a) ["A"%string; "B"%string]
      = Ok res /\
    Py.dict_get res "B" = Some s /\
    contratos s = repeat 0 13 /\
    contratos s <> [].
Proof.
  eexists. eexists.
  split; [right; left; reflexivity|].
  split; [reflexivity|].
  split; [reflexivity|].
  split; [reflexivity|].
  split; [reflexivity|discriminate].
Qed.

Lemma absent_category_zero_series_witness :
  In "C"%string ["A"%string; "C"%string] /\
  (forall r, In r sample_df -> CATEGORIA r <> "C"%string) /\
  In sample_p1 sample_df /\
  In (CATEGORIA sample_p1) ["A"%string; "C"%string] /\
  Forall validated sample_df /\ Forall calendar_dates sample_df /\
  exists res s,
    calculate_active_contracts_by_month (Some sample_df)
      ["A"%string; "C"%string] = Ok res /\
    Py.dict_get res "C" = Some s /\
    meses s <> [] /\
    contratos s = repeat 0 (List.length (meses s)).
Proof.
  assert (Habs : forall r, In r sample_df -> CATEGORIA r <> "C"%string).
  { intros r Hr. cbn in Hr.
    destruct Hr as [<-|[<-|[<-|[<-|[]]]]]; discriminate. }
  split; [cbn; auto|]. split; [exact Habs|].
  split; [cbn; auto|]. split; [cbn; auto|].
  split; [exact sample_validated|]. split; [exact sample_calendar_dates|].
  destruct (absent_category_zero_series sample_df ["A"%string; "C"%string]
              "C"%string sample_p1)
    as (res & s & H1 & H2 & _ & H4 & H5);
    [cbn; auto|exact Habs|cbn; auto|cbn; auto
    |exact sample_validated|exact sample_calendar_dates|].
  exists res, s. repeat split; assumption.
Defined.

Lemma year_boundaries_witness :
  Forall validated sample_df /\
  forall p fig,
    result_of (create_timeline_chart (Some sample_df) ["A"%string]) p = Some fig ->
    StronglySorted Z.lt (marked_years (fig_shapes fig)).
Proof.
  split; [exact sample_validated|].
  intros p fig Hfig.
  destruct (proj1 (year_boundaries sample_df ["A"%string] sample_validated)
              p fig Hfig) as (lo & hi & _ & _ & _ & Hs).
  exact Hs.
Defined.


(* ================================================================== *)
(** * Further properties of the program *)

Section StringFacts.

Lemma zeros_len (n : nat) : Py.len (Py.zeros n) = n.
Proof. induction n as [|n IH]; cbn; [reflexivity|now rewrite IH]. Qed.

Lemma len_app (a b : string) : Py.len (a ++ b) = (Py.len a + Py.len b)%nat.
Proof.
  induction a as [|c a IH]; cbn [Py.len append]; [reflexivity|].
  destruct (Py.is_continuation c); rewrite IH; reflexivity.
Qed.

Lemma zfill_len (w : nat) (s : string) :
  Py.len (Py.zfill w s) = Nat.max w (Py.len s).
Proof.
  unfold Py.zfill. destruct (Nat.leb_spec w (Py.len s)) as [H|H]; [lia|].
  destruct s as [|c rest].
  - rewrite zeros_len. cbn. lia.
  - destruct (Ascii.eqb c "+" || Ascii.eqb c "-")%bool eqn:E.
    + assert (Hc : Py.is_continuation c = false).
      { apply orb_true_iff in E.
        destruct E as [E|E]; apply Ascii.eqb_eq in E; subst c; reflexivity. }
      cbn [Py.len] in *. rewrite Hc in *. rewrite len_app, zeros_len. lia.
    + rewrite len_app, zeros_len. lia.
Qed.

Lemma zfill_fixed (w : nat) (s : string) :
  (w <= Py.len s)%nat -> Py.zfill w s = s.
Proof.
  intros H. unfold Py.zfill.
  destruct (Nat.leb_spec w (Py.len s)); [reflexivity|lia].
Qed.

Variable sp1 : ascii -> bool.
Variable sp2 : ascii -> ascii -> bool.
Variable sp3 : ascii -> ascii -> ascii -> bool.

(** The loop of [strip] stops at a code point that is no white space, and
    what it skips is a prefix. *)
Lemma skip_spaces_spec (l : list ascii) :
  Py.space_prefix sp1 sp2 sp3 (Py.skip_spaces sp1 sp2 sp3 l) = false /\
  exists skipped, l = skipped ++ Py.skip_spaces sp1 sp2 sp3 l.
Proof.
  remember (List.length l) as n eqn:Hn.
  revert l Hn. induction n as [n IH] using lt_wf_ind. intros l Hn.
  destruct l as [|a l1]; [split; [reflexivity|now exists []]|].
  cbn [Py.skip_spaces]. destruct (sp1 a) eqn:E1.
  { destruct (IH (List.length l1)) with (l := l1) as (H1 & sk & H2);
      [subst n; cbn; lia|reflexivity|].
    split; [exact H1|]. exists (a :: sk). cbn [app]. now rewrite <- H2. }
  destruct l1 as [|b l2].
  { split; [cbn; now rewrite E1|now exists []]. }
  destruct (sp2 a b) eqn:E2.
  { destruct (IH (List.length l2)) with (l := l2) as (H1 & sk & H2);
      [subst n; cbn; lia|reflexivity|].
    split; [exact H1|]. exists (a :: b :: sk). cbn [app]. now rewrite <- H2. }
  destruct l2 as [|c l3].
  { split; [cbn; now rewrite E1, E2|now exists []]. }
  destruct (sp3 a b c) eqn:E3.
  { destruct (IH (List.length l3)) with (l := l3) as (H1 & sk & H2);
      [subst n; cbn; lia|reflexivity|].
    split; [exact H1|]. exists (a :: b :: c :: sk). cbn [app].
    now rewrite <- H2. }
  split; [cbn; now rewrite E1, E2, E3|now exists []].
Qed.

Lemma skip_spaces_fixed (l : list ascii) :
  Py.space_prefix sp1 sp2 sp3 l = false -> Py.skip_spaces sp1 sp2 sp3 l = l.
Proof.
  destruct l as [|a [|b [|c l]]]; cbn; [reflexivity|..].
  - rewrite orb_false_r. now intros ->.
  - intros H. apply orb_false_iff in H. destruct H as [-> H].
    rewrite orb_false_r in H. now rewrite H.
  - intros H. apply orb_false_iff in H. destruct H as [-> H].
    apply orb_false_iff in H. destruct H as [-> ->]. reflexivity.
Qed.

Lemma space_prefix_app (l x : list ascii) :
  Py.space_prefix sp1 sp2 sp3 l = true ->
  Py.space_prefix sp1 sp2 sp3 (l ++ x) = true.
Proof.
  destruct l as [|a [|b [|c l]]]; cbn; try discriminate.
  - rewrite orb_false_r. now intros ->.
  - intros H. apply orb_true_iff in H. destruct H as [->|H]; [reflexivity|].
    rewrite orb_false_r in H. rewrite H. apply orb_true_iff. right.
    destruct x; reflexivity.
  - auto.
Qed.

End StringFacts.

Section StripFacts.

Lemma rstrip_bytes_prefix (l : list ascii) :
  exists dropped, l = Py.rstrip_bytes l ++ dropped.
Proof.
  unfold Py.rstrip_bytes.
  destruct (skip_spaces_spec Py.isspace (fun b a => Py.isspace2 a b)
              (fun c b a => Py.isspace3 a b c) (rev l)) as (_ & sk & H).
  exists (rev sk). rewrite <- rev_app_distr, <- H. now rewrite rev_involutive.
Qed.

Lemma strip_clean (s : string) :
  starts_with_space (Py.strip s) = false /\
  ends_with_space (Py.strip s) = false /\
  Py.strip (Py.strip s) = Py.strip s.
Proof.
  unfold Py.strip, starts_with_space, ends_with_space.
  rewrite !list_ascii_of_string_of_list_ascii.
  set (t := Py.lstrip_bytes (list_ascii_of_string s)).
  assert (Ht : Py.space_prefix Py.isspace Py.isspace2 Py.isspace3 t = false).
  { apply skip_spaces_spec. }
  assert (H1 : Py.space_prefix Py.isspace Py.isspace2 Py.isspace3
                 (Py.rstrip_bytes t) = false).
  { destruct (rstrip_bytes_prefix t) as (dropped & Hd).
    destruct (Py.space_prefix _ _ _ (Py.rstrip_bytes t)) eqn:E;
      [|reflexivity].
    apply (space_prefix_app _ _ _ _ dropped) in E. rewrite <- Hd in E.
    congruence. }
  assert (H2 : Py.space_prefix Py.isspace (fun b a => Py.isspace2 a b)
                 (fun c b a => Py.isspace3 a b c)
                 (rev (Py.rstrip_bytes t)) = false).
  { unfold Py.rstrip_bytes. rewrite rev_involutive. apply skip_spaces_spec. }
  split; [exact H1|]. split; [exact H2|].
  f_equal. unfold Py.lstrip_bytes at 1.
  rewrite (skip_spaces_fixed _ _ _ _ H1).
  unfold Py.rstrip_bytes at 1.
  rewrite (skip_spaces_fixed _ _ _ _ H2). apply rev_involutive.
Qed.

End StripFacts.

Section LoadDataMore.

Context {Cell : Type} {ops : CellOps Cell}.

(** X1.  When every date that [pd.to_datetime] makes of a column of the
    sheet exists in the calendar, every row that [load_data] returns has
    two dates that exist, its [Duracion] is the whole number of days from
    [Falta] to [Fbaja], between 0 and 10000, its start is not after its
    end, and its end is less than 10001 days after its start. *)
Theorem loaded_rows_validated (file : PyResult (RawFrame Cell))
    (df : DataFrame) (p : Page) :
  (forall raw col t,
      file = Ok raw -> In col (values raw) ->
      In (Some t) (to_datetime col) -> ts_valid t) ->
  result_of (load_data file) p = Some df ->
  Forall (fun r =>
            validated r /\ ts_le (Falta r) (Fbaja r) /\
            value (Fbaja r) - value (Falta r) < 10001 * Calendar.NS_PER_DAY)
         df.
Proof.
  intros Hparse Hload.
  destruct (load_data_some file df p Hload) as (raw & -> & Hbody).
  assert (Hval : Forall validated df).
  { apply (load_data_validated raw df); [|exact Hbody].
    intros col t Hcol Ht. now apply (Hparse raw col t). }
  apply Forall_forall. intros r Hr.
  assert (Hv : validated r) by (revert r Hr; now apply Forall_forall).
  split; [exact Hv|]. split; [now apply validated_le|].
  destruct Hv as (_ & _ & Hd & Hok).
  rewrite Hd in Hok. unfold timedelta_days, Calendar.NS_PER_DAY in *.
  Z.div_mod_to_equations. lia.
Qed.

(** X2.  In every row that [load_data] returns the identifier has at least
    nine characters and padding it again changes nothing, and the category
    neither begins nor ends with white space and stripping it again changes
    nothing. *)
Theorem loaded_rows_normalised (file : PyResult (RawFrame Cell))
    (df : DataFrame) (p : Page) :
  result_of (load_data file) p = Some df ->
  Forall (fun r =>
            (9 <= Py.len (DNI r))%nat /\
            Py.zfill 9 (DNI r) = DNI r /\
            starts_with_space (CATEGORIA r) = false /\
            ends_with_space (CATEGORIA r) = false /\
            Py.strip (CATEGORIA r) = CATEGORIA r)
         df.
Proof.
  intros Hload.
  destruct (load_data_some file df p Hload) as (raw & -> & Hbody).
  apply Forall_forall. intros r Hr.
  destruct (loaded_row_origin raw df r Hbody Hr)
    as (iD & iC & iF & iB & rec & d & _ & _ & Hn & _).
  destruct Hn as (_ & _ & _ & (s1 & Hd) & (s2 & Hc)).
  assert (Hlen : (9 <= Py.len (DNI r))%nat).
  { rewrite Hd, zfill_len. lia. }
  split; [exact Hlen|]. split; [now apply zfill_fixed|].
  rewrite Hc. apply strip_clean.
Qed.

(** X4.  [load_data] only adds to the page.  It ends with the two error
    lines exactly when it returns [None], and when the file could be read
    the first thing it adds is the line with the columns of the sheet,
    also when it fails afterwards. *)
Theorem load_data_page (file : PyResult (RawFrame Cell)) (p : Page) :
  exists added,
    page_of (load_data file) p = p ++ added /\
    (result_of (load_data file) p = None <->
     exists e before,
       added = before ++
         [StError ("Error al cargar el archivo: " ++ exception_text e);
          StError "Verifica que el archivo tenga las columnas: DNI, CATEGORIA, Falta, Fbaja"]) /\
    (forall raw, file = Ok raw ->
       exists rest,
         added = SidebarWrite "Columnas encontradas:" (columns raw) :: rest) /\
    (forall df, result_of (load_data file) p = Some df ->
       exists raw, file = Ok raw /\
         added = [SidebarWrite "Columnas encontradas:" (columns raw)]).
Proof.
  unfold page_of, result_of, load_data.
  destruct file as [raw|e].
  - unfold bind, emit. destruct (load_data_body raw) as [df|e] eqn:E.
    + exists [SidebarWrite "Columnas encontradas:" (columns raw)].
      cbn. split; [reflexivity|]. split; [|split].
      * split; [discriminate|]. intros (e & before & H).
        destruct before as [|x [|y before]]; cbn in H; discriminate.
      * intros raw' [= <-]. eauto.
      * intros df' _. eauto.
    + eexists. unfold load_data_except, bind, emit, ret. cbn.
      rewrite <- !app_assoc. cbn [app]. split; [reflexivity|].
      split; [|split].
      * split; [|reflexivity]. intros _.
        exists e, [SidebarWrite "Columnas encontradas:" (columns raw)].
        reflexivity.
      * intros raw' [= <-]. eauto.
      * intros df' H. discriminate.
  - eexists. unfold load_data_except, bind, emit, ret. cbn.
    rewrite <- !app_assoc. cbn [app]. split; [reflexivity|].
    split; [|split].
    + split; [|reflexivity]. intros _. exists e, []. reflexivity.
    + intros raw H. discriminate.
    + intros df H. discriminate.
Qed.

End LoadDataMore.

Section Partition.

Context {A : Type}.
Variable key : A -> string.

Lemma sum_Z_add (f g : string -> Z) (ks : list string) :
  sum_Z (map (fun k => f k + g k) ks) = sum_Z (map f ks) + sum_Z (map g ks).
Proof.
  induction ks as [|k ks IH]; cbn [map sum_Z fold_right]; [reflexivity|].
  fold (sum_Z (map (fun k => f k + g k) ks)).
  fold (sum_Z (map f ks)). fold (sum_Z (map g ks)). lia.
Qed.

Lemma sum_Z_zero (f : string -> Z) (ks : list string) :
  (forall k, In k ks -> f k = 0) -> sum_Z (map f ks) = 0.
Proof.
  induction ks as [|k ks IH]; intros H; cbn [map sum_Z fold_right]; [reflexivity|].
  fold (sum_Z (map f ks)). rewrite IH by (intros; apply H; now right).
  rewrite (H k) by now left. reflexivity.
Qed.

(** One key of a list without repetition is met once. *)
Lemma sum_Z_indicator (k0 : string) (ks : list string) :
  NoDup ks -> In k0 ks ->
  sum_Z (map (fun k => if String.eqb k0 k then 1 else 0) ks) = 1.
Proof.
  induction 1 as [|k ks Hk Hnd IH]; intros Hin; [contradiction|].
  cbn [map sum_Z fold_right].
  fold (sum_Z (map (fun k => if String.eqb k0 k then 1 else 0) ks)).
  destruct (String.eqb_spec k0 k) as [->|Hne].
  - rewrite sum_Z_zero; [reflexivity|].
    intros k' Hk'. destruct (String.eqb_spec k k'); [congruence|reflexivity].
  - destruct Hin as [E|Hin]; [congruence|]. rewrite (IH Hin). reflexivity.
Qed.

(** Selecting by each key of a list without repetition that holds all the
    keys splits the list: the sizes add up. *)
Lemma partition_count (ks : list string) (l : list A) :
  NoDup ks -> (forall x, In x l -> In (key x) ks) ->
  sum_Z (map (fun k => Z.of_nat (List.length
                                   (filter (fun x => String.eqb (key x) k) l)))
             ks)
  = Z.of_nat (List.length l).
Proof.
  intros Hnd. induction l as [|x l IH]; intros Hall.
  - cbn [filter List.length]. apply sum_Z_zero. reflexivity.
  - rewrite (map_ext _
      (fun k => (if String.eqb (key x) k then 1 else 0)
                + Z.of_nat (List.length
                              (filter (fun x => String.eqb (key x) k) l)))).
    + rewrite sum_Z_add, IH by (intros; apply Hall; now right).
      rewrite sum_Z_indicator; [cbn [List.length]; lia|assumption|].
      apply Hall. now left.
    + intros k. cbn [filter].
      destruct (String.eqb (key x) k); cbn [List.length]; lia.
Qed.

Lemma filter_comm (f g : A -> bool) (l : list A) :
  filter f (filter g l) = filter g (filter f l).
Proof.
  induction l as [|x l IH]; [reflexivity|]. cbn [filter].
  destruct (f x) eqn:Ef, (g x) eqn:Eg; cbn [filter];
    rewrite ?Ef, ?Eg, ?IH; reflexivity.
Qed.

Lemma filter_length (f : A -> bool) (l : list A) :
  (List.length (filter f l) <= List.length l)%nat.
Proof.
  induction l as [|x l IH]; cbn [filter]; [lia|].
  destruct (f x); cbn [List.length]; lia.
Qed.

End Partition.

Section DictKeys.

Context {V : Type}.

Lemma dict_set_keys (d : Py.Dict V) (k : string) (v : V) :
  map fst (Py.dict_set d k v) =
  if existsb (String.eqb k) (map fst d) then map fst d else map fst d ++ [k].
Proof.
  induction d as [|[k0 v0] d IH]; cbn [Py.dict_set map existsb fst]; [reflexivity|].
  rewrite (String.eqb_sym k k0).
  destruct (String.eqb_spec k0 k) as [->|Hne]; cbn [orb map fst].
  - reflexivity.
  - rewrite IH. destruct (existsb (String.eqb k) (map fst d)); reflexivity.
Qed.

Lemma dict_set_fresh (d : Py.Dict V) (k : string) (v : V) :
  ~ In k (map fst d) -> Py.dict_set d k v = d ++ [(k, v)].
Proof.
  induction d as [|[k0 v0] d IH]; cbn [Py.dict_set map fst In app]; [reflexivity|].
  intros H. destruct (String.eqb_spec k0 k) as [->|Hne]; [tauto|].
  rewrite IH by tauto. reflexivity.
Qed.

Lemma existsb_eqb_in (k : string) (l : list string) :
  existsb (String.eqb k) l = true <-> In k l.
Proof.
  rewrite existsb_exists. split.
  - intros (x & Hx & E). apply String.eqb_eq in E. now subst.
  - intros H. exists k. split; [assumption|apply String.eqb_refl].
Qed.

Lemma dict_set_in_keys (d : Py.Dict V) (k c : string) (v : V) :
  In c (map fst (Py.dict_set d k v)) <-> In c (map fst d) \/ c = k.
Proof.
  rewrite dict_set_keys.
  destruct (existsb (String.eqb k) (map fst d)) eqn:E.
  - apply existsb_eqb_in in E. split; [auto|]. intros [H| ->]; assumption.
  - rewrite in_app_iff. cbn. intuition.
Qed.

Lemma dict_set_NoDup (d : Py.Dict V) (k : string) (v : V) :
  NoDup (map fst d) -> NoDup (map fst (Py.dict_set d k v)).
Proof.
  intros H. rewrite dict_set_keys.
  destruct (existsb (String.eqb k) (map fst d)) eqn:E; [assumption|].
  apply NoDup_app.
  - assumption.
  - constructor; [intros []|constructor].
  - intros x Hx [E'|[]]. subst x.
    apply (proj2 (existsb_eqb_in k (map fst d))) in Hx. congruence.
Qed.

Lemma dict_set_Forall (P : string * V -> Prop) (d : Py.Dict V) (k : string)
    (v : V) :
  Forall P d -> P (k, v) -> Forall P (Py.dict_set d k v).
Proof.
  intros Hd Hk. induction Hd as [|[k0 v0] d H0 Hd IH]; cbn [Py.dict_set].
  - repeat constructor. exact Hk.
  - destruct (String.eqb k0 k); constructor; auto.
Qed.

End DictKeys.

Section AggregatorMore.

Lemma fold_series_keys (dff : DataFrame) (grid : list Timestamp)
    (cats : list string) (d : Py.Dict Series) :
  NoDup (map fst d) ->
  NoDup (map fst (fold_left (categoria_series dff grid) cats d)) /\
  (forall c, In c (map fst (fold_left (categoria_series dff grid) cats d)) <->
             In c (map fst d) \/ In c cats).
Proof.
  revert d. induction cats as [|x cats IH]; intros d Hd; cbn [fold_left].
  - split; [assumption|]. intros c. cbn. tauto.
  - destruct (IH (categoria_series dff grid d x)) as [H1 H2].
    { now apply dict_set_NoDup. }
    split; [exact H1|]. intros c. rewrite H2.
    unfold categoria_series. rewrite dict_set_in_keys. cbn [In].
    intuition.
Qed.

Lemma fold_series_values (dff : DataFrame) (grid : list Timestamp)
    (cats : list string) (d : Py.Dict Series) :
  Forall (fun kv => snd kv = series_of dff grid (fst kv)) d ->
  Forall (fun kv => snd kv = series_of dff grid (fst kv))
         (fold_left (categoria_series dff grid) cats d).
Proof.
  revert d. induction cats as [|x cats IH]; intros d Hd; [exact Hd|].
  cbn [fold_left]. apply IH. unfold categoria_series.
  apply dict_set_Forall; [exact Hd|reflexivity].
Qed.

(** Without repeated categories the entries are those of the list, in its
    order. *)
Lemma fold_series_nodup (dff : DataFrame) (grid : list Timestamp)
    (cats : list string) (d : Py.Dict Series) :
  NoDup cats -> (forall c, In c cats -> ~ In c (map fst d)) ->
  fold_left (categoria_series dff grid) cats d =
  d ++ map (fun c => (c, series_of dff grid c)) cats.
Proof.
  revert d. induction cats as [|x cats IH]; intros d Hnd Hfresh; cbn [fold_left map].
  - now rewrite app_nil_r.
  - inversion Hnd as [|? ? Hx Hnd']; subst.
    unfold categoria_series at 2.
    rewrite dict_set_fresh by (apply Hfresh; now left).
    rewrite IH; [now rewrite <- app_assoc|assumption|].
    intros c Hc. rewrite map_app, in_app_iff. cbn.
    intros [H|[<-|[]]]; [|contradiction].
    apply (Hfresh c); [now right|exact H].
Qed.

(** What the aggregator returns on a frame that is not empty. *)
Lemma calculate_nonempty (r : Row) (df : DataFrame) (cats : list string)
    (res : Py.Dict Series) :
  calculate_active_contracts_by_month (Some (r :: df)) cats = Ok res ->
  exists grid,
    month_grid (filter (isin cats) (r :: df)) = Ok grid /\
    res = fold_left (categoria_series (filter (isin cats) (r :: df)) grid)
                    cats [].
Proof.
  unfold calculate_active_contracts_by_month. cbn [Py.is_empty].
  destruct (month_grid (filter (isin cats) (r :: df))) as [grid|e];
    [|discriminate].
  intros [= <-]. eauto.
Qed.

Lemma activos_bounds (l : DataFrame) (m : Timestamp) :
  0 <= activos l m <= Z.of_nat (List.length l).
Proof.
  unfold activos. pose proof (filter_length (active_at m) l). lia.
Qed.

(** X6.  In what the aggregator returns, no category occurs twice, the
    categories are those chosen (all of them, unless the frame is empty),
    in the order of the selection when this one has no repetition; every
    series has the same months, as many counts as months, and each count
    is between 0 and the number of rows of its category. *)
Theorem series_shape (df : DataFrame) (cats : list string)
    (res : Py.Dict Series) :
  calculate_active_contracts_by_month (Some df) cats = Ok res ->
  NoDup (map fst res) /\
  (forall c, In c (map fst res) <-> df <> [] /\ In c cats) /\
  (NoDup cats -> df <> [] -> map fst res = cats) /\
  exists grid,
    Forall (fun kv =>
              meses (snd kv) = grid /\
              List.length (contratos (snd kv)) = List.length grid /\
              Forall (fun n =>
                        0 <= n <=
                        Z.of_nat (List.length
                                    (filter (categoria_is (fst kv)) df)))
                     (contratos (snd kv)))
           res.
Proof.
  destruct df as [|r df].
  - cbn. intros [= <-]. cbn. split; [constructor|].
    split; [intros c; split; [contradiction|intros [H _]; congruence]|].
    split; [congruence|]. exists []. constructor.
  - intros Hres.
    destruct (calculate_nonempty r df cats res Hres) as (grid & Hg & ->).
    set (dff := filter (isin cats) (r :: df)).
    destruct (fold_series_keys dff grid cats [] (NoDup_nil _)) as [H1 H2].
    split; [exact H1|]. split.
    { intros c. rewrite H2. cbn. intuition discriminate. }
    split.
    { intros Hnd _. rewrite fold_series_nodup by (auto; intros c _ []).
      cbn [app]. rewrite map_map. cbn. apply map_id. }
    exists grid.
    pose proof (fold_series_values dff grid cats [] (Forall_nil _)) as Hv.
    apply Forall_impl with (2 := Hv). intros [k s] E. cbn [fst snd] in *.
    subst s. cbn [meses contratos series_of]. split; [reflexivity|].
    split; [apply length_map|].
    rewrite Forall_map. apply Forall_forall. intros m _.
    pose proof (activos_bounds (filter (categoria_is k) dff) m) as Hb.
    assert (Hle : (List.length (filter (categoria_is k) dff)
                   <= List.length (filter (categoria_is k) (r :: df)))%nat).
    { subst dff. rewrite filter_comm. apply filter_length. }
    lia.
Qed.

(** X5.  When no category is repeated in the selection, the counts of the
    chosen categories at a month add up to the number of rows of the
    filtered frame that contain that month: no interval is counted twice
    and none is left out. *)
Theorem counts_partition (df : DataFrame) (cats : list string)
    (res : Py.Dict Series) (grid : list Timestamp) (j : nat) (m : Timestamp) :
  NoDup cats ->
  calculate_active_contracts_by_month (Some df) cats = Ok res ->
  month_grid (filter (isin cats) df) = Ok grid ->
  nth_error grid j = Some m ->
  sum_Z (map (fun kv => nth j (contratos (snd kv)) 0) res) =
  Z.of_nat (List.length (filter (active_at m) (filter (isin cats) df))).
Proof.
  intros Hnd Hres Hg Hj.
  destruct df as [|r df]; [discriminate|].
  destruct (calculate_nonempty r df cats res Hres) as (grid' & Hg' & ->).
  rewrite Hg in Hg'. injection Hg' as <-.
  set (dff := filter (isin cats) (r :: df)).
  rewrite fold_series_nodup by (auto; intros c _ []).
  cbn [app]. rewrite map_map. cbn [snd contratos series_of].
  rewrite (map_ext _
    (fun c => Z.of_nat (List.length
                          (filter (fun x => String.eqb (CATEGORIA x) c)
                                  (filter (active_at m) dff))))).
  - apply partition_count; [assumption|].
    intros x Hx. apply filter_In in Hx. destruct Hx as [Hx _].
    subst dff. apply filter_In in Hx. now apply isin_true.
  - intros c.
    rewrite (nth_error_nth _ _ 0 (map_nth_error _ _ _ Hj)).
    unfold activos. rewrite filter_comm. reflexivity.
Qed.

(** X7.  The aggregator returns the empty dict exactly when it is given no
    frame or an empty one. *)
Theorem calculate_empty_iff (df : option DataFrame) (cats : list string) :
  calculate_active_contracts_by_month df cats = Ok [] <->
  df = None \/ df = Some [].
Proof.
  split.
  - destruct df as [[|r df]|]; auto. intros Hres. exfalso.
    destruct (calculate_nonempty r df cats [] Hres) as (grid & Hg & E).
    destruct (fold_series_keys (filter (isin cats) (r :: df)) grid cats []
                (NoDup_nil _)) as [_ H2].
    rewrite <- E in H2. cbn in H2.
    unfold month_grid in Hg.
    destruct (filter (isin cats) (r :: df)) as [|r' l] eqn:Ef; [discriminate|].
    assert (Hin : In r' (filter (isin cats) (r :: df)))
      by (rewrite Ef; now left).
    apply filter_In in Hin. destruct Hin as [_ Hin]. apply isin_true in Hin.
    apply (proj2 (H2 (CATEGORIA r'))). now right.
  - intros [->| ->]; reflexivity.
Qed.

End AggregatorMore.

Section MonthGridMore.
Import Calendar DateRange.

Lemma last_index_le (tod tod' e k : Z) :
  k <= last_index tod tod' e <->
  (k <? e) || ((k =? e) && (tod <=? tod')) = true.
Proof.
  unfold last_index.
  destruct (Z.leb_spec tod tod'), (Z.ltb_spec k e), (Z.eqb_spec k e);
    cbn; split; intros; try lia; try reflexivity; try discriminate.
Qed.

(** X8.  Whatever the times of day, on a frame of validated rows that is
    not empty, lines 56-63 return a grid, strictly ascending, whose points
    are exactly the first days of a month, at the time of day of the least
    start, that lie between [fecha_min.replace(day=1)] and
    [fecha_max.replace(day=1)]; each point is one [MonthBegin] after its
    predecessor; and the grid is empty exactly when the second bound is
    before the first. *)
Theorem month_grid_general (df_filtrado : DataFrame) :
  df_filtrado <> [] ->
  Forall validated df_filtrado ->
  exists fecha_min fecha_max grid,
    series_min (map Falta df_filtrado) = Some fecha_min /\
    series_max (map Fbaja df_filtrado) = Some fecha_max /\
    month_grid df_filtrado = Ok grid /\
    StronglySorted ts_lt grid /\
    (forall m, In m grid <->
               day m = 1 /\ 1 <= month m <= 12 /\
               time_ns m = time_ns fecha_min /\
               ts_le (replace_day1 fecha_min) m /\
               ts_le m (replace_day1 fecha_max)) /\
    (forall l1 a b l2, grid = l1 ++ a :: b :: l2 -> b = month_begin_apply a) /\
    (grid = [] <-> ts_lt (replace_day1 fecha_max) (replace_day1 fecha_min)).
Proof.
  intros Hne Hval.
  destruct (frame_extent df_filtrado Hne Hval)
    as (lo & hi & rmin & rmax & Hlo & Hhi & I1 & E1 & I2 & E2 & _).
  rewrite Forall_forall in Hval.
  destruct (Hval _ I1) as (Vlo & _). destruct (Hval _ I2) as (_ & Vhi & _).
  rewrite E1 in Vlo. rewrite E2 in Vhi.
  pose proof (month_grid_points df_filtrado lo hi Hlo Hhi Vlo Vhi) as Hgrid.
  destruct (replace_day1_valid lo Vlo) as [V1 D1].
  destruct (replace_day1_valid hi Vhi) as [V2 D2].
  pose proof (month_point_of_first (replace_day1 lo) (proj1 V1) D1) as S1.
  pose proof (month_point_of_first (replace_day1 hi) (proj1 V2) D2) as S2.
  change (time_ns (replace_day1 lo)) with (time_ns lo) in S1.
  change (time_ns (replace_day1 hi)) with (time_ns hi) in S2.
  change (month_index (replace_day1 lo)) with (month_index lo) in S1.
  change (month_index (replace_day1 hi)) with (month_index hi) in S2.
  destruct Vlo as (Mlo & _ & Tlo), Vhi as (Mhi & _ & Thi).
  set (a := month_index lo) in *. set (e := month_index hi) in *.
  set (tl := time_ns lo) in *. set (th := time_ns hi) in *.
  exists lo, hi. eexists. split; [exact Hlo|]. split; [exact Hhi|].
  split; [exact Hgrid|]. split.
  { generalize (range_sorted a (last_index tl th e + 1)).
    generalize (Py.range a (last_index tl th e + 1)).
    induction l as [|k l IH]; intros Hs; cbn [map]; constructor.
    - apply IH. inversion Hs; assumption.
    - inversion Hs as [|? ? _ Hall]; subst.
      rewrite Forall_map. apply Forall_impl with (2 := Hall).
      intros k' Hk. now apply month_point_lt. }
  split.
  { intros m. rewrite in_map_iff. rewrite S1, S2. split.
    - intros (k & <- & Hk). apply in_range in Hk.
      cbn [day month time_ns month_point].
      split; [reflexivity|]. split; [Z.div_mod_to_equations; lia|].
      split; [reflexivity|].
      rewrite <- !ts_leb_le, !month_point_leb by assumption.
      split.
      + destruct (Z.ltb_spec a k); [reflexivity|].
        replace k with a by lia. rewrite Z.eqb_refl, Z.leb_refl. reflexivity.
      + apply last_index_le. lia.
    - intros (Hd & Hm & Ht & H1 & H2).
      pose proof (month_point_of_first m Hm Hd) as Em.
      rewrite Ht in Em. fold tl in Em.
      exists (month_index m). split; [now symmetry|].
      rewrite Em in H1, H2.
      rewrite <- ts_leb_le, month_point_leb in H1, H2 by assumption.
      apply last_index_le in H2. apply in_range.
      destruct (Z.ltb_spec a (month_index m)); [lia|].
      destruct (Z.eqb_spec a (month_index m)); [lia|discriminate]. }
  split.
  { intros l1 x y l2 H. apply month_points_consecutive in H.
    destruct H as (k & -> & ->). symmetry. apply month_begin_apply_point. }
  rewrite S1, S2. unfold ts_lt.
  assert (Hle : ts_le (month_point tl a) (month_point th e) <->
                a <= last_index tl th e).
  { rewrite <- ts_leb_le, month_point_leb by assumption.
    symmetry. apply last_index_le. }
  unfold ts_le in Hle. split.
  - intros E.
    destruct (Z_le_gt_dec a (last_index tl th e)) as [H|H]; [|lia].
    rewrite range_cons in E by lia. discriminate.
  - intros H. rewrite range_nil by lia. reflexivity.
Qed.

End MonthGridMore.

Section PartitionPerm.

Context {A : Type}.
Variable key : A -> string.

Lemma filter_split_perm (f : A -> bool) (l : list A) :
  Permutation (filter f l ++ filter (fun x => negb (f x)) l) l.
Proof.
  induction l as [|x l IH]; [constructor|]. cbn [filter].
  destruct (f x); cbn [negb app].
  - now constructor.
  - apply Permutation_sym, Permutation_cons_app, Permutation_sym, IH.
Qed.

Lemma flat_map_ext_in {B C} (f g : B -> list C) (l : list B) :
  (forall x, In x l -> f x = g x) -> flat_map f l = flat_map g l.
Proof.
  induction l as [|x l IH]; intros H; [reflexivity|]. cbn [flat_map].
  rewrite (H x) by now left. rewrite IH; [reflexivity|].
  intros y Hy. apply H. now right.
Qed.

Lemma flat_map_perm {B C} (f g : B -> list C) (l : list B) :
  (forall x, In x l -> Permutation (f x) (g x)) ->
  Permutation (flat_map f l) (flat_map g l).
Proof.
  induction l as [|x l IH]; intros H; [constructor|]. cbn [flat_map].
  apply Permutation_app; [apply H; now left|].
  apply IH. intros y Hy. apply H. now right.
Qed.

(** Selecting by each key of a list without repetition that holds all the
    keys, and putting the selections one after the other, rearranges the
    list. *)
Lemma partition_perm (ks : list string) (l : list A) :
  NoDup ks -> (forall x, In x l -> In (key x) ks) ->
  Permutation (flat_map (fun k => filter (fun x => String.eqb (key x) k) l) ks)
              l.
Proof.
  intros Hnd. revert l. induction Hnd as [|k ks Hk Hnd IH]; intros l Hall.
  - destruct l as [|x l]; [constructor|]. destruct (Hall x); now left.
  - cbn [flat_map].
    set (rest := filter (fun x => negb (String.eqb (key x) k)) l).
    rewrite (flat_map_ext_in _
               (fun k' => filter (fun x => String.eqb (key x) k') rest)).
    + eapply Permutation_trans;
        [|apply (filter_split_perm (fun x => String.eqb (key x) k) l)].
      apply Permutation_app_head. apply IH.
      intros x Hx. subst rest. apply filter_In in Hx. destruct Hx as [Hx Hne].
      destruct (Hall x Hx) as [E|H]; [|exact H].
      rewrite <- E, String.eqb_refl in Hne. discriminate.
    + intros k' Hk'. subst rest.
      assert (Hkk : k' <> k) by (intros ->; contradiction).
      clear - Hkk. induction l as [|x l IHl]; [reflexivity|].
      cbn [filter]. destruct (String.eqb_spec (key x) k) as [E'|E'];
        cbn [negb filter].
      * destruct (String.eqb_spec (key x) k') as [E|E]; [congruence|exact IHl].
      * destruct (String.eqb (key x) k'); now rewrite IHl.
Qed.

End PartitionPerm.

Section TimelineMore.

Lemma contrato_of_scatter (c d : string) (i : nat) (y : Z) (r : Row) :
  CATEGORIA r = c -> DNI r = d -> contrato_of (scatter c i d y r) = r.
Proof. intros <- <-. now destruct r. Qed.

Lemma contratos_of_person_rows (df_cat : DataFrame) (c : string) (i : nat)
    (y : Z) (dnis : list string) :
  (forall r, In r df_cat -> CATEGORIA r = c) ->
  map contrato_of (person_rows df_cat c i y dnis) =
  flat_map (fun d => filter (dni_is d) df_cat) dnis.
Proof.
  intros Hc. revert y. induction dnis as [|d dnis IH]; intros y; [reflexivity|].
  cbn [person_rows flat_map]. rewrite map_app, map_map, IH. f_equal.
  rewrite <- (map_id (filter (dni_is d) df_cat)) at 2.
  apply map_ext_in. intros r Hr. apply filter_In in Hr. destruct Hr as [Hr Hd].
  apply contrato_of_scatter; [now apply Hc|]. now apply String.eqb_eq.
Qed.

Lemma contratos_of_block (df : DataFrame) (i : nat) (c : string) (y : Z) :
  Permutation (map contrato_of (block df i c y)) (filter (categoria_is c) df).
Proof.
  unfold block.
  destruct (filter (categoria_is c) df) as [|r0 l] eqn:E; [constructor|].
  cbn [Py.is_empty]. rewrite <- E.
  rewrite contratos_of_person_rows
    by (intros r Hr; now apply in_filter_categoria in Hr).
  apply (partition_perm DNI).
  - apply unique_NoDup.
  - intros r Hr. apply in_unique. now apply in_map.
Qed.

Lemma contratos_of_category_rows (df : DataFrame) (i : nat)
    (cats : list string) (y : Z) :
  Permutation (map contrato_of (category_rows df i cats y))
              (flat_map (fun c => filter (categoria_is c) df) cats).
Proof.
  revert i y. induction cats as [|c cats IH]; intros i y; [constructor|].
  cbn [category_rows flat_map]. rewrite map_app.
  apply Permutation_app; [apply contratos_of_block|apply IH].
Qed.

(** X9.  With no category repeated in the selection, the bars of the
    figure, read back as contracts, are the rows of the filtered frame
    rearranged: every surviving contract is drawn exactly once. *)
Theorem timeline_draws_each_once (df : DataFrame) (cats : list string)
    (p : Page) (fig : Figure) :
  NoDup cats ->
  result_of (create_timeline_chart (Some df) cats) p = Some fig ->
  Permutation (map contrato_of (fig_data fig)) (filter (isin cats) df) /\
  List.length (fig_data fig) = List.length (filter (isin cats) df).
Proof.
  intros Hnd Hfig.
  rewrite (create_timeline_chart_data df cats p fig Hfig).
  rewrite timeline_layout_traces.
  assert (Hp : Permutation
                 (map contrato_of
                      (category_rows (filter (isin cats) df) 0 cats 0))
                 (filter (isin cats) df)).
  { eapply Permutation_trans; [apply contratos_of_category_rows|].
    apply (partition_perm CATEGORIA); [assumption|].
    intros r Hr. apply filter_In in Hr. now apply isin_true. }
  split; [exact Hp|].
  apply Permutation_length in Hp. now rewrite length_map in Hp.
Qed.

Lemma sorted_le_app (l1 l2 : list Z) :
  StronglySorted Z.le l1 -> StronglySorted Z.le l2 ->
  (forall a b, In a l1 -> In b l2 -> a <= b) ->
  StronglySorted Z.le (l1 ++ l2).
Proof.
  induction 1 as [|x l1 Hs IH Hall]; intros H2 Hab; [exact H2|].
  cbn [app]. constructor.
  - apply IH; [assumption|]. intros a b Ha Hb. apply Hab; [now right|assumption].
  - apply Forall_app. split; [assumption|].
    apply Forall_forall. intros b Hb. apply Hab; [now left|assumption].
Qed.

Lemma person_rows_sorted (df_cat : DataFrame) (c : string) (i : nat) (y : Z)
    (dnis : list string) :
  StronglySorted Z.le (map trace_y (person_rows df_cat c i y dnis)).
Proof.
  revert y. induction dnis as [|d dnis IH]; intros y; [constructor|].
  cbn [person_rows]. rewrite map_app. apply sorted_le_app.
  - rewrite map_map. cbn [trace_y scatter].
    induction (filter (dni_is d) df_cat) as [|r l IHl]; cbn [map]; constructor.
    + exact IHl.
    + apply Forall_forall. intros z Hz. apply in_map_iff in Hz.
      destruct Hz as (? & <- & _). lia.
  - apply IH.
  - intros a b Ha Hb. rewrite map_map in Ha. apply in_map_iff in Ha, Hb.
    destruct Ha as (r & <- & _). destruct Hb as (t & <- & Ht).
    apply in_person_rows in Ht. destruct Ht as (k & r' & _ & _ & ->).
    cbn. lia.
Qed.

Lemma category_rows_from (df : DataFrame) (i : nat) (cats : list string)
    (y : Z) (t : Trace) :
  In t (category_rows df i cats y) -> y <= trace_y t.
Proof.
  rewrite in_category_rows. intros (l1 & c & l2 & _ & Hb).
  apply in_block_height in Hb. pose proof (rows_end_ge df l1 y). lia.
Qed.

Lemma category_rows_sorted (df : DataFrame) (i : nat) (cats : list string)
    (y : Z) :
  StronglySorted Z.le (map trace_y (category_rows df i cats y)).
Proof.
  revert i y. induction cats as [|c cats IH]; intros i y; [constructor|].
  cbn [category_rows]. rewrite map_app. apply sorted_le_app.
  - unfold block. destruct (Py.is_empty _); [constructor|].
    apply person_rows_sorted.
  - apply IH.
  - intros a b Ha Hb. apply in_map_iff in Ha, Hb.
    destruct Ha as (ta & <- & Ha). destruct Hb as (tb & <- & Hb).
    apply in_block_height in Ha. apply category_rows_from in Hb. lia.
Qed.

(** X10.  Along the bars of the figure, in the order in which they were
    added, the rows never decrease; this holds for any selection. *)
Theorem timeline_rows_nondecreasing (df : DataFrame) (cats : list string)
    (p : Page) (fig : Figure) :
  result_of (create_timeline_chart (Some df) cats) p = Some fig ->
  StronglySorted Z.le (map trace_y (fig_data fig)) /\
  (forall l1 t1 l2 t2 l3,
      fig_data fig = l1 ++ t1 :: l2 ++ t2 :: l3 -> trace_y t1 <= trace_y t2).
Proof.
  intros Hfig.
  rewrite (create_timeline_chart_data df cats p fig Hfig).
  rewrite timeline_layout_traces.
  pose proof (category_rows_sorted (filter (isin cats) df) 0 cats 0) as Hs.
  split; [exact Hs|].
  intros l1 t1 l2 t2 l3 E. rewrite E, map_app in Hs. cbn [map] in Hs.
  clear E. induction l1 as [|x l1 IH]; cbn [map app] in Hs.
  - inversion Hs as [|? ? _ Hall]; subst. rewrite Forall_forall in Hall.
    apply Hall. rewrite map_app. apply in_or_app. right. now left.
  - inversion Hs; subst. now apply IH.
Qed.

(** A category has a recorded position exactly when it is in the list and
    has rows. *)
Lemma positions_some_iff (df : DataFrame) (i : nat) (cats : list string)
    (st : Layout) (c : string) :
  Py.dict_get (categoria_positions (for_categorias df i cats st)) c <> None <->
  Py.dict_get (categoria_positions st) c <> None \/
  (In c cats /\ has_rows df c = true).
Proof.
  revert i st. induction cats as [|x cats IH]; intros i st; cbn [for_categorias].
  - cbn. tauto.
  - rewrite IH, categoria_body_positions. unfold has_rows.
    destruct (Py.is_empty (filter (categoria_is x) df)) eqn:E.
    + cbn [In]. split; [tauto|]. intros [H|[[->|H] H']]; auto.
      rewrite E in H'. discriminate.
    + rewrite dict_get_set. cbn [In].
      destruct (String.eqb_spec x c) as [->|Hne].
      * rewrite E. cbn. split; [auto|]. intros _. left. discriminate.
      * split; [tauto|]. intros [H|[[E'|H] H']]; auto; congruence.
Qed.

(** X11.  The labels of the vertical axis are the chosen categories that
    have rows, in the order of the selection, with one tick per label; when
    no category is repeated, the tick of a category is the first row of its
    block plus half the number of its persons. *)
Theorem timeline_tick_labels (df : DataFrame) (cats : list string)
    (p : Page) (fig : Figure) :
  result_of (create_timeline_chart (Some df) cats) p = Some fig ->
  let df_filtrado := filter (isin cats) df in
  fig_ticktext fig = filter (has_rows df_filtrado) cats /\
  List.length (fig_tickvals fig) = List.length (fig_ticktext fig) /\
  (NoDup cats ->
   forall j l1 c l2,
     nth_error (fig_ticktext fig) j = Some c ->
     cats = l1 ++ c :: l2 ->
     nth_error (fig_tickvals fig) j =
     Some (inject_Z (rows_end df_filtrado l1 0)
           + inject_Z (Z.of_nat
                         (nunique (map DNI (filter (categoria_is c)
                                                   df_filtrado)))) / 2)%Q).
Proof.
  intros Hfig df_filtrado.
  unfold create_timeline_chart, result_of in Hfig.
  destruct (Py.is_empty df || Py.is_empty cats); [discriminate|].
  fold df_filtrado in Hfig.
  destruct (Py.is_empty df_filtrado); [discriminate|].
  cbn in Hfig. injection Hfig as <-.
  unfold timeline_figure. cbn [fig_ticktext fig_tickvals].
  assert (Hlab : filter (fun cat =>
                   match Py.dict_get (categoria_positions
                                        (timeline_layout df_filtrado cats)) cat
                   with Some _ => true | None => false end) cats
                 = filter (has_rows df_filtrado) cats).
  { apply filter_ext_in. intros c Hc.
    pose proof (positions_some_iff df_filtrado 0 cats
                  {| traces := []; y_position := 0; categoria_positions := [] |}
                  c) as H.
    fold (timeline_layout df_filtrado cats) in H. cbn [categoria_positions Py.dict_get] in H.
    destruct (Py.dict_get (categoria_positions (timeline_layout df_filtrado cats)) c)
      eqn:E; destruct (has_rows df_filtrado c) eqn:E'; try reflexivity.
    - destruct (proj1 H ltac:(discriminate)) as [H'|[_ H']]; congruence.
    - exfalso. apply (proj2 H); auto. }
  rewrite Hlab. split; [reflexivity|]. split; [apply length_map|].
  intros Hnd j l1 c l2 Hj ->.
  rewrite (map_nth_error _ _ _ Hj). f_equal.
  assert (Hrows : filter (categoria_is c) df_filtrado <> []).
  { apply nth_error_In, filter_In in Hj. destruct Hj as [_ Hj].
    unfold has_rows in Hj. intros E. rewrite E in Hj. discriminate. }
  rewrite (position_of_block df_filtrado l1 l2 c Hnd Hrows). reflexivity.
Qed.

(** The colour of a bar of the layout. *)
Lemma trace_colour_at (dff : DataFrame) (cats : list string) (t : Trace)
    (j : nat) :
  NoDup cats ->
  In t (traces (timeline_layout dff cats)) ->
  nth_error cats j = Some (hover_categoria t) ->
  trace_color t = Nat.modulo j 12.
Proof.
  intros Hnd Hin Hj.
  rewrite timeline_layout_traces, in_category_rows in Hin.
  destruct Hin as (l1 & c & l2 & -> & Hb). apply in_block in Hb.
  destruct Hb as (k & r & _ & _ & _ & ->). cbn [hover_categoria scatter] in Hj.
  cbn [trace_color scatter]. unfold SET3_LEN.
  assert (Hl : nth_error (l1 ++ c :: l2) (List.length l1) = Some c).
  { rewrite nth_error_app2 by lia. now rewrite Nat.sub_diag. }
  rewrite (NoDup_nth_error_inj _ _ _ _ Hnd Hj Hl). reflexivity.
Qed.

(** X12.  When no category is repeated in the selection, the colour of a
    bar is the place of its category in the selection, counted from 0,
    modulo the twelve colours of [Set3]. *)
Theorem timeline_colours (df : DataFrame) (cats : list string)
    (p : Page) (fig : Figure) (t : Trace) (j : nat) :
  NoDup cats ->
  result_of (create_timeline_chart (Some df) cats) p = Some fig ->
  In t (fig_data fig) ->
  nth_error cats j = Some (hover_categoria t) ->
  trace_color t = Nat.modulo j 12.
Proof.
  intros Hnd Hfig Hin Hj.
  rewrite (create_timeline_chart_data df cats p fig Hfig) in Hin.
  now apply (trace_colour_at (filter (isin cats) df) cats).
Qed.

Lemma unique_app (l1 l2 : list string) :
  unique (l1 ++ l2) =
  unique l1 ++ filter (fun y => negb (existsb (String.eqb y) l1)) (unique l2).
Proof.
  induction l1 as [|x l1 IH]; cbn [app unique existsb].
  - induction (unique l2) as [|y u IHu]; [reflexivity|].
    cbn [filter existsb negb]. f_equal. exact IHu.
  - rewrite IH, filter_app. clear IH. cbn [app]. do 2 f_equal.
    rewrite filter_comm. generalize (unique l2) as u.
    induction u as [|y u IHu]; [reflexivity|]. cbn [filter].
    rewrite negb_orb.
    destruct (negb (String.eqb y x)); cbn [andb filter];
      destruct (negb (existsb (String.eqb y) l1)); cbn [filter];
      rewrite ?IHu; reflexivity.
Qed.

(** A value that occurs before any occurrence of another one comes before
    it in [unique]. *)
Lemma unique_first_order (a b : list string) (d1 d2 : string) :
  ~ In d2 a -> In d2 b -> d1 <> d2 ->
  before d1 d2 (unique (a ++ d1 :: b)).
Proof.
  intros Ha Hb Hne. rewrite unique_app.
  set (keep := fun y => negb (existsb (String.eqb y) a)).
  assert (H2 : In d2 (filter keep (filter (fun y => negb (String.eqb y d1))
                                          (unique b)))).
  { apply filter_In. split.
    - apply filter_In. split; [now apply in_unique|].
      destruct (String.eqb_spec d2 d1); [congruence|reflexivity].
    - unfold keep. destruct (existsb (String.eqb d2) a) eqn:E; [|reflexivity].
      apply existsb_eqb_in in E. contradiction. }
  cbn [unique filter].
  destruct (keep d1) eqn:K.
  - apply in_split in H2. destruct H2 as (m1 & m2 & ->).
    exists (unique a), m1, m2. reflexivity.
  - assert (H1 : In d1 (unique a)).
    { apply in_unique. unfold keep in K.
      destruct (existsb (String.eqb d1) a) eqn:E; [|discriminate].
      now apply existsb_eqb_in. }
    apply in_split in H1, H2.
    destruct H1 as (u1 & u2 & ->). destruct H2 as (m1 & m2 & ->).
    exists u1, (u2 ++ m1), m2. now rewrite <- !app_assoc.
Qed.

(** X18.  Within a category the persons are stacked in the order of their
    first contract in the frame: when a contract of one person comes before
    every contract of another person of the category, the bars of the
    first are on a row strictly above (a smaller row number than) the bars
    of the second. *)
Theorem persons_in_order_of_appearance (df : DataFrame) (cats : list string)
    (p : Page) (fig : Figure) (c d1 d2 : string) (a b : list string)
    (t1 t2 : Trace) :
  NoDup cats ->
  result_of (create_timeline_chart (Some df) cats) p = Some fig ->
  map DNI (filter (categoria_is c) (filter (isin cats) df)) = a ++ d1 :: b ->
  ~ In d2 a -> In d2 b -> d1 <> d2 ->
  In t1 (fig_data fig) -> In t2 (fig_data fig) ->
  hover_categoria t1 = c -> hover_categoria t2 = c ->
  hover_dni t1 = d1 -> hover_dni t2 = d2 ->
  trace_y t1 < trace_y t2.
Proof.
  intros Hnd Hfig Hmap Ha Hb Hne H1 H2 C1 C2 D1 D2.
  rewrite (create_timeline_chart_data df cats p fig Hfig) in H1, H2.
  set (dff := filter (isin cats) df) in *.
  pose proof (layout_categoria_in _ _ _ H1) as Hc. rewrite C1 in Hc.
  apply in_split in Hc. destruct Hc as (l1 & l2 & ->).
  pose proof (in_layout_block dff l1 l2 c t1 Hnd H1 C1) as B1.
  pose proof (in_layout_block dff l1 l2 c t2 Hnd H2 C2) as B2.
  apply in_block in B1, B2.
  destruct B1 as (k1 & r1 & N1 & _ & _ & E1).
  destruct B2 as (k2 & r2 & N2 & _ & _ & E2).
  subst t1 t2. cbn [hover_dni scatter trace_y] in *. subst d1 d2.
  rewrite Hmap in N1, N2.
  destruct (unique_first_order a b (DNI r1) (DNI r2) Ha Hb Hne)
    as (u1 & u2 & u3 & Hu).
  pose proof (unique_NoDup (a ++ DNI r1 :: b)) as Hnu.
  rewrite Hu in N1, N2, Hnu.
  assert (I1 : nth_error (u1 ++ DNI r1 :: u2 ++ DNI r2 :: u3) (List.length u1)
               = Some (DNI r1)).
  { rewrite nth_error_app2 by lia. now rewrite Nat.sub_diag. }
  assert (I2 : nth_error (u1 ++ DNI r1 :: u2 ++ DNI r2 :: u3)
                 (List.length u1 + S (List.length u2)) = Some (DNI r2)).
  { rewrite nth_error_app2 by lia.
    replace (List.length u1 + S (List.length u2) - List.length u1)%nat
      with (S (List.length u2)) by lia.
    cbn [nth_error]. rewrite nth_error_app2 by lia. now rewrite Nat.sub_diag. }
  rewrite (NoDup_nth_error_inj _ _ _ _ Hnu N1 I1).
  rewrite (NoDup_nth_error_inj _ _ _ _ Hnu N2 I2). lia.
Qed.

(** X19.  [create_timeline_chart] returns no figure exactly when it is
    given no frame or no row of the frame has a chosen category (an empty
    frame and an empty selection included); it shows its warning exactly
    when the frame and the selection are not empty and no row matches, and
    otherwise leaves the page as it is. *)
Theorem timeline_none_iff (df : option DataFrame) (cats : list string)
    (p : Page) :
  (result_of (create_timeline_chart df cats) p = None <->
   df = None \/ exists d, df = Some d /\ filter (isin cats) d = []) /\
  (page_of (create_timeline_chart df cats) p =
     p ++ [StWarning "No hay datos para las categorías seleccionadas"] <->
   exists d, df = Some d /\ d <> [] /\ cats <> [] /\
             filter (isin cats) d = []) /\
  (page_of (create_timeline_chart df cats) p = p \/
   page_of (create_timeline_chart df cats) p =
     p ++ [StWarning "No hay datos para las categorías seleccionadas"]).
Proof.
  assert (Hne : forall l : Page, forall e, l <> l ++ [e]).
  { intros l e H. apply (f_equal (@List.length _)) in H.
    rewrite length_app in H. cbn in H. lia. }
  unfold create_timeline_chart, result_of, page_of.
  destruct df as [d|].
  - destruct d as [|r d].
    + cbn. split; [|split].
      * split; [eauto|reflexivity].
      * split; [intros H; destruct (Hne _ _ H)|].
        intros (d & [= <-] & H & _). congruence.
      * now left.
    + destruct cats as [|c cats].
      * cbn [Py.is_empty orb]. cbn. split; [|split].
        -- split; [|reflexivity]. intros _. right. eexists. split; [reflexivity|].
           clear. induction d; cbn; auto.
        -- split; [intros H; destruct (Hne _ _ H)|].
           intros (d' & _ & _ & H & _). congruence.
        -- now left.
      * cbn [Py.is_empty orb].
        destruct (filter (isin (c :: cats)) (r :: d)) as [|r' l] eqn:E;
          cbn [Py.is_empty].
        -- unfold bind, emit, ret. cbn. split; [|split].
           ++ split; [|reflexivity]. intros _. right. eauto.
           ++ split; [|reflexivity]. intros _. exists (r :: d).
              repeat split; try discriminate. exact E.
           ++ now right.
        -- unfold ret. cbn. split; [|split].
           ++ split; [discriminate|].
              intros [H|(d' & [= <-] & H)]; [discriminate|]. congruence.
           ++ split; [intros H; destruct (Hne _ _ H)|].
              intros (d' & [= <-] & _ & _ & H). congruence.
           ++ now left.
  - cbn. split; [|split].
    + split; [auto|reflexivity].
    + split; [intros H; destruct (Hne _ _ H)|].
      intros (d & H & _). discriminate.
    + now left.
Qed.

End TimelineMore.

Section ChartMore.

Lemma enumerate_from_nth {A} (i j : nat) (l : list A) (x : A) :
  nth_error l j = Some x ->
  nth_error (enumerate_from i l) j = Some ((i + j)%nat, x).
Proof.
  revert i j. induction l as [|y l IH]; intros i j H.
  - destruct j; discriminate.
  - destruct j as [|j]; cbn in *.
    + injection H as ->. now rewrite Nat.add_0_r.
    + rewrite (IH (S i) j H). f_equal. f_equal. lia.
Qed.

Lemma enumerate_from_snd {A} (i : nat) (l : list A) :
  map snd (enumerate_from i l) = l.
Proof.
  revert i. induction l as [|y l IH]; intros i; cbn; [reflexivity|].
  now rewrite IH.
Qed.

Lemma enumerate_from_length {A} (i : nat) (l : list A) :
  List.length (enumerate_from i l) = List.length l.
Proof. rewrite <- (enumerate_from_snd i l) at 2. now rewrite length_map. Qed.

Lemma enumerate_line_names (i : nat) (l : Py.Dict Series) :
  map line_name
      (map (fun '(i, (categoria, data)) =>
              {| line_name := categoria;
                 line_x := meses data;
                 line_y := contratos data;
                 line_color := Nat.modulo i SET3_LEN |})
           (enumerate_from i l))
  = map fst l.
Proof.
  revert i. induction l as [|[k s] l IH]; intros i; [reflexivity|].
  cbn [enumerate_from map fst line_name]. now rewrite IH.
Qed.

Lemma chart_line_names (datos : Py.Dict Series) (chart : LineFigure) :
  create_active_contracts_chart datos = Some chart ->
  map line_name (line_data chart) = map fst datos.
Proof.
  destruct datos as [|[k0 s0] rest]; [discriminate|].
  cbn [create_active_contracts_chart]. intros [= <-].
  exact (enumerate_line_names 0 ((k0, s0) :: rest)).
Qed.

(** X13.  When no category is repeated and the aggregator returns, the
    chart has one line per chosen category, named after it and in the order
    of the selection; every line runs over the month grid with one count
    per month, and the colour of the line at place [j] is [j] modulo the
    twelve colours of [Set3]. *)
Theorem chart_lines_follow_selection (df : DataFrame) (cats : list string)
    (res : Py.Dict Series) :
  NoDup cats -> df <> [] ->
  calculate_active_contracts_by_month (Some df) cats = Ok res ->
  exists chart grid,
    create_active_contracts_chart res = Some chart /\
    month_grid (filter (isin cats) df) = Ok grid /\
    map line_name (line_data chart) = cats /\
    Forall (fun l => line_x l = grid /\
                     List.length (line_y l) = List.length grid)
           (line_data chart) /\
    (forall j l, nth_error (line_data chart) j = Some l ->
                 line_color l = Nat.modulo j 12).
Proof.
  intros Hnd Hne Hres. destruct df as [|r df]; [congruence|].
  destruct (calculate_nonempty r df cats res Hres) as (grid & Hg & ->).
  set (dff := filter (isin cats) (r :: df)) in *.
  rewrite fold_series_nodup by (auto; intros c _ []). cbn [app].
  assert (Hc : cats <> []).
  { intros ->. subst dff. unfold month_grid in Hg.
    replace (filter (isin []) (r :: df)) with (@nil Row) in Hg; [discriminate|].
    clear. induction (r :: df); cbn; auto. }
  destruct cats as [|c cats]; [congruence|].
  cbn [map create_active_contracts_chart].
  eexists. exists grid. split; [reflexivity|]. split; [exact Hg|].
  cbn [line_data].
  set (res := (c, series_of dff grid c)
              :: map (fun c0 => (c0, series_of dff grid c0)) cats).
  assert (Hres' : res = map (fun c0 => (c0, series_of dff grid c0)) (c :: cats))
    by reflexivity.
  set (mk := fun '(i, (categoria, data)) =>
               {| line_name := categoria; line_x := meses data;
                  line_y := contratos data;
                  line_color := Nat.modulo i SET3_LEN |}).
  assert (Hmk : forall ix, line_name (mk ix) = fst (snd ix) /\
                           line_x (mk ix) = meses (snd (snd ix)) /\
                           line_y (mk ix) = contratos (snd (snd ix)) /\
                           line_color (mk ix) = Nat.modulo (fst ix) 12).
  { intros [i [k s]]. cbn. auto. }
  change (map _ (enumerate_from 0 res)) with (map mk (enumerate_from 0 res)).
  split; [|split].
  - rewrite map_map.
    rewrite (map_ext _ (fun ix => fst (snd ix))) by (intros; apply Hmk).
    rewrite <- (map_map snd fst), enumerate_from_snd, Hres', map_map.
    cbn [fst]. apply map_id.
  - apply Forall_forall. intros l Hl. apply in_map_iff in Hl.
    destruct Hl as (ix & <- & Hix).
    destruct (Hmk ix) as (_ & -> & -> & _).
    assert (Hs : In (snd ix) res).
    { rewrite <- (enumerate_from_snd 0 res). now apply in_map. }
    rewrite Hres' in Hs. apply in_map_iff in Hs. destruct Hs as (c0 & <- & _).
    cbn [snd meses contratos series_of]. split; [reflexivity|apply length_map].
  - intros j l Hj.
    destruct (nth_error res j) as [x|] eqn:Ex.
    + rewrite (map_nth_error mk _ _ (enumerate_from_nth 0 j res x Ex)) in Hj.
      assert (El : l = mk ((0 + j)%nat, x)) by congruence.
      rewrite El. exact (proj2 (proj2 (proj2 (Hmk ((0 + j)%nat, x))))).
    + apply nth_error_None in Ex.
      assert (nth_error (map mk (enumerate_from 0 res)) j = None).
      { apply nth_error_None. rewrite length_map, enumerate_from_length. exact Ex. }
      congruence.
Qed.

End ChartMore.

Section SummaryMore.

Lemma sum_Z_app (l1 l2 : list Z) : sum_Z (l1 ++ l2) = sum_Z l1 + sum_Z l2.
Proof.
  induction l1 as [|x l1 IH]; cbn [app sum_Z fold_right]; [reflexivity|].
  fold (sum_Z (l1 ++ l2)). fold (sum_Z l1). lia.
Qed.

Lemma flat_map_length_sum {A B} (f : A -> list B) (l : list A) :
  Z.of_nat (List.length (flat_map f l)) =
  sum_Z (map (fun x => Z.of_nat (List.length (f x))) l).
Proof.
  induction l as [|x l IH]; cbn [flat_map map sum_Z fold_right]; [reflexivity|].
  fold (sum_Z (map (fun x => Z.of_nat (List.length (f x))) l)).
  rewrite length_app. lia.
Qed.

Lemma rows_end_sum (df : DataFrame) (cats : list string) (y : Z) :
  rows_end df cats y =
  y + sum_Z (map (fun c => Z.of_nat
                             (nunique (map DNI (filter (categoria_is c) df))))
                 cats)
    + 2 * Z.of_nat (List.length (filter (has_rows df) cats)).
Proof.
  revert y. induction cats as [|c cats IH]; intros y.
  - cbn. lia.
  - cbn [rows_end map sum_Z fold_right filter]. rewrite IH.
    fold (sum_Z (map (fun c => Z.of_nat
                        (nunique (map DNI (filter (categoria_is c) df)))) cats)).
    unfold block_height, has_rows.
    destruct (filter (categoria_is c) df) as [|r l] eqn:E;
      cbn [Py.is_empty negb List.length].
    + cbn. lia.
    + lia.
Qed.

(** X17.  In the summary of [main], with no category repeated in the
    selection: the contracts of the categories add up to the total of
    contracts; the total of persons is at most the sum of the persons of
    the categories (a person with contracts in two categories counts in
    both); there is one line per chosen category, in the order of the
    selection; and the row counter of the timeline ends at the sum of the
    persons of the categories plus two rows per category that has rows. *)
Theorem summary_totals (df : DataFrame) (cats : list string) :
  NoDup cats ->
  let resumen := resumen_categorias df cats in
  let metrics := main_metrics df cats in
  map resumen_categoria resumen = cats /\
  sum_Z (map (fun s => Z.of_nat (resumen_contratos s)) resumen)
    = Z.of_nat (total_contratos metrics) /\
  Z.of_nat (total_personas metrics)
    <= sum_Z (map (fun s => Z.of_nat (resumen_personas s)) resumen) /\
  y_position (timeline_layout (filter (isin cats) df) cats) =
    sum_Z (map (fun s => Z.of_nat (resumen_personas s)) resumen)
    + 2 * Z.of_nat (List.length
                      (filter (has_rows (filter (isin cats) df)) cats)).
Proof.
  intros Hnd resumen metrics. subst resumen metrics.
  unfold resumen_categorias, main_metrics.
  cbn [total_contratos total_personas].
  set (dff := filter (isin cats) df).
  rewrite !map_map. cbn [resumen_categoria resumen_contratos resumen_personas].
  split; [apply map_id|]. split; [|split].
  - apply (partition_count CATEGORIA); [assumption|].
    intros r Hr. subst dff. apply filter_In in Hr. now apply isin_true.
  - rewrite <- (flat_map_length_sum
                  (fun c => unique (map DNI (filter (categoria_is c) dff)))).
    apply inj_le. unfold nunique. apply NoDup_incl_length; [apply unique_NoDup|].
    intros d Hd. apply in_unique, in_map_iff in Hd.
    destruct Hd as (r & <- & Hr). apply in_flat_map.
    exists (CATEGORIA r). split.
    + subst dff. apply filter_In in Hr. now apply isin_true.
    + apply in_unique, in_map, in_filter_categoria. auto.
  - rewrite timeline_layout_y, rows_end_sum. lia.
Qed.

(** X20.  The figure of the timeline is 15 units high per row of the final
    row counter and never less than 600; every year line runs from row 0 to
    that counter and carries one annotation, at the same date, with the
    year in decimal digits. *)
Theorem timeline_height (df : DataFrame) (cats : list string) (p : Page)
    (fig : Figure) :
  result_of (create_timeline_chart (Some df) cats) p = Some fig ->
  let df_filtrado := filter (isin cats) df in
  let rows :=
    sum_Z (map (fun c => Z.of_nat
                           (nunique (map DNI (filter (categoria_is c)
                                                     df_filtrado))))
               cats)
    + 2 * Z.of_nat (List.length (filter (has_rows df_filtrado) cats)) in
  fig_height fig = Z.max 600 (rows * 15) /\
  600 <= fig_height fig /\
  (forall t, In t (fig_data fig) -> 0 <= trace_y t < rows) /\
  Forall (fun s => shape_y0 s = 0 /\ shape_y1 s = rows) (fig_shapes fig) /\
  map ann_x (fig_annotations fig) = map shape_x (fig_shapes fig) /\
  map ann_text (fig_annotations fig) =
    map Py.str_of_int (marked_years (fig_shapes fig)).
Proof.
  intros Hfig df_filtrado rows.
  pose proof (create_timeline_chart_data df cats p fig Hfig) as Hdata.
  fold df_filtrado in Hdata.
  unfold create_timeline_chart, result_of in Hfig.
  destruct (Py.is_empty df || Py.is_empty cats); [discriminate|].
  fold df_filtrado in Hfig.
  destruct (Py.is_empty df_filtrado); [discriminate|].
  cbn in Hfig. injection Hfig as <-.
  unfold timeline_figure in *.
  cbn [fig_height fig_shapes fig_annotations fig_data] in *.
  assert (Hy : y_position (timeline_layout df_filtrado cats) = rows).
  { rewrite timeline_layout_y, rows_end_sum. subst rows. lia. }
  rewrite Hy. split; [reflexivity|]. split; [lia|]. split.
  { intros t Ht. rewrite timeline_layout_traces, in_category_rows in Ht.
    destruct Ht as (l1 & c & l2 & -> & Hb). apply in_block_height in Hb.
    pose proof (rows_end_ge df_filtrado l1 0).
    pose proof (rows_end_prefix df_filtrado (l1 ++ [c]) l2) as Hp.
    rewrite <- app_assoc in Hp. cbn [app] in Hp.
    rewrite rows_end_snoc in Hp.
    rewrite <- Hy, timeline_layout_y. lia. }
  split; [apply Forall_map, Forall_forall; intros; cbn; auto|].
  rewrite marked_years_shapes, !map_map. cbn. auto.
Qed.

End SummaryMore.

Section StringOrder.

Lemma ascii_compare_refl (a : ascii) : Ascii.compare a a = Eq.
Proof. unfold Ascii.compare. apply N.compare_refl. Qed.

Lemma ascii_compare_lt_trans (a b c : ascii) :
  Ascii.compare a b = Lt -> Ascii.compare b c = Lt -> Ascii.compare a c = Lt.
Proof.
  unfold Ascii.compare. rewrite !N.compare_lt_iff. lia.
Qed.

Lemma string_compare_lt_trans (a b c : string) :
  String.compare a b = Lt -> String.compare b c = Lt -> String.compare a c = Lt.
Proof.
  revert b c. induction a as [|x a IH]; intros [|y b] [|z c]; cbn;
    try discriminate; auto.
  destruct (Ascii.compare x y) eqn:E1; try discriminate;
    destruct (Ascii.compare y z) eqn:E2; try discriminate.
  - apply Ascii.compare_eq_iff in E1, E2. subst.
    rewrite ascii_compare_refl. apply IH.
  - apply Ascii.compare_eq_iff in E1. subst. now rewrite E2.
  - apply Ascii.compare_eq_iff in E2. subst. now rewrite E1.
  - now rewrite (ascii_compare_lt_trans x y z E1 E2).
Qed.

Lemma string_ltb_trans (a b c : string) :
  String.ltb a b = true -> String.ltb b c = true -> String.ltb a c = true.
Proof.
  unfold String.ltb.
  destruct (String.compare a b) eqn:E1; try discriminate.
  destruct (String.compare b c) eqn:E2; try discriminate.
  now rewrite (string_compare_lt_trans a b c E1 E2).
Qed.

Lemma string_leb_neq_ltb (a b : string) :
  String.leb a b = true -> a <> b -> String.ltb a b = true.
Proof.
  unfold String.leb, String.ltb.
  destruct (String.compare a b) eqn:E; try discriminate; auto.
  intros _ H. apply String.compare_eq_iff in E. contradiction.
Qed.

Lemma in_insert_sorted (x y : string) (l : list string) :
  In y (insert_sorted x l) <-> y = x \/ In y l.
Proof.
  induction l as [|z l IH]; cbn [insert_sorted].
  - cbn. intuition.
  - destruct (String.leb x z); cbn [In]; [intuition|]. rewrite IH. intuition.
Qed.

Lemma in_sorted_strings (y : string) (l : list string) :
  In y (sorted_strings l) <-> In y l.
Proof.
  induction l as [|x l IH]; cbn [sorted_strings fold_right]; [tauto|].
  fold (sorted_strings l). rewrite in_insert_sorted, IH. cbn. intuition.
Qed.

Lemma insert_sorted_strict (x : string) (l : list string) :
  ~ In x l ->
  StronglySorted (fun a b => String.ltb a b = true) l ->
  StronglySorted (fun a b => String.ltb a b = true) (insert_sorted x l).
Proof.
  intros Hx Hs. induction Hs as [|z l Hs IH Hall]; cbn [insert_sorted].
  - repeat constructor.
  - assert (Hxz : x <> z) by (intros ->; apply Hx; now left).
    destruct (String.leb x z) eqn:E.
    + pose proof (string_leb_neq_ltb x z E Hxz) as Hlt.
      constructor; [now constructor|]. constructor; [exact Hlt|].
      apply Forall_impl with (2 := Hall). intros b Hb.
      now apply (string_ltb_trans x z b).
    + constructor.
      * apply IH. intros H. apply Hx. now right.
      * apply Forall_forall. intros b Hb. apply in_insert_sorted in Hb.
        destruct Hb as [->|Hb].
        -- destruct (String.leb_total x z) as [H|H]; [congruence|].
           apply string_leb_neq_ltb; [exact H|congruence].
        -- rewrite Forall_forall in Hall. now apply Hall.
Qed.

Lemma sorted_strings_strict (l : list string) :
  NoDup l ->
  StronglySorted (fun a b => String.ltb a b = true) (sorted_strings l).
Proof.
  induction 1 as [|x l Hx Hnd IH]; cbn [sorted_strings fold_right];
    [constructor|].
  fold (sorted_strings l). apply insert_sorted_strict; [|exact IH].
  now rewrite in_sorted_strings.
Qed.

Lemma string_ltb_irrefl (a : string) : String.ltb a a = false.
Proof.
  unfold String.ltb. destruct (String.compare a a) eqn:E; try reflexivity.
  pose proof (String.compare_antisym a a) as H. rewrite E in H. discriminate.
Qed.

Lemma strict_sorted_NoDup (l : list string) :
  StronglySorted (fun a b => String.ltb a b = true) l -> NoDup l.
Proof.
  induction 1 as [|x l Hs IH Hall]; constructor; [|exact IH].
  intros Hx. rewrite Forall_forall in Hall. specialize (Hall x Hx).
  rewrite string_ltb_irrefl in Hall. discriminate.
Qed.

(** X16.  The options of the multiselect are exactly the categories that
    occur in the frame, each one once, in strictly ascending order; and
    each of them has a row in the frame. *)
Theorem categorias_disponibles_spec (df : DataFrame) :
  (forall c, In c (categorias_disponibles df) <->
             exists r, In r df /\ CATEGORIA r = c) /\
  StronglySorted (fun a b => String.ltb a b = true)
                 (categorias_disponibles df) /\
  NoDup (categorias_disponibles df) /\
  (forall c, In c (categorias_disponibles df) ->
             filter (categoria_is c)
                    (filter (isin (categorias_disponibles df)) df) <> []) /\
  filter (isin (categorias_disponibles df)) df = df.
Proof.
  assert (Hin : forall c, In c (categorias_disponibles df) <->
                          exists r, In r df /\ CATEGORIA r = c).
  { intros c. unfold categorias_disponibles.
    rewrite in_sorted_strings, in_unique, in_map_iff.
    split; intros (r & H1 & H2); exists r; auto. }
  assert (Hs : StronglySorted (fun a b => String.ltb a b = true)
                              (categorias_disponibles df)).
  { apply sorted_strings_strict, unique_NoDup. }
  assert (Hall : filter (isin (categorias_disponibles df)) df = df).
  { apply forallb_filter_id.
    apply forallb_forall. intros r Hr. apply isin_true, Hin. eauto. }
  split; [exact Hin|]. split; [exact Hs|].
  split; [now apply strict_sorted_NoDup|]. split; [|exact Hall].
  intros c Hc. rewrite Hall. apply Hin in Hc. destruct Hc as (r & Hr & E).
  intros Hnil.
  assert (H : In r (filter (categoria_is c) df))
    by (apply in_filter_categoria; auto).
  rewrite Hnil in H. contradiction.
Qed.

End StringOrder.

Section MainMore.

Context {Cell : Type} {ops : CellOps Cell}.

(** The result of the computing part of [main], by cases on what
    [load_data] returns. *)
Lemma main_views_cases (file : PyResult (RawFrame Cell)) (cats : list string)
    (p : Page) :
  result_of (main_views file cats) p =
  match result_of (load_data file) p with
  | None => Ok None
  | Some [] => Raise (ValueError "NaTType does not support strftime")
  | Some (r :: df) =>
      if Py.is_empty cats then Ok None
      else
        match calculate_active_contracts_by_month (Some (r :: df)) cats with
        | Raise e => Raise e
        | Ok datos =>
            Ok (Some {| datos_activos := datos;
                        fig_activos := create_active_contracts_chart datos;
                        fig_timeline :=
                          result_of (create_timeline_chart (Some (r :: df)) cats)
                                    p |})
        end
  end.
Proof.
  unfold main_views, result_of at 1 2, bind, emit, emit_metrics, bind, emit.
  destruct (load_data file p) as [[df|] p'] eqn:E; cbn [fst]; [|reflexivity].
  destruct df as [|r df]; [reflexivity|].
  cbn [map series_min series_max].
  destruct (Py.is_empty cats); [reflexivity|].
  unfold DataFrame in *.
  destruct (calculate_active_contracts_by_month (Some (r :: df)) cats)
    as [datos|e]; [|reflexivity].
  destruct (create_active_contracts_chart datos) as [chart|];
    unfold ret; cbn [fst snd];
    match goal with
    | |- context [create_timeline_chart _ _ ?q] =>
        pose proof (page_independent_result _ q p
                      (create_timeline_chart_independent (Some (r :: df)) cats))
          as H;
        unfold result_of in H;
        destruct (create_timeline_chart (Some (r :: df)) cats q)
          as [fig p'']
    end;
    cbn [fst] in *; unfold result_of; rewrite <- H; destruct fig; reflexivity.
Qed.

Lemma calculate_raise_iff (r : Row) (df : DataFrame) (cats : list string)
    (e : Exception) :
  calculate_active_contracts_by_month (Some (r :: df)) cats = Raise e <->
  filter (isin cats) (r :: df) = [] /\
  e = ValueError "Neither `start` nor `end` can be NaT".
Proof.
  unfold calculate_active_contracts_by_month, month_grid. cbn [Py.is_empty].
  destruct (filter (isin cats) (r :: df)) as [|r' l] eqn:E.
  - cbn. split; [intros [= <-]; auto|intros [_ ->]; reflexivity].
  - cbn [map series_min series_max nat_replace_day1 option_map
         DateRange.date_range_MS].
    split; [discriminate|intros [H _]; discriminate].
Qed.

Lemma chart_some (datos : Py.Dict Series) :
  datos <> [] -> exists chart, create_active_contracts_chart datos = Some chart.
Proof.
  destruct datos as [|[k s] rest]; [congruence|]. intros _. eexists. reflexivity.
Qed.

Lemma main_views_ok (file : PyResult (RawFrame Cell)) (cats : list string)
    (p : Page) (df : DataFrame) (r0 : Row) :
  result_of (load_data file) p = Some df ->
  In r0 df -> In (CATEGORIA r0) cats ->
  exists datos chart,
    calculate_active_contracts_by_month (Some df) cats = Ok datos /\
    create_active_contracts_chart datos = Some chart /\
    result_of (main_views file cats) p =
    Ok (Some {| datos_activos := datos;
                fig_activos := Some chart;
                fig_timeline :=
                  Some (timeline_figure (filter (isin cats) df) cats) |}).
Proof.
  intros Hload Hin Hcat.
  destruct (calculate_ok df cats r0 Hin Hcat) as (grid & Hg & Hres).
  set (datos := fold_left (categoria_series (filter (isin cats) df) grid)
                          cats []) in *.
  assert (Hd : datos <> []).
  { intros E.
    destruct (fold_series_keys (filter (isin cats) df) grid cats []
                (NoDup_nil _)) as [_ H2].
    fold datos in H2. rewrite E in H2.
    apply (proj2 (H2 (CATEGORIA r0))). now right. }
  destruct (chart_some datos Hd) as (chart & Hchart).
  assert (Ht : result_of (create_timeline_chart (Some df) cats) p =
               Some (timeline_figure (filter (isin cats) df) cats)).
  { unfold create_timeline_chart, result_of.
    assert (Hf : In r0 (filter (isin cats) df)).
    { apply filter_In. split; [assumption|now apply isin_true]. }
    destruct df as [|r df]; [contradiction|].
    destruct cats as [|c cats]; [contradiction|]. cbn [Py.is_empty orb].
    destruct (filter (isin (c :: cats)) (r :: df)); [contradiction|].
    reflexivity. }
  exists datos, chart. split; [exact Hres|]. split; [exact Hchart|].
  rewrite main_views_cases, Hload.
  destruct df as [|r df]; [contradiction|].
  destruct cats as [|c cats]; [contradiction|]. cbn [Py.is_empty].
  unfold DataFrame in *. rewrite Hres, Hchart, Ht. reflexivity.
Qed.

(** X14.  When [load_data] returns a frame and some row of it has a chosen
    category, the computing part of [main] raises nothing and returns the
    three views: the series of the aggregator, a chart of them, and the
    figure of the timeline. *)
Theorem main_views_succeeds (file : PyResult (RawFrame Cell))
    (cats : list string) (p : Page) (df : DataFrame) (r0 : Row) :
  result_of (load_data file) p = Some df ->
  In r0 df -> In (CATEGORIA r0) cats ->
  exists v chart,
    result_of (main_views file cats) p = Ok (Some v) /\
    calculate_active_contracts_by_month (Some df) cats = Ok (datos_activos v) /\
    fig_activos v = Some chart /\
    create_active_contracts_chart (datos_activos v) = Some chart /\
    fig_timeline v = Some (timeline_figure (filter (isin cats) df) cats).
Proof.
  intros Hload Hin Hcat.
  destruct (main_views_ok file cats p df r0 Hload Hin Hcat)
    as (datos & chart & H1 & H2 & H3).
  eexists. exists chart. split; [exact H3|]. cbn. auto.
Qed.

(** X15.  The computing part of [main] returns no views and no error
    exactly when [load_data] returned [None], or returned a frame with rows
    while no category is chosen.  It raises exactly in two cases: the frame
    of [load_data] has no row (the period line formats [NaT]), or the frame
    has rows, categories are chosen and no row has one of them (the
    aggregator's [date_range]). *)
Theorem main_views_outcomes (file : PyResult (RawFrame Cell))
    (cats : list string) (p : Page) :
  (result_of (main_views file cats) p = Ok None <->
   result_of (load_data file) p = None \/
   exists df, result_of (load_data file) p = Some df /\ df <> [] /\ cats = []) /\
  (forall e,
     result_of (main_views file cats) p = Raise e <->
     (result_of (load_data file) p = Some [] /\
      e = ValueError "NaTType does not support strftime") \/
     (exists df, result_of (load_data file) p = Some df /\ df <> [] /\
                 cats <> [] /\ filter (isin cats) df = [] /\
                 e = ValueError "Neither `start` nor `end` can be NaT")).
Proof.
  rewrite main_views_cases.
  destruct (result_of (load_data file) p) as [[|r df]|].
  - split.
    + split; [discriminate|].
      intros [H|(df & [= <-] & H & _)]; [discriminate|congruence].
    + intros e. split.
      * intros [= <-]. left. auto.
      * intros [[_ ->]|(df & [= <-] & H & _)]; [reflexivity|congruence].
  - destruct cats as [|c cats]; cbn [Py.is_empty].
    + split.
      * split; [|reflexivity]. intros _. right. exists (r :: df).
        repeat split. discriminate.
      * intros e. split; [discriminate|].
        intros [[H _]|(df' & _ & _ & H & _)]; [discriminate|congruence].
    + destruct (calculate_active_contracts_by_month (Some (r :: df)) (c :: cats))
        as [datos|e0] eqn:E.
      * split.
        -- split; [discriminate|].
           intros [H|(df' & _ & _ & H)]; discriminate.
        -- intros e. split; [discriminate|].
           intros [[H _]|(df' & [= <-] & _ & _ & Hf & He)]; [discriminate|].
           assert (calculate_active_contracts_by_month (Some (r :: df)) (c :: cats)
                   = Raise e) by (apply calculate_raise_iff; auto).
           congruence.
      * apply calculate_raise_iff in E. destruct E as [Hf ->]. split.
        -- split; [discriminate|].
           intros [H|(df' & _ & _ & H)]; discriminate.
        -- intros e. split.
           ++ intros [= <-]. right. exists (r :: df).
              repeat split; try discriminate. exact Hf.
           ++ intros [[H _]|(df' & _ & _ & _ & _ & ->)]; [discriminate|reflexivity].
  - split.
    + split; [auto|reflexivity].
    + intros e. split; [discriminate|].
      intros [[H _]|(df' & H & _)]; discriminate.
Qed.

(** X21.  With the default selection of the multiselect, all the
    categories of the frame, the computing part of [main] succeeds on every
    frame with rows that [load_data] returns: nothing is raised, both
    charts are made, and the timeline shows every row of the frame. *)
Theorem default_selection_succeeds (file : PyResult (RawFrame Cell))
    (p : Page) (df : DataFrame) :
  result_of (load_data file) p = Some df -> df <> [] ->
  exists v chart fig,
    result_of (main_views file (categorias_disponibles df)) p = Ok (Some v) /\
    fig_activos v = Some chart /\
    map line_name (line_data chart) = categorias_disponibles df /\
    fig_timeline v = Some fig /\
    Permutation (map contrato_of (fig_data fig)) df.
Proof.
  intros Hload Hne. destruct df as [|r0 df]; [congruence|].
  set (frame := r0 :: df) in *.
  set (cats := categorias_disponibles frame).
  assert (Hall : filter (isin cats) frame = frame).
  { subst cats. unfold categorias_disponibles.
    apply forallb_filter_id.
    apply forallb_forall. intros r Hr. apply isin_true.
    apply in_sorted_strings, in_unique. now apply in_map. }
  assert (Hnd : NoDup cats).
  { subst cats. apply strict_sorted_NoDup, sorted_strings_strict, unique_NoDup. }
  assert (Hc : In (CATEGORIA r0) cats).
  { subst cats. apply in_sorted_strings, in_unique, in_map. now left. }
  destruct (main_views_ok file cats p frame r0 Hload ltac:(now left) Hc)
    as (datos & chart & H1 & H2 & H3).
  eexists. exists chart. eexists. split; [exact H3|].
  cbn [fig_activos fig_timeline]. split; [reflexivity|]. split; [|split].
  - rewrite (chart_line_names _ _ H2). subst frame.
    destruct (calculate_nonempty r0 df cats datos H1) as (grid & Hg & ->).
    rewrite fold_series_nodup by (auto; intros c _ []). cbn [app].
    rewrite map_map. cbn [fst]. apply map_id.
  - reflexivity.
  - cbn [fig_data timeline_figure]. rewrite timeline_layout_traces, Hall.
    eapply Permutation_trans; [apply contratos_of_category_rows|].
    apply (partition_perm CATEGORIA); [assumption|].
    intros r Hr. rewrite <- Hall in Hr. apply filter_In in Hr.
    now apply isin_true.
Qed.

End MainMore.

Section Durations.

Context {Cell : Type} {ops : CellOps Cell}.

(** X22.  [Duracion] counts whole days: in every row that [load_data]
    returns, with dates that exist, it is the difference of the day numbers
    of [Fbaja] and [Falta] when the time of day of [Fbaja] is not before
    that of [Falta] (so always for calendar dates), and one less
    otherwise. *)
Theorem duracion_counts_days (file : PyResult (RawFrame Cell))
    (df : DataFrame) (p : Page) :
  (forall raw col t,
      file = Ok raw -> In col (values raw) ->
      In (Some t) (to_datetime col) -> ts_valid t) ->
  result_of (load_data file) p = Some df ->
  Forall (fun r =>
            Duracion r =
            ord (Fbaja r) - ord (Falta r)
            - (if time_ns (Falta r) <=? time_ns (Fbaja r) then 0 else 1))
         df.
Proof.
  intros Hparse Hload.
  destruct (load_data_some file df p Hload) as (raw & -> & Hbody).
  assert (Hval : Forall validated df).
  { apply (load_data_validated raw df); [|exact Hbody].
    intros col t Hcol Ht. now apply (Hparse raw col t). }
  apply Forall_forall. intros r Hr.
  assert (Hv : validated r) by (revert r Hr; now apply Forall_forall).
  destruct Hv as (Vf & Vb & Hd & _).
  destruct Vf as (_ & _ & Tf), Vb as (_ & _ & Tb).
  rewrite Hd. unfold timedelta_days, value, ord, Calendar.NS_PER_DAY in *.
  destruct (Z.leb_spec (time_ns (Falta r)) (time_ns (Fbaja r)));
    Z.div_mod_to_equations; lia.
Qed.

End Durations.

Section Colours.

Lemma chart_line_at (datos : Py.Dict Series) (chart : LineFigure) (j : nat)
    (l : LineTrace) :
  create_active_contracts_chart datos = Some chart ->
  nth_error (line_data chart) j = Some l ->
  line_color l = Nat.modulo j 12 /\
  nth_error (map fst datos) j = Some (line_name l).
Proof.
  intros Hchart Hj.
  pose proof (chart_line_names datos chart Hchart) as Hn.
  split.
  - destruct datos as [|[k0 s0] rest]; [discriminate|].
    cbn [create_active_contracts_chart] in Hchart.
    injection Hchart as Hc. rewrite <- Hc in Hj. cbn [line_data] in Hj.
    set (l0 := (k0, s0) :: rest) in *.
    destruct (nth_error l0 j) as [[k s]|] eqn:Ex.
    + pose proof (enumerate_from_nth 0 j l0 (k, s) Ex) as He.
      apply (map_nth_error
               (fun '(i, (categoria, data)) =>
                  {| line_name := categoria; line_x := meses data;
                     line_y := contratos data;
                     line_color := Nat.modulo i SET3_LEN |})) in He.
      assert (E : Some l = Some {| line_name := k; line_x := meses s;
                                   line_y := contratos s;
                                   line_color := Nat.modulo (0 + j) SET3_LEN |}).
      { rewrite <- Hj. exact He. }
      injection E as ->. reflexivity.
    + apply nth_error_None in Ex. exfalso.
      assert (Hlen : (List.length (map
               (fun '(i, (categoria, data)) =>
                  {| line_name := categoria; line_x := meses data;
                     line_y := contratos data;
                     line_color := Nat.modulo i SET3_LEN |})
               (enumerate_from 0 l0)) <= j)%nat)
        by (rewrite length_map, enumerate_from_length; exact Ex).
      apply nth_error_None in Hlen.
      assert (Some l = None) by (rewrite <- Hj; exact Hlen). discriminate.
  - rewrite <- Hn. now apply map_nth_error.
Qed.

(** X23.  When no category is repeated in the selection, a category has
    the same colour in both views: the line of the monthly chart and the
    bars of the timeline that carry the same category have the same index
    into [Set3]. *)
Theorem colours_agree (df : DataFrame) (cats : list string)
    (res : Py.Dict Series) (chart : LineFigure) (p : Page) (fig : Figure)
    (t : Trace) (l : LineTrace) :
  NoDup cats ->
  calculate_active_contracts_by_month (Some df) cats = Ok res ->
  create_active_contracts_chart res = Some chart ->
  result_of (create_timeline_chart (Some df) cats) p = Some fig ->
  In t (fig_data fig) -> In l (line_data chart) ->
  line_name l = hover_categoria t ->
  line_color l = trace_color t.
Proof.
  intros Hnd Hres Hchart Hfig Ht Hl Hname.
  apply In_nth_error in Hl. destruct Hl as (j & Hj).
  destruct (chart_line_at res chart j l Hchart Hj) as [Hc Hk].
  assert (Hcats : map fst res = cats).
  { destruct df as [|r df].
    - cbn in Hres. injection Hres as <-. discriminate.
    - destruct (calculate_nonempty r df cats res Hres) as (grid & _ & ->).
      rewrite fold_series_nodup by (auto; intros c _ []). cbn [app].
      rewrite map_map. cbn [fst]. apply map_id. }
  rewrite Hcats, Hname in Hk.
  rewrite (create_timeline_chart_data df cats p fig Hfig) in Ht.
  rewrite (trace_colour_at _ cats t j Hnd Ht Hk). exact Hc.
Qed.

End Colours.

(* ================================================================== *)
(** * Rejected records *)

Section Intervals.

Context {A B K : Type}.

(** Two lists with the same keys have as many elements whose key passes a
    test. *)
Lemma count_by_key (g : A -> K) (g' : B -> K) (q : K -> bool)
    (l1 : list A) (l2 : list B) :
  map g l1 = map g' l2 ->
  List.length (filter (fun x => q (g x)) l1) =
  List.length (filter (fun y => q (g' y)) l2).
Proof.
  revert l2. induction l1 as [|x l1 IH]; intros [|y l2] H;
    try discriminate; [reflexivity|].
  cbn [map] in H. injection H as Hk Hrest. cbn [filter]. rewrite Hk.
  destruct (q (g' y)); cbn [List.length]; now rewrite (IH l2 Hrest).
Qed.

Lemma filter_filter_andb (f g : A -> bool) (l : list A) :
  filter g (filter f l) = filter (fun x => f x && g x) l.
Proof.
  induction l as [|x l IH]; [reflexivity|]. cbn [filter].
  destruct (f x); cbn [filter andb]; [destruct (g x)|]; now rewrite IH.
Qed.

End Intervals.

Section Rejection.

Context {Cell : Type} {ops : CellOps Cell}.

Lemma dropna_intervals (rows : list (CoercedRow Cell)) :
  map (fun d => (Some (d_Falta d), Some (d_Fbaja d)))
      (filter (fun d => (duration_days d >=? 0) && (duration_days d <=? 10000))
              (dropna rows)) =
  map record_interval (filter survives rows).
Proof.
  induction rows as [|r rows IH]; [reflexivity|].
  cbn [dropna filter].
  assert (Hs : survives r =
               match dropna_row r with
               | Some d => (duration_days d >=? 0) && (duration_days d <=? 10000)
               | None => false
               end) by reflexivity.
  rewrite Hs. clear Hs.
  destruct (dropna_row r) as [d|] eqn:E; [|exact IH].
  cbn [filter].
  destruct ((duration_days d >=? 0) && (duration_days d <=? 10000))%bool;
    [|exact IH].
  cbn [map]. rewrite IH. f_equal.
  destruct (dropna_row_some r d E) as (_ & _ & EF & EB & _).
  unfold record_interval. now rewrite EF, EB.
Qed.

Lemma normalised_intervals (ds : list (DatedRow Cell)) (rs : DataFrame) :
  Forall2 normalised ds rs ->
  map row_interval (filter duracion_ok rs) =
  map (fun d => (Some (d_Falta d), Some (d_Fbaja d)))
      (filter (fun d => (duration_days d >=? 0) && (duration_days d <=? 10000))
              ds).
Proof.
  induction 1 as [|d r ds rs (Hf & Hb & Hd & _) _ IH]; [reflexivity|].
  cbn [filter]. unfold duracion_ok at 1. rewrite Hd.
  destruct ((duration_days d >=? 0) && (duration_days d <=? 10000))%bool;
    [|exact IH].
  cbn [map]. rewrite IH. f_equal. unfold row_interval. now rewrite Hf, Hb.
Qed.

(** The frame has one row for each record that passes the two tests, in
    the order of the sheet and with the dates of the record. *)
Lemma loaded_intervals (rows : list (CoercedRow Cell)) :
  map row_interval (filter duracion_ok (normalise (dropna rows))) =
  map record_interval (filter survives rows).
Proof.
  rewrite (normalised_intervals _ _ (normalise_rows (dropna rows))).
  apply dropna_intervals.
Qed.

Lemma active_at_interval (m : Timestamp) (r : Row) :
  active_at m r = interval_contains m (row_interval r).
Proof. reflexivity. Qed.

(** The rows of a frame that contain [m] are as many as the surviving
    records that do. *)
Lemma active_rows_records (rows : list (CoercedRow Cell)) (m : Timestamp) :
  List.length (filter (active_at m)
                      (filter duracion_ok (normalise (dropna rows)))) =
  List.length (filter (fun r => survives r
                                && interval_contains m (record_interval r))
                      rows).
Proof.
  rewrite <- filter_filter_andb.
  apply (count_by_key row_interval record_interval (interval_contains m)).
  apply loaded_intervals.
Qed.

Lemma complete_selection (df : DataFrame) (cats : list string) :
  (forall r, In r df -> In (CATEGORIA r) cats) -> filter (isin cats) df = df.
Proof.
  intros Hall. apply forallb_filter_id. apply forallb_forall.
  intros r Hr. apply isin_true. now apply Hall.
Qed.


End Rejection.

(* ================================================================== *)
(** * More examples *)

Section MoreExamples.

Lemma sample_sheet_dates_valid :
  forall (raw : RawFrame ExcelCell) col t,
    Ok sample_sheet = Ok raw -> In col (values raw) ->
    In (Some t) (to_datetime col) -> ts_valid t.
Proof.
  intros raw col t E Hcol Ht. injection E as <-.
  vm_compute in Hcol.
  repeat (destruct Hcol as [<-|Hcol];
          [vm_compute in Ht;
           repeat (destruct Ht as [Ht|Ht];
                   [try discriminate; injection Ht as <-;
                    vm_compute; intuition discriminate|]);
           contradiction|]).
  contradiction.
Defined.

Lemma sample_selection_nodup : NoDup ["B"%string; "A"%string].
Proof. repeat constructor; cbn; intuition discriminate. Defined.

Lemma sample_with_times_validated : Forall validated sample_with_times.
Proof. repeat constructor; vm_compute; intuition discriminate. Defined.

End MoreExamples.


Lemma loaded_rows_validated_witness :
  (forall (raw : RawFrame ExcelCell) col t,
      Ok sample_sheet = Ok raw -> In col (values raw) ->
      In (Some t) (to_datetime col) -> ts_valid t) /\
  result_of (load_data (Ok sample_sheet)) [] = Some sample_df /\
  Forall (fun r => ts_le (Falta r) (Fbaja r)) sample_df.
Proof.
  split; [exact sample_sheet_dates_valid|]. split; [reflexivity|].
  pose proof (loaded_rows_validated (Ok sample_sheet) sample_df []
                sample_sheet_dates_valid eq_refl) as H.
  eapply Forall_impl; [|exact H]. intros r (_ & Hle & _). exact Hle.
Defined.

Lemma loaded_rows_normalised_witness :
  result_of (load_data (Ok sample_sheet)) [] = Some sample_df /\
  Forall (fun r => (9 <= Py.len (DNI r))%nat) sample_df.
Proof.
  split; [reflexivity|].
  pose proof (loaded_rows_normalised (Ok sample_sheet) sample_df [] eq_refl) as H.
  eapply Forall_impl; [|exact H]. intros r (Hlen & _). exact Hlen.
Defined.

Lemma duracion_counts_days_witness :
  (forall (raw : RawFrame ExcelCell) col t,
      Ok sample_sheet = Ok raw -> In col (values raw) ->
      In (Some t) (to_datetime col) -> ts_valid t) /\
  result_of (load_data (Ok sample_sheet)) [] = Some sample_df /\
  Forall (fun r =>
            Duracion r =
            ord (Fbaja r) - ord (Falta r)
            - (if time_ns (Falta r) <=? time_ns (Fbaja r) then 0 else 1))
         sample_df.
Proof.
  split; [exact sample_sheet_dates_valid|]. split; [reflexivity|].
  exact (duracion_counts_days (Ok sample_sheet) sample_df []
           sample_sheet_dates_valid eq_refl).
Defined.

Lemma counts_partition_witness :
  NoDup ["B"%string; "A"%string] /\
  exists res grid,
    calculate_active_contracts_by_month (Some sample_two)
      ["B"%string; "A"%string] = Ok res /\
    month_grid (filter (isin ["B"%string; "A"%string]) sample_two) = Ok grid /\
    nth_error grid 2 = Some (Timestamp_ymd 2020 3 1) /\
    sum_Z (map (fun kv => nth 2 (contratos (snd kv)) 0) res) =
    Z.of_nat (List.length
                (filter (active_at (Timestamp_ymd 2020 3 1))
                        (filter (isin ["B"%string; "A"%string]) sample_two))).
Proof.
  split; [exact sample_selection_nodup|].
  exists (match calculate_active_contracts_by_month (Some sample_two)
                  ["B"%string; "A"%string] with
          | Ok r => r | Raise _ => [] end),
         (match month_grid (filter (isin ["B"%string; "A"%string]) sample_two)
          with Ok g => g | Raise _ => [] end).
  assert (H1 : calculate_active_contracts_by_month (Some sample_two)
                 ["B"%string; "A"%string]
               = Ok (match calculate_active_contracts_by_month (Some sample_two)
                             ["B"%string; "A"%string] with
                     | Ok r => r | Raise _ => [] end))
    by (vm_compute; reflexivity).
  assert (H2 : month_grid (filter (isin ["B"%string; "A"%string]) sample_two)
               = Ok (match month_grid
                             (filter (isin ["B"%string; "A"%string]) sample_two)
                     with Ok g => g | Raise _ => [] end))
    by (vm_compute; reflexivity).
  assert (H3 : nth_error
                 (match month_grid
                          (filter (isin ["B"%string; "A"%string]) sample_two)
                  with Ok g => g | Raise _ => [] end) 2
               = Some (Timestamp_ymd 2020 3 1))
    by (vm_compute; reflexivity).
  split; [exact H1|]. split; [exact H2|]. split; [exact H3|].
  exact (counts_partition sample_two ["B"%string; "A"%string] _ _ 2%nat _
           sample_selection_nodup H1 H2 H3).
Defined.

Lemma series_shape_witness :
  exists res,
    calculate_active_contracts_by_month (Some sample_a) ["A"%string] = Ok res /\
    NoDup (map fst res).
Proof.
  eexists. split; [reflexivity|].
  exact (proj1 (series_shape sample_a ["A"%string] _ eq_refl)).
Defined.

Lemma month_grid_general_witness :
  sample_with_times <> [] /\ Forall validated sample_with_times /\
  exists grid,
    month_grid sample_with_times = Ok grid /\ StronglySorted ts_lt grid.
Proof.
  split; [discriminate|]. split; [exact sample_with_times_validated|].
  destruct (month_grid_general sample_with_times)
    as (lo & hi & grid & _ & _ & Hg & Hs & _);
    [discriminate|exact sample_with_times_validated|].
  exists grid. split; assumption.
Defined.

Lemma timeline_draws_each_once_witness :
  NoDup ["B"%string; "A"%string] /\
  exists fig,
    result_of (create_timeline_chart (Some sample_two)
                 ["B"%string; "A"%string]) [] = Some fig /\
    List.length (fig_data fig) =
    List.length (filter (isin ["B"%string; "A"%string]) sample_two).
Proof.
  split; [exact sample_selection_nodup|].
  eexists. split; [reflexivity|].
  exact (proj2 (timeline_draws_each_once sample_two ["B"%string; "A"%string]
                  [] _ sample_selection_nodup eq_refl)).
Defined.

Lemma timeline_rows_nondecreasing_witness :
  exists fig,
    result_of (create_timeline_chart (Some sample_two)
                 ["B"%string; "A"%string]) [] = Some fig /\
    StronglySorted Z.le (map trace_y (fig_data fig)).
Proof.
  eexists. split; [reflexivity|].
  exact (proj1 (timeline_rows_nondecreasing sample_two ["B"%string; "A"%string]
                  [] _ eq_refl)).
Defined.

Lemma timeline_tick_labels_witness :
  exists fig,
    result_of (create_timeline_chart (Some sample_two)
                 ["B"%string; "C"%string; "A"%string]) [] = Some fig /\
    fig_ticktext fig =
    filter (has_rows (filter (isin ["B"%string; "C"%string; "A"%string])
                             sample_two))
           ["B"%string; "C"%string; "A"%string].
Proof.
  eexists. split; [reflexivity|].
  exact (proj1 (timeline_tick_labels sample_two
                  ["B"%string; "C"%string; "A"%string] [] _ eq_refl)).
Defined.

Lemma timeline_colours_witness :
  NoDup ["B"%string; "A"%string] /\
  exists fig t,
    result_of (create_timeline_chart (Some sample_two)
                 ["B"%string; "A"%string]) [] = Some fig /\
    In t (fig_data fig) /\
    nth_error ["B"%string; "A"%string] 1 = Some (hover_categoria t) /\
    trace_color t = Nat.modulo 1 12.
Proof.
  split; [exact sample_selection_nodup|].
  eexists. eexists. split; [reflexivity|].
  assert (Hin : In (scatter "A" 1 "000000001" 3 sample_p1)
                   (fig_data (timeline_figure
                                (filter (isin ["B"%string; "A"%string]) sample_two)
                                ["B"%string; "A"%string]))).
  { right. left. reflexivity. }
  split; [exact Hin|]. split; [reflexivity|].
  exact (timeline_colours sample_two ["B"%string; "A"%string] [] _ _ 1%nat
           sample_selection_nodup eq_refl Hin eq_refl).
Defined.

Lemma persons_in_order_of_appearance_witness :
  NoDup ["A"%string] /\
  exists fig t1 t2,
    result_of (create_timeline_chart (Some sample_a) ["A"%string]) [] = Some fig /\
    In t1 (fig_data fig) /\ In t2 (fig_data fig) /\
    hover_dni t1 = "000000001"%string /\ hover_dni t2 = "000000002"%string /\
    trace_y t1 < trace_y t2.
Proof.
  assert (Hnd : NoDup ["A"%string]).
  { repeat constructor; cbn; intuition. }
  split; [exact Hnd|].
  eexists. eexists. eexists. split; [reflexivity|].
  assert (H1 : In (scatter "A" 0 "000000001" 0 sample_p1)
                  (fig_data (timeline_figure
                               (filter (isin ["A"%string]) sample_a)
                               ["A"%string]))).
  { left. reflexivity. }
  assert (H2 : In (scatter "A" 0 "000000002" 1 sample_p2)
                  (fig_data (timeline_figure
                               (filter (isin ["A"%string]) sample_a)
                               ["A"%string]))).
  { right. right. left. reflexivity. }
  split; [exact H1|]. split; [exact H2|].
  split; [reflexivity|]. split; [reflexivity|].
  apply (persons_in_order_of_appearance sample_a ["A"%string] [] _
           "A"%string "000000001"%string "000000002"%string
           [] ["000000002"%string; "000000001"%string] _ _
           Hnd eq_refl eq_refl);
    [intros []|left; reflexivity|discriminate
    |exact H1|exact H2|reflexivity|reflexivity|reflexivity|reflexivity].
Defined.

Lemma chart_lines_follow_selection_witness :
  NoDup ["B"%string; "A"%string] /\ sample_two <> [] /\
  exists res chart,
    calculate_active_contracts_by_month (Some sample_two)
      ["B"%string; "A"%string] = Ok res /\
    create_active_contracts_chart res = Some chart /\
    map line_name (line_data chart) = ["B"%string; "A"%string].
Proof.
  split; [exact sample_selection_nodup|]. split; [discriminate|].
  destruct (chart_lines_follow_selection sample_two ["B"%string; "A"%string] _
              sample_selection_nodup ltac:(discriminate) eq_refl)
    as (chart & grid & H1 & _ & H3 & _).
  eexists. exists chart. split; [reflexivity|]. split; [exact H1|exact H3].
Defined.

Lemma colours_agree_witness :
  NoDup ["B"%string; "A"%string] /\
  exists res chart fig t l,
    calculate_active_contracts_by_month (Some sample_two)
      ["B"%string; "A"%string] = Ok res /\
    create_active_contracts_chart res = Some chart /\
    result_of (create_timeline_chart (Some sample_two)
                 ["B"%string; "A"%string]) [] = Some fig /\
    In t (fig_data fig) /\ In l (line_data chart) /\
    line_name l = hover_categoria t /\
    line_color l = trace_color t.
Proof.
  split; [exact sample_selection_nodup|].
  destruct (chart_some
              (fold_left (categoria_series
                            (filter (isin ["B"%string; "A"%string]) sample_two)
                            (months_between (Timestamp_ymd 2020 1 10)
                                            (Timestamp_ymd 2021 1 20)))
                         ["B"%string; "A"%string] []))
    as (chart & Hchart); [discriminate|].
  pose proof Hchart as Hc0. cbn [fold_left categoria_series Py.dict_set
                                  create_active_contracts_chart] in Hc0.
  exists (fold_left (categoria_series
                       (filter (isin ["B"%string; "A"%string]) sample_two)
                       (months_between (Timestamp_ymd 2020 1 10)
                                       (Timestamp_ymd 2021 1 20)))
                    ["B"%string; "A"%string] []), chart.
  eexists.
  exists (scatter "A" 1 "000000001" 3 sample_p1).
  assert (Hl : exists l, In l (line_data chart) /\ line_name l = "A"%string).
  { pose proof (chart_line_names _ _ Hchart) as Hn.
    assert (Ha : In "A"%string (map line_name (line_data chart))).
    { rewrite Hn. right. left. reflexivity. }
    apply in_map_iff in Ha. destruct Ha as (l & E & Hin). eauto. }
  destruct Hl as (l & Hin & Hname). exists l.
  assert (Hres : calculate_active_contracts_by_month (Some sample_two)
                   ["B"%string; "A"%string]
                 = Ok (fold_left (categoria_series
                            (filter (isin ["B"%string; "A"%string]) sample_two)
                            (months_between (Timestamp_ymd 2020 1 10)
                                            (Timestamp_ymd 2021 1 20)))
                         ["B"%string; "A"%string] [])) by reflexivity.
  assert (Ht : In (scatter "A" 1 "000000001" 3 sample_p1)
                  (fig_data (timeline_figure
                               (filter (isin ["B"%string; "A"%string]) sample_two)
                               ["B"%string; "A"%string])))
    by (right; left; reflexivity).
  split; [exact Hres|]. split; [exact Hchart|]. split; [reflexivity|].
  split; [exact Ht|]. split; [exact Hin|]. split; [exact Hname|].
  exact (colours_agree sample_two ["B"%string; "A"%string] _ chart [] _ _ l
           sample_selection_nodup Hres Hchart eq_refl Ht Hin Hname).
Defined.

Lemma main_views_succeeds_witness :
  result_of (load_data (Ok sample_sheet)) [] = Some sample_df /\
  In sample_p1 sample_df /\ In (CATEGORIA sample_p1) ["A"%string] /\
  exists v, result_of (main_views (Ok sample_sheet) ["A"%string]) [] = Ok (Some v).
Proof.
  split; [reflexivity|]. split; [left; reflexivity|]. split; [left; reflexivity|].
  assert (Hload : result_of (load_data (Ok sample_sheet)) [] = Some sample_df)
    by reflexivity.
  destruct (main_views_succeeds (Ok sample_sheet) ["A"%string] [] sample_df
              sample_p1 Hload
              ltac:(left; reflexivity) ltac:(left; reflexivity))
    as (v & chart & H & _).
  exists v. exact H.
Defined.

Lemma default_selection_succeeds_witness :
  result_of (load_data (Ok sample_sheet)) [] = Some sample_df /\
  sample_df <> [] /\
  exists v,
    result_of (main_views (Ok sample_sheet) (categorias_disponibles sample_df))
              [] = Ok (Some v).
Proof.
  split; [reflexivity|]. split; [discriminate|].
  assert (Hload : result_of (load_data (Ok sample_sheet)) [] = Some sample_df)
    by reflexivity.
  destruct (default_selection_succeeds (Ok sample_sheet) [] sample_df Hload
              ltac:(discriminate)) as (v & chart & fig & H & _).
  exists v. exact H.
Defined.

Lemma summary_totals_witness :
  NoDup ["B"%string; "A"%string] /\
  sum_Z (map (fun s => Z.of_nat (resumen_contratos s))
             (resumen_categorias sample_two ["B"%string; "A"%string]))
  = Z.of_nat (total_contratos (main_metrics sample_two ["B"%string; "A"%string])).
Proof.
  split; [exact sample_selection_nodup|].
  exact (proj1 (proj2 (summary_totals sample_two ["B"%string; "A"%string]
                         sample_selection_nodup))).
Defined.

Lemma timeline_height_witness :
  exists fig,
    result_of (create_timeline_chart (Some sample_two)
                 ["B"%string; "A"%string]) [] = Some fig /\
    600 <= fig_height fig.
Proof.
  eexists. split; [reflexivity|].
  exact (proj1 (proj2 (timeline_height sample_two ["B"%string; "A"%string]
                         [] _ eq_refl))).
Defined.
